(** * Model registry of trans-ai/jan: a shallow embedding

    The development embeds the parts of
    [core/src/node/api/restful/rag/remolink.ts] (class [JanModelExtension])
    and [core/src/node/api/restful/helper/builder.ts] that the registry
    properties are about, and proves or refutes those properties.

    Part I holds the embedding, Part II the lemmas and theorems. *)

From Stdlib Require Import Ascii.
From stdpp Require Import gmap strings pretty list sorting.

Set Warnings "-register-all,-clear-no-such-hyp".
Local Open Scope Z_scope.

(* ===================================================================== *)
(** * Part I. The embedding                                               *)
(* ===================================================================== *)

(** ** JavaScript values

    Descriptors, header metadata and JSON documents are dynamically typed
    objects in the source, so they are embedded as one type of values.
    Numbers are the integer-valued ones (every number the code reads or
    writes here is a size, a count or an id) plus [NaN]; objects keep their
    properties in insertion order, as a JavaScript object does. Properties
    inherited from a prototype ([toString], [constructor]) are not modelled. *)

Inductive jsval : Type :=
  | JUndefined
  | JNull
  | JBool (b : bool)
  | JNum (n : Z)
  | JNaN
  | JStr (s : string)
  | JArr (xs : list jsval)
  | JObj (ps : list (string * jsval)).

(** Exceptions and the outcome of a computation that may throw (for an
    [async] function: a promise that resolves or rejects). *)
Inductive exn : Type :=
  | TypeError
  | SyntaxError
  | Error (msg : string)
  | FsError (code : string).

Inductive res (A : Type) : Type :=
  | Ok (a : A)
  | Throw (e : exn).
Arguments Ok {A} a.
Arguments Throw {A} e.

Global Instance res_ret : MRet res := @Ok.
Global Instance res_bind : MBind res := λ A B f m,
  match m with Ok a => f a | Throw e => Throw e end.

Module Js.

(** [v == null]: the operand of [??] and [?.] that counts as absent. *)
Definition nullish (v : jsval) : bool :=
  match v with JUndefined | JNull => true | _ => false end.

(** ToBoolean, as used by [c ? a : b], [!v] and [!!v]. *)
Definition truthy (v : jsval) : bool :=
  match v with
  | JUndefined | JNull | JNaN => false
  | JBool b => b
  | JNum n => negb (n =? 0)
  | JStr s => negb (String.eqb s "")
  | JArr _ | JObj _ => true
  end.

(** [a ?? b] when [b] cannot throw. *)
Definition coalesce (a b : jsval) : jsval := if nullish a then b else a.

Definition join (sep : string) (l : list string) : string :=
  match l with
  | [] => ""
  | s :: r => fold_left (λ acc x, acc +:+ sep +:+ x) r s
  end.

(** ToString, as a template literal applies it. *)
Fixpoint to_string (v : jsval) : string :=
  match v with
  | JUndefined => "undefined"
  | JNull => "null"
  | JBool true => "true"
  | JBool false => "false"
  | JNum n => pretty n
  | JNaN => "NaN"
  | JStr s => s
  | JArr xs =>
      join "," (map (λ x, if nullish x then "" else to_string x) xs)
  | JObj _ => "[object Object]"
  end.

(** Own property of an object, [undefined] when there is none. *)
Fixpoint lookup_prop (k : string) (ps : list (string * jsval)) : jsval :=
  match ps with
  | [] => JUndefined
  | (k', v) :: r => if String.eqb k' k then v else lookup_prop k r
  end.

Definition has_prop (k : string) (ps : list (string * jsval)) : bool :=
  existsb (λ p, String.eqb (fst p) k) ps.

(** The element whose index prints as the key [k]: an array index is a
    property whose name is the canonical decimal numeral of the index. *)
Fixpoint index_prop {A} (k : string) (i : nat) (l : list A) : option A :=
  match l with
  | [] => None
  | x :: r =>
      if String.eqb (pretty (Z.of_nat i)) k then Some x
      else index_prop k (S i) r
  end.

Fixpoint chars (s : string) : list string :=
  match s with
  | EmptyString => []
  | String c r => String c EmptyString :: chars r
  end.

(** [v[k]] for a property name [k]: a TypeError on [undefined] and
    [null], the own property otherwise. *)
Definition get (v : jsval) (k : string) : res jsval :=
  match v with
  | JUndefined | JNull => Throw TypeError
  | JObj ps => Ok (lookup_prop k ps)
  | JArr xs =>
      if String.eqb k "length" then Ok (JNum (Z.of_nat (length xs)))
      else Ok (default JUndefined (index_prop k 0 xs))
  | JStr s =>
      if String.eqb k "length" then Ok (JNum (Z.of_nat (String.length s)))
      else Ok (default JUndefined (JStr <$> index_prop k 0 (chars s)))
  | JBool _ | JNum _ | JNaN => Ok JUndefined
  end.

(** [v[e]] for a computed key: the key is converted to a property name. *)
Definition elem (v k : jsval) : res jsval := get v (to_string k).

(** Define or overwrite an own property; a new one goes last. *)
Fixpoint set_prop (k : string) (v : jsval) (ps : list (string * jsval))
  : list (string * jsval) :=
  match ps with
  | [] => [(k, v)]
  | (k', v') :: r =>
      if String.eqb k' k then (k', v) :: r else (k', v') :: set_prop k v r
  end.

Fixpoint indexed {A} (i : nat) (l : list A) : list (string * A) :=
  match l with
  | [] => []
  | x :: r => (pretty (Z.of_nat i), x) :: indexed (S i) r
  end.

(** The own enumerable properties that [...v] copies. *)
Definition own_props (v : jsval) : list (string * jsval) :=
  match v with
  | JObj ps => ps
  | JArr xs => indexed 0 xs
  | JStr s => indexed 0 (JStr <$> chars s)
  | _ => []
  end.

(** One member of an object literal: [k: v] or [...v]. *)
Inductive member : Type :=
  | Field (k : string) (v : jsval)
  | Spread (v : jsval).

Definition add_member (ps : list (string * jsval)) (m : member)
  : list (string * jsval) :=
  match m with
  | Field k v => set_prop k v ps
  | Spread v => fold_left (λ acc p, set_prop (fst p) (snd p) acc) (own_props v) ps
  end.

(** The object literal [{ m1, m2, ... }], members evaluated left to right. *)
Definition object (ms : list member) : jsval :=
  JObj (fold_left add_member ms []).

(** [v + 1]. *)
Definition plus_one (v : jsval) : jsval :=
  match v with
  | JNum n => JNum (n + 1)
  | JBool true => JNum 2
  | JBool false | JNull => JNum 1
  | JUndefined | JNaN => JNaN
  | JStr _ | JArr _ | JObj _ => JStr (to_string v +:+ "1")
  end.

(** [a === b] for a string [b]. *)
Definition strict_eq_str (a : jsval) (b : string) : bool :=
  match a with JStr s => String.eqb s b | _ => false end.

(** The JSON document that [JSON.stringify] writes for a value, as the
    value [JSON.parse] reads back from it: properties whose value is
    [undefined] are left out, [undefined] in an array and [NaN] become
    [null]. *)
Fixpoint json (v : jsval) : jsval :=
  match v with
  | JObj ps =>
      JObj ((fix props (l : list (string * jsval)) :=
               match l with
               | [] => []
               | (k, x) :: r =>
                   match x with
                   | JUndefined => props r
                   | _ => (k, json x) :: props r
                   end
               end) ps)
  | JArr xs =>
      JArr ((fix elems (l : list jsval) :=
               match l with
               | [] => []
               | x :: r =>
                   match x with
                   | JUndefined => JNull :: elems r
                   | _ => json x :: elems r
                   end
               end) xs)
  | JNaN => JNull
  | _ => v
  end.

End Js.

(** ** The metadata codec: [retrieveGGUFMetadata]

    [DEFAULT_MODEL] is a build-time constant, [renderJinjaTemplate] runs in
    the main process and [getJanDataFolderPath] belongs to [@janhq/core];
    none is part of the sources, so they are taken from an environment, and
    so is the byte length of the text [JSON.stringify(v, null, 2)], which
    the embedding does not spell out. *)

Record env : Type := {
  DEFAULT_MODEL : jsval;
  renderJinjaTemplate : jsval → res jsval;
  janDataFolderPath : list string;
  json_length : jsval → Z;
}.

Definition catch_undefined (r : res jsval) : jsval :=
  match r with Ok v => v | Throw _ => JUndefined end.

Definition retrieveGGUFMetadata (E : env) (metadata : jsval) : res jsval :=
  let defaultModel := DEFAULT_MODEL E in
  let template := catch_undefined (renderJinjaTemplate E metadata) in
  eos_id ← Js.get metadata "tokenizer.ggml.eos_token_id";
  architecture ← Js.get metadata "general.architecture";
  prompt_template ←
    (if Js.nullish template
     then s ← Js.get defaultModel "settings"; Js.get s "prompt_template"
     else Ok template);
  ctx_a ← Js.get metadata (Js.to_string architecture +:+ ".context_length");
  ctx_l ← Js.get metadata "llama.context_length";
  let ctx_len := Js.coalesce ctx_a (Js.coalesce ctx_l (JNum 4096)) in
  blk_a ← Js.get metadata (Js.to_string architecture +:+ ".block_count");
  blk_l ← Js.get metadata "llama.block_count";
  let ngl := Js.plus_one (Js.coalesce blk_a (Js.coalesce blk_l (JNum 32))) in
  stop ←
    (if Js.truthy eos_id
     then
       tok ← (if Js.nullish metadata then Ok JUndefined
              else tokens ← Js.get metadata "tokenizer.ggml.tokens";
                   Js.elem tokens eos_id);
       Ok (JArr [Js.coalesce tok (JStr "")])
     else p ← Js.get defaultModel "parameters"; Js.get p "stop");
  Ok (Js.object
        [Js.Field "settings"
           (Js.object [Js.Field "prompt_template" prompt_template;
                       Js.Field "ctx_len" ctx_len;
                       Js.Field "ngl" ngl]);
         Js.Field "parameters" (Js.object [Js.Field "stop" stop])]).

(** ** The file system

    The [fs] object of [@janhq/core] and Node's [fs] module are outside the
    sources; the embedding gives them the usual meaning over a finite map
    from paths to nodes. A path is the list of its components, so that
    [joinPath], [baseName] and [dirName] work on components. A file holds
    its byte length and what its bytes are read as. *)

Inductive content : Type :=
  | Json (v : jsval)      (* the text of a JSON document whose value is [v] *)
  | Gguf (header : jsval) (* a model binary with header metadata [header] *)
  | Opaque                (* other bytes: neither JSON nor GGUF *)
  | Empty.                (* no bytes at all *)

Inductive node : Type :=
  | Dir
  | File (size : Z) (data : content).

Module Stat.
Record stats : Type := { isDirectory : bool; size : Z }.
End Stat.
Abbreviation stats := Stat.stats.

Module Fs.

Abbreviation t := (gmap (list string) node).

(** The segments of a string between its separators. *)
Fixpoint split (s : string) : list string :=
  match s with
  | EmptyString => [EmptyString]
  | String c r =>
      if Ascii.eqb c "/"%char then EmptyString :: split r
      else match split r with
           | [] => [String c EmptyString]
           | seg :: segs => String c seg :: segs
           end
  end.

(** One step of [path.join]: empty and [.] components vanish, [..] goes
    up. *)
Definition push (p : list string) (n : string) : list string :=
  if String.eqb n "" || String.eqb n "." then p
  else if String.eqb n ".." then removelast p
  else p ++ [n].

(** [joinPath([base, n1, n2, ...])] and [path.join(base, n1, n2, ...)]. *)
Definition joinPath (base : list string) (names : list string) : list string :=
  fold_left push (names ≫= split) base.

Definition baseName (p : list string) : string := default "" (last p).
Definition dirName (p : list string) : list string := removelast p.

Definition existsSync (fs : t) (p : list string) : bool :=
  bool_decide (is_Some (fs !! p)).

(** [child_name p q = Some n] when [q] is the entry [n] of directory [p]. *)
Fixpoint child_name (p q : list string) : option string :=
  match p, q with
  | [], [n] => Some n
  | a :: p', b :: q' => if String.eqb a b then child_name p' q' else None
  | _, _ => None
  end.

Definition entries (fs : t) (p : list string) : list string :=
  omap (λ kv, child_name p (fst kv)) (map_to_list fs).

Definition readdirSync (fs : t) (p : list string) : res (list string) :=
  match fs !! p with
  | Some Dir => Ok (entries fs p)
  | Some (File _ _) => Throw (FsError "ENOTDIR")
  | None => Throw (FsError "ENOENT")
  end.

Definition fileStat (fs : t) (p : list string) : res stats :=
  match fs !! p with
  | Some Dir => Ok {| Stat.isDirectory := true; Stat.size := 0 |}
  | Some (File n _) => Ok {| Stat.isDirectory := false; Stat.size := n |}
  | None => Throw (FsError "ENOENT")
  end.

Definition readFileSync (fs : t) (p : list string) : res content :=
  match fs !! p with
  | Some (File _ d) => Ok d
  | Some Dir => Throw (FsError "EISDIR")
  | None => Throw (FsError "ENOENT")
  end.

(** Replace the whole contents of the file at [p], creating it if needed. *)
Definition writeFileSync (fs : t) (p : list string) (n : Z) (d : content)
  : res t :=
  match fs !! p with
  | Some Dir => Throw (FsError "EISDIR")
  | Some (File _ _) => Ok (<[p := File n d]> fs)
  | None =>
      match fs !! dirName p with
      | Some Dir => Ok (<[p := File n d]> fs)
      | _ => Throw (FsError "ENOENT")
      end
  end.

Definition mkdir (fs : t) (p : list string) : res t :=
  match fs !! p with
  | Some _ => Throw (FsError "EEXIST")
  | None => Ok (<[p := Dir]> fs)
  end.

Definition copyFile (fs : t) (src dst : list string) : res t :=
  match fs !! src with
  | Some (File n d) => writeFileSync fs dst n d
  | Some Dir => Throw (FsError "EISDIR")
  | None => Throw (FsError "ENOENT")
  end.

(** [rmdirSync(p, { recursive: true })]: the directory and all below it. *)
Definition rmdirSync (fs : t) (p : list string) : res t :=
  match fs !! p with
  | Some Dir => Ok (filter (λ kv, ¬ p `prefix_of` fst kv) fs)
  | Some (File _ _) => Throw (FsError "ENOTDIR")
  | None => Throw (FsError "ENOENT")
  end.

(** [JSON.parse] of the text of a file. *)
Definition parse (d : content) : res jsval :=
  match d with Json v => Ok v | _ => Throw SyntaxError end.

(** Reading the header metadata of a binary (the [retrieveGGUFMetadata]
    entry of the main process). *)
Definition readGguf (fs : t) (p : list string) : res jsval :=
  d ← readFileSync fs p;
  match d with Gguf h => Ok h | _ => Throw (Error "not a GGUF file") end.

(** A path written as a string, and read back from one. *)
Definition show (p : list string) : string := "/" +:+ Js.join "/" p.
Definition read (s : string) : list string := joinPath [] [s].

End Fs.

(** ** Strings *)

Module Str.

Fixpoint ends_with (suffix s : string) : bool :=
  String.eqb s suffix ||
  match s with
  | EmptyString => false
  | String _ r => ends_with suffix r
  end.

(** [s.replace(/\s/g, '')] *)
Fixpoint remove_spaces (s : string) : string :=
  match s with
  | EmptyString => EmptyString
  | String c r =>
      if Ascii.is_space c then remove_spaces r else String c (remove_spaces r)
  end.

Fixpoint drop (n : nat) (s : string) : string :=
  match n, s with
  | S n', String _ r => drop n' r
  | _, _ => s
  end.

(** [s.replace(pat, rep)] for a string pattern: the first occurrence. *)
Fixpoint replace_first (pat rep s : string) : string :=
  if String.prefix pat s then rep +:+ drop (String.length pat) s
  else match s with
       | EmptyString => EmptyString
       | String c r => String c (replace_first pat rep r)
       end.

(** No path separator occurs in the string. *)
Fixpoint no_separator (s : string) : bool :=
  match s with
  | EmptyString => true
  | String c r => negb (Ascii.eqb c "/"%char) && no_separator r
  end.

(** [files.sort()]: by code units. *)
Definition sort (l : list string) : list string := merge_sort String.le l.

End Str.

(** ** The world of the extension: files, timers, events, console *)

Record ImportingModel : Type := { importId : string; path : list string }.

Inductive OptionType : Type := SYMLINK | MOVE_BINARY_FILE.

(** The events of [LocalImportModelEvent]. The payload of an update is the
    importing model and, from the progress timer, the quotient
    [destStats.size / srcStat.size], kept as the pair of the two sizes. *)
Inductive event : Type :=
  | onLocalImportModelUpdate (m : ImportingModel) (percentage : option (Z * Z))
  | onLocalImportModelSuccess (m : ImportingModel) (modelId : jsval)
  | onLocalImportModelFailed (m : ImportingModel) (error : exn)
  | onLocalImportModelFinished (models : list jsval).

(** The callback of the one [setInterval] of the import pipeline. *)
Inductive timer : Type :=
  | ProgressPoll (m : ImportingModel) (binaryPath : list string) (srcSize : Z).

Inductive console_line : Type :=
  | console_debug (s : string)
  | console_warn (s : string)
  | console_error (s : string)
  | console_error_exn (e : exn).

Record world : Type := {
  fs : gmap (list string) node;
  timers : list (nat * timer);
  next_timer : nat;
  emitted : list event;
  console : list console_line;
  now : Z;
}.

Definition set_fs (f : gmap (list string) node) (w : world) : world :=
  {| fs := f; timers := timers w; next_timer := next_timer w;
     emitted := emitted w; console := console w; now := now w |}.

(** An operation of the extension: it runs in a world, returns or throws,
    and leaves a world behind in both cases. *)
Definition M (A : Type) : Type := world → res A * world.

Global Instance M_ret : MRet M := λ A a w, (Ok a, w).
Global Instance M_bind : MBind M := λ A B f m w,
  match m w with
  | (Ok a, w') => f a w'
  | (Throw e, w') => (Throw e, w')
  end.

Module Op.

Definition lift {A} (r : res A) : M A := λ w, (r, w).

(** [try { m } catch (e) { h e }] *)
Definition try_catch {A} (m : M A) (h : exn → M A) : M A := λ w,
  match m w with
  | (Ok a, w') => (Ok a, w')
  | (Throw e, w') => h e w'
  end.

Definition read {A} (f : gmap (list string) node → res A) : M A :=
  λ w, (f (fs w), w).

Definition write (f : gmap (list string) node → res (gmap (list string) node))
  : M unit := λ w,
  match f (fs w) with
  | Ok f' => (Ok tt, set_fs f' w)
  | Throw e => (Throw e, w)
  end.

Definition emit (e : event) : M unit := λ w,
  (Ok tt, {| fs := fs w; timers := timers w; next_timer := next_timer w;
             emitted := emitted w ++ [e]; console := console w; now := now w |}).

Definition log (l : console_line) : M unit := λ w,
  (Ok tt, {| fs := fs w; timers := timers w; next_timer := next_timer w;
             emitted := emitted w; console := console w ++ [l]; now := now w |}).

Definition Date_now : M Z := λ w, (Ok (now w), w).

Definition setInterval (cb : timer) : M nat := λ w,
  (Ok (next_timer w),
   {| fs := fs w; timers := timers w ++ [(next_timer w, cb)];
      next_timer := S (next_timer w);
      emitted := emitted w; console := console w; now := now w |}).

Definition clearInterval (id : nat) : M unit := λ w,
  (Ok tt,
   {| fs := fs w; timers := filter (λ t, fst t ≠ id) (timers w);
      next_timer := next_timer w;
      emitted := emitted w; console := console w; now := now w |}).

(** One firing of a live timer: the callback of [importModel] stats the
    destination and emits the progress; when the stat fails the callback
    rejects and nothing is emitted. *)
Definition fire (t : timer) : M unit :=
  match t with
  | ProgressPoll m binaryPath srcSize =>
      try_catch
        (destStats ← read (λ f, Fs.fileStat f binaryPath);
         emit (onLocalImportModelUpdate m (Some (Stat.size destStats, srcSize))))
        (λ _, mret tt)
  end.

(** One second passes: every live timer fires once. *)
Definition tick : M unit := λ w,
  fold_left (λ acc t, match fire (snd t) (snd acc) with (_, w') => (Ok tt, w') end)
    (timers w) (Ok tt, w).

End Op.

(** ** [JanModelExtension] (remolink.ts) *)

Module JanModelExtension.

Definition _homeDir : string := "file://models".
Definition _modelMetadataFileName : string := "model.json".
Definition _supportedModelFormat : string := ".gguf".

(** The [fs] object resolves a [file://] path against the Jan data folder. *)
Definition resolve (E : env) (s : string) : list string :=
  if String.prefix "file://" s
  then Fs.joinPath (janDataFolderPath E) [Str.drop 7 s]
  else Fs.read s.

Definition homeDir (E : env) : list string := resolve E _homeDir.

(** [fs.writeFileSync(p, JSON.stringify(v, null, 2))] *)
Definition writeJson (E : env) (p : list string) (v : jsval) : M unit :=
  Op.write (λ f, Fs.writeFileSync f p (json_length E (Js.json v)) (Json (Js.json v))).

(** The [for] loop of [generateModelMetadata] over the sorted listing. *)
Fixpoint findBinary (E : env) (dirName : string) (files : list string)
  : M (option (string * Z)) :=
  match files with
  | [] => mret None
  | file :: rest =>
      if Str.ends_with _supportedModelFormat file then
        fileStats ← Op.read (λ f,
          Fs.fileStat f (Fs.joinPath (homeDir E) [dirName; file]));
        if Stat.isDirectory fileStats then findBinary E dirName rest
        else mret (Some (file, Stat.size fileStats))
      else findBinary E dirName rest
  end.

Definition generateModelMetadata (E : env) (dirName : string) : M jsval :=
  files ← Op.read (λ f, Fs.readdirSync f (Fs.joinPath (homeDir E) [dirName]));
  let files := Str.sort files in
  found ← findBinary E dirName files;
  match found with
  | None =>
      _ ← Op.log (console_warn ("Unable to find binary file for model " +:+ dirName));
      mret JUndefined
  | Some (binaryFileName, binaryFileSize) =>
      let defaultModel := DEFAULT_MODEL E in
      metadata ←
        Op.try_catch
          (Op.read (λ f, Fs.readGguf f
             (Fs.joinPath (janDataFolderPath E)
                ["models"; dirName; binaryFileName])))
          (λ _, mret JUndefined);
      updatedModel ← Op.lift (retrieveGGUFMetadata E metadata);
      if negb (Js.truthy defaultModel) then
        _ ← Op.log (console_error "Unable to find default model");
        mret JUndefined
      else
        defaultParameters ← Op.lift (Js.get defaultModel "parameters");
        updatedParameters ← Op.lift (Js.get updatedModel "parameters");
        defaultSettings ← Op.lift (Js.get defaultModel "settings");
        updatedSettings ← Op.lift (Js.get updatedModel "settings");
        created ← Op.Date_now;
        let model :=
          Js.object
            [Js.Spread defaultModel;
             Js.Field "id" (JStr dirName);
             Js.Field "name" (JStr dirName);
             Js.Field "sources"
               (JArr [Js.object [Js.Field "url" (JStr binaryFileName);
                                 Js.Field "filename" (JStr binaryFileName)]]);
             Js.Field "parameters"
               (Js.object [Js.Spread defaultParameters;
                           Js.Spread updatedParameters]);
             Js.Field "settings"
               (Js.object [Js.Spread defaultSettings;
                           Js.Spread updatedSettings;
                           Js.Field "llama_model_path" (JStr binaryFileName)]);
             Js.Field "created" (JNum created);
             Js.Field "description" (JStr "");
             Js.Field "metadata"
               (Js.object [Js.Field "size" (JNum binaryFileSize);
                           Js.Field "author" (JStr "User");
                           Js.Field "tags" (JArr [])])] in
        let modelFilePath :=
          Fs.joinPath (homeDir E) [dirName; _modelMetadataFileName] in
        _ ← writeJson E modelFilePath model;
        mret model
  end.

Definition importModelSymlink (E : env) (modelBinaryPath : list string)
    (modelFolderName : string) (modelFolderPath : list string) : M jsval :=
  fileStats ← Op.read (λ f, Fs.fileStat f modelBinaryPath);
  let binaryFileSize := Stat.size fileStats in
  let defaultModel := DEFAULT_MODEL E in
  if negb (Js.truthy defaultModel) then
    _ ← Op.log (console_error "Unable to find default model");
    mret JUndefined
  else
    metadata ← Op.read (λ f, Fs.readGguf f modelBinaryPath);
    let binaryFileName := Fs.baseName modelBinaryPath in
    updatedModel ← Op.lift (retrieveGGUFMetadata E metadata);
    defaultParameters ← Op.lift (Js.get defaultModel "parameters");
    updatedParameters ← Op.lift (Js.get updatedModel "parameters");
    defaultSettings ← Op.lift (Js.get defaultModel "settings");
    updatedSettings ← Op.lift (Js.get updatedModel "settings");
    created ← Op.Date_now;
    let model :=
      [Js.Spread defaultModel;
       Js.Field "id" (JStr modelFolderName);
       Js.Field "name" (JStr modelFolderName);
       Js.Field "sources"
         (JArr [Js.object [Js.Field "url" (JStr (Fs.show modelBinaryPath));
                           Js.Field "filename" (JStr binaryFileName)]]);
       Js.Field "parameters"
         (Js.object [Js.Spread defaultParameters;
                     Js.Spread updatedParameters]);
       Js.Field "settings"
         (Js.object [Js.Spread defaultSettings;
                     Js.Spread updatedSettings;
                     Js.Field "llama_model_path" (JStr binaryFileName)]);
       Js.Field "created" (JNum created);
       Js.Field "description" (JStr "");
       Js.Field "metadata"
         (Js.object [Js.Field "size" (JNum binaryFileSize);
                     Js.Field "author" (JStr "User");
                     Js.Field "tags" (JArr [])])] in
    let modelFilePath := Fs.joinPath modelFolderPath [_modelMetadataFileName] in
    _ ← writeJson E modelFilePath (Js.object model);
    mret (Js.object
            [Js.Spread (Js.object model);
             Js.Field "file_path" (JStr (Fs.show modelFilePath));
             Js.Field "file_name" (JStr _modelMetadataFileName)]).

(** [fs.readFileSync(p, 'utf-8')] for a path held in a value. *)
Definition path_of (E : env) (v : jsval) : res (list string) :=
  match v with
  | JStr s => Ok (resolve E s)
  | _ => Throw TypeError
  end.

Definition readModelMetadata (E : env) (file_path : jsval) : M content :=
  p ← Op.lift (path_of E file_path);
  Op.read (λ f, Fs.readFileSync f p).

Definition updateModelInfo (E : env) (modelInfo : jsval) : M jsval :=
  id ← Op.lift (Js.get modelInfo "id");
  if Js.nullish id then Op.lift (Throw (Error "Model ID is required"))
  else
    file_path ← Op.lift (Js.get modelInfo "file_path");
    text ← readModelMetadata E file_path;
    model ← Op.lift (Fs.parse text);
    modelParameters ← Op.lift (Js.get model "parameters");
    infoParameters ← Op.lift (Js.get modelInfo "parameters");
    modelSettings ← Op.lift (Js.get model "settings");
    infoSettings ← Op.lift (Js.get modelInfo "settings");
    modelMetadata ← Op.lift (Js.get model "metadata");
    infoMetadata ← Op.lift (Js.get modelInfo "metadata");
    let updatedModel :=
      Js.object
        [Js.Spread model;
         Js.Spread modelInfo;
         Js.Field "parameters"
           (Js.object [Js.Spread modelParameters; Js.Spread infoParameters]);
         Js.Field "settings"
           (Js.object [Js.Spread modelSettings; Js.Spread infoSettings]);
         Js.Field "metadata"
           (Js.object [Js.Spread modelMetadata; Js.Spread infoMetadata]);
         Js.Field "file_path" JUndefined;
         Js.Field "file_name" JUndefined] in
    file_path' ← Op.lift (Js.get modelInfo "file_path");
    p ← Op.lift (path_of E file_path');
    _ ← writeJson E p updatedModel;
    mret updatedModel.

(** [getModelFolderName] calls itself until it finds an unused name; the
    embedding bounds the number of calls by [fuel]. *)
Fixpoint getModelFolderName_fuel (fuel : nat) (E : env)
    (f : gmap (list string) node) (modelFolderName : string)
    (count : option nat) : option (list string) :=
  match fuel with
  | O => None
  | S fuel' =>
      let newModelFolderName :=
        match count with
        | Some (S n) => modelFolderName +:+ "-" +:+ pretty (S n)
        | Some O | None => modelFolderName
        end in
      let modelFolderPath :=
        Fs.joinPath (janDataFolderPath E) ["models"; newModelFolderName] in
      let isFolderExist := Fs.existsSync f modelFolderPath in
      if negb isFolderExist then Some modelFolderPath
      else
        let newCount := (default 0 count + 1)%nat in
        getModelFolderName_fuel fuel' E f modelFolderName (Some newCount)
  end.

(** Enough calls for every file system: see [getModelFolderName_total]. *)
Definition getModelFolderName (E : env) (modelFolderName : string)
  : M (list string) := λ w,
  match getModelFolderName_fuel (S (S (size (fs w)))) E (fs w)
          modelFolderName None with
  | Some p => (Ok p, w)
  | None => (Throw (Error "getModelFolderName does not return"), w)
  end.

(** The callback of the progress interval runs when time passes
    ([Op.tick]), between the steps of the operation; what the operation
    itself does with the timer is to install it and to clear it. The
    regular expression [\s] is taken over the ASCII white space. *)
Definition importModel (E : env) (model : ImportingModel)
    (optionType : OptionType) : M jsval :=
  let binaryName := Str.remove_spaces (Fs.baseName (path model)) in
  let modelFolderName :=
    if Str.ends_with _supportedModelFormat binaryName
    then Str.replace_first _supportedModelFormat "" binaryName
    else binaryName in
  modelFolderPath ← getModelFolderName E modelFolderName;
  _ ← Op.write (λ f, Fs.mkdir f modelFolderPath);
  let uniqueFolderName := Fs.baseName modelFolderPath in
  let modelBinaryFile :=
    if Str.ends_with _supportedModelFormat binaryName
    then binaryName
    else binaryName +:+ _supportedModelFormat in
  let binaryPath := Fs.joinPath modelFolderPath [modelBinaryFile] in
  match optionType with
  | SYMLINK =>
      importModelSymlink E (path model) uniqueFolderName modelFolderPath
  | _ =>
      srcStat ← Op.read (λ f, Fs.fileStat f (path model));
      interval ← Op.setInterval (ProgressPoll model binaryPath (Stat.size srcStat));
      _ ← Op.write (λ f, Fs.copyFile f (path model) binaryPath);
      _ ← Op.clearInterval interval;
      generateModelMetadata E uniqueFolderName
  end.



End JanModelExtension.

(** ** Remote progress polling: [startPollingDownloadProgress]

    After the grace delay the function installs an interval; every firing
    issues a [fetch], and the handler of a response runs when that response
    arrives, which may be after later firings. The embedding is the
    transition system of those happenings. *)

Module Polling.

Inductive event : Type :=
  | onFileDownloadUpdate (state : jsval)
  | onFileDownloadSuccess (state : jsval)
  | onFileDownloadError (state : jsval).

Record state : Type := {
  interval : bool;        (* the interval is installed and not cleared *)
  resolved : bool;        (* the returned promise is resolved *)
  inflight : nat;         (* requests issued and not yet answered *)
  emitted : list event;
}.

(** The state right after [setInterval]. *)
Definition start : state :=
  {| interval := true; resolved := false; inflight := 0; emitted := [] |}.

Inductive input : Type :=
  | Fire                       (* the interval fires: one more request *)
  | Response (body : jsval)    (* a request is answered with a JSON body *)
  | Failure.                   (* a request fails or its body is not JSON *)

(** The [.then] callback on the parsed body. *)
Definition handler (body : jsval) (s : state) : state :=
  match Js.get body "downloadState" with
  | Throw _ => s
  | Ok downloadState =>
      if Js.strict_eq_str downloadState "end" then
        {| interval := false; resolved := true; inflight := inflight s;
           emitted := emitted s ++ [onFileDownloadSuccess body] |}
      else if Js.strict_eq_str downloadState "error" then
        {| interval := false; resolved := true; inflight := inflight s;
           emitted := emitted s ++ [onFileDownloadError body] |}
      else
        {| interval := interval s; resolved := resolved s;
           inflight := inflight s;
           emitted := emitted s ++ [onFileDownloadUpdate body] |}
  end.

Definition answered (s : state) : state :=
  {| interval := interval s; resolved := resolved s;
     inflight := pred (inflight s); emitted := emitted s |}.

(** [None]: the happening is not possible in that state (a cleared
    interval does not fire, an answer needs a request). *)
Definition step (s : state) (i : input) : option state :=
  match i with
  | Fire =>
      if interval s then
        Some {| interval := true; resolved := resolved s;
                inflight := S (inflight s); emitted := emitted s |}
      else None
  | Response body =>
      if bool_decide (inflight s = 0%nat) then None
      else Some (handler body (answered s))
  | Failure =>
      if bool_decide (inflight s = 0%nat) then None
      else Some (answered s)
  end.

Fixpoint run (s : state) (l : list input) : option state :=
  match l with
  | [] => Some s
  | i :: r => match step s i with Some s' => run s' r | None => None end
  end.

(** A body that ends the polling. *)
Definition terminal (body : jsval) : bool :=
  match Js.get body "downloadState" with
  | Ok d => Js.strict_eq_str d "end" || Js.strict_eq_str d "error"
  | Throw _ => false
  end.

End Polling.

(** ** The REST helpers (builder.ts) *)

Module Builder.

Record RouteConfiguration : Type := {
  dirName : string;
  metadataFileName : string;
  delete_object : string;
}.

(** [!!data] for the text of a file. *)
Definition nonempty (d : content) : bool :=
  match d with Empty => false | _ => true end.

Definition readModelMetadata (p : list string) : M (option content) :=
  isExist ← Op.read (λ f, Ok (Fs.existsSync f p));
  if isExist : bool then d ← Op.read (λ f, Fs.readFileSync f p); mret (Some d)
  else mret None.

Fixpoint readAll (cfg : RouteConfiguration) (directoryPath : list string)
    (dirs : list string) : M (list (option content)) :=
  match dirs with
  | [] => mret []
  | d :: r =>
      x ← readModelMetadata
             (Fs.joinPath directoryPath [d; metadataFileName cfg]);
      xs ← readAll cfg directoryPath r;
      mret (x :: xs)
  end.

Fixpoint parseAll (results : list content) : M (list jsval) :=
  match results with
  | [] => mret []
  | d :: r =>
      x ← Op.try_catch (Op.lift (Fs.parse d))
            (λ err, _ ← Op.log (console_error_exn err); mret JUndefined);
      xs ← parseAll r;
      mret (x :: xs)
  end.

Definition getBuilder (E : env) (configuration : RouteConfiguration)
  : M (list jsval) :=
  let directoryPath := Fs.joinPath (janDataFolderPath E) [dirName configuration] in
  Op.try_catch
    (isExist ← Op.read (λ f, Ok (Fs.existsSync f directoryPath));
     if negb isExist then
       _ ← Op.log (console_debug "model folder not found"); mret []
     else
       files ← Op.read (λ f, Fs.readdirSync f directoryPath);
       let allDirectories :=
         filter (λ file, file ≠ ".DS_Store") files in
       read ← readAll configuration directoryPath allDirectories;
       let results := filter (λ d, nonempty d = true) (omap id read) in
       parsed ← parseAll results;
       mret (filter (λ e, Js.truthy e = true) parsed))
    (λ err, _ ← Op.log (console_error_exn err); mret []).

(** [data.filter((d) => d.id === id)] *)
Fixpoint filterById (id : string) (data : list jsval) : res (list jsval) :=
  match data with
  | [] => Ok []
  | d :: r =>
      d_id ← Js.get d "id";
      r' ← filterById id r;
      Ok (if Js.strict_eq_str d_id id then d :: r' else r')
  end.

Definition retrieveBuilder (E : env) (configuration : RouteConfiguration)
    (id : string) : M jsval :=
  data ← getBuilder E configuration;
  matching ← Op.lift (filterById id data);
  let filteredData := default JUndefined (head matching) in
  if negb (Js.truthy filteredData) then mret JUndefined
  else mret filteredData.

Definition deleteBuilder (E : env) (configuration : RouteConfiguration)
    (id : string) : M jsval :=
  if String.eqb (dirName configuration) "assistants" && String.eqb id "jan"
  then mret (Js.object [Js.Field "message" (JStr "Cannot delete Jan assistant")])
  else
    let directoryPath :=
      Fs.joinPath (janDataFolderPath E) [dirName configuration] in
    Op.try_catch
      (data ← retrieveBuilder E configuration id;
       if negb (Js.truthy data) then
         mret (Js.object [Js.Field "message" (JStr "Not found")])
       else
         let objectPath := Fs.joinPath directoryPath [id] in
         _ ← Op.write (λ f, Fs.rmdirSync f objectPath);
         mret (Js.object [Js.Field "id" (JStr id);
                          Js.Field "object" (JStr (delete_object configuration));
                          Js.Field "deleted" (JBool true)]))
      (λ ex, _ ← Op.log (console_error_exn ex); mret JUndefined).

End Builder.

(** ** The properties, in the words of the specification

    Definitions used only to state theorems: what the specification calls
    present, the value it prescribes, the names the allocator tries. *)

Module Spec.

(** A key is present in an object when the object has a value for it
    that is neither [undefined] nor [null]. *)
Definition present (ps : list (string * jsval)) (k : string) : option jsval :=
  let v := Js.lookup_prop k ps in
  if Js.nullish v then None else Some v.

(** The key [<architecture>.<field>] of the header's architecture. *)
Definition qualified (ps : list (string * jsval)) (field : string) : string :=
  Js.to_string (Js.lookup_prop "general.architecture" ps) +:+ "." +:+ field.

(** Architecture-qualified key, else the [llama] key, else a default. *)
Definition header_field (ps : list (string * jsval)) (field : string) (d : Z)
  : jsval :=
  match present ps (qualified ps field) with
  | Some v => v
  | None =>
      match present ps ("llama." +:+ field) with
      | Some v => v
      | None => JNum d
      end
  end.

(** The enumerable own property [k] of a value, as [...v] sees it. *)
Definition own (v : jsval) (k : string) : jsval :=
  Js.lookup_prop k (Js.own_props v).

(** The members of the JSON document written for an object. *)
Definition json_props (ps : list (string * jsval)) : list (string * jsval) :=
  match Js.json (JObj ps) with JObj l => l | _ => [] end.

(** What a property value is written as; [undefined] is not written. *)
Definition json_val (v : jsval) : jsval :=
  match v with JUndefined => JUndefined | _ => Js.json v end.

(** The three nested objects of a descriptor. *)
Definition nested : list string := ["parameters"; "settings"; "metadata"].

(** The folder names the allocator tries, in order: the desired name,
    then the desired name with [-1], [-2], ... *)
Definition folder_name (desiredName : string) (k : nat) : string :=
  match k with
  | O => desiredName
  | S _ => desiredName +:+ "-" +:+ pretty k
  end.

(** [root/name] for the models root of the Jan data folder. *)
Definition candidate (E : env) (desiredName : string) (k : nat) : list string :=
  Fs.joinPath (Fs.joinPath (janDataFolderPath E) ["models"])
    [folder_name desiredName k].

(** A string that names one directory entry. *)
Definition plain (n : string) : Prop :=
  Str.no_separator n = true ∧ n ≠ "" ∧ n ≠ "." ∧ n ≠ "..".

(** A model binary of a folder: an entry with the supported extension
    that is a file. *)
Definition binary (f : gmap (list string) node) (dir : list string)
    (file : string) (n : Z) (d : content) : Prop :=
  f !! (dir ++ [file]) = Some (File n d) ∧
  Str.ends_with JanModelExtension._supportedModelFormat file = true.

(** The lexicographically first model binary of a folder. *)
Definition first_binary (f : gmap (list string) node) (dir : list string)
    (file : string) (n : Z) (d : content) : Prop :=
  binary f dir file n d ∧
  ∀ file' n' d', binary f dir file' n' d' → String.le file file'.

(** The header metadata that synthesis gets from a file: [undefined] when
    reading it fails. *)
Definition header_of (d : content) : jsval :=
  match d with Gguf h => h | _ => JUndefined end.

(** How the import of one item of a batch ends: with a descriptor and its
    id, or with an error. *)
Inductive outcome : Type :=
  | Imported (descriptor modelId : jsval)
  | Failed (error : exn).



(** The descriptors of the items that succeeded, in order. *)
Definition imported (os : list outcome) : list jsval :=
  omap (λ o, match o with Imported d _ => Some d | Failed _ => None end) os.

(** Every live timer was handed out by [setInterval]. *)
Definition timers_wf (w : world) : Prop :=
  Forall (λ t, (t.1 < next_timer w)%nat) (timers w).

(** [v.k1.k2...] *)
Fixpoint get_path (v : jsval) (ks : list string) : res jsval :=
  match ks with
  | [] => Ok v
  | k :: r => x ← Js.get v k; get_path x r
  end.

End Spec.

(** ** Sample inputs *)

Module Sample.

Definition defaultModel : jsval :=
  Js.object
    [Js.Field "object" (JStr "model");
     Js.Field "settings"
       (Js.object [Js.Field "ctx_len" (JNum 2048);
                   Js.Field "prompt_template" (JStr "{prompt}")]);
     Js.Field "parameters"
       (Js.object [Js.Field "stop" (JArr [JStr "</s>"]);
                   Js.Field "temperature" (JNum 1)])].

Definition E : env :=
  {| DEFAULT_MODEL := defaultModel;
     renderJinjaTemplate := λ _, Throw (Error "no chat template");
     janDataFolderPath := ["jan"];
     json_length := λ _, 0 |}.

(** A header with 32 blocks, an end-of-sequence id and the token table. *)
Definition header : jsval :=
  Js.object
    [Js.Field "general.architecture" (JStr "qwen2");
     Js.Field "qwen2.block_count" (JNum 32);
     Js.Field "tokenizer.ggml.eos_token_id" (JNum 2);
     Js.Field "tokenizer.ggml.tokens" (JArr [JStr "<s>"; JStr "<pad>"; JStr "</eos>"])].

(** The same header without the token table. *)
Definition header_no_tokens : jsval :=
  Js.object
    [Js.Field "general.architecture" (JStr "qwen2");
     Js.Field "qwen2.block_count" (JNum 32);
     Js.Field "tokenizer.ggml.eos_token_id" (JNum 2)].

End Sample.

Module Sample3.

(** A models root with the folders [foo] and [foo-1]; [foo] holds two
    binaries and a directory with the extension of a binary, and no
    descriptor. Outside of the data folder: two binaries and a directory. *)
Definition files : gmap (list string) node :=
  list_to_map
    [([], Dir); (["jan"], Dir); (["jan"; "models"], Dir);
     (["jan"; "models"; "foo"], Dir);
     (["jan"; "models"; "foo-1"], Dir);
     (["jan"; "models"; "foo"; "b.gguf"], File 200 (Gguf Sample.header));
     (["jan"; "models"; "foo"; "a.gguf"], File 100 (Gguf Sample.header));
     (["jan"; "models"; "foo"; "0.gguf"], Dir);
     (["jan"; "models"; "foo"; "notes.txt"], File 12 Opaque);
     (["home"], Dir);
     (["home"; "a.gguf"], File 100 (Gguf Sample.header));
     (["home"; "folder"], Dir);
     (["home"; "c.gguf"], File 7 (Gguf Sample.header))].

Definition w : world :=
  {| fs := files; timers := []; next_timer := 0; emitted := [];
     console := []; now := 1700000000000 |}.

Definition first : ImportingModel :=
  {| importId := "1"; path := ["home"; "a.gguf"] |}.
Definition folder : ImportingModel :=
  {| importId := "4"; path := ["home"; "folder"] |}.

End Sample3.

Module Sample4.

(** Two answers of the progress endpoint. *)
Definition downloading : jsval :=
  Js.object [Js.Field "modelId" (JStr "m1");
             Js.Field "downloadState" (JStr "downloading")].
Definition ended : jsval :=
  Js.object [Js.Field "modelId" (JStr "m1");
             Js.Field "downloadState" (JStr "end")].

End Sample4.

Module Sample5.

(** The assistants registry with the built-in assistant and one more. *)
Definition assistants : Builder.RouteConfiguration :=
  {| Builder.dirName := "assistants";
     Builder.metadataFileName := "assistant.json";
     Builder.delete_object := "assistant" |}.

Definition files : gmap (list string) node :=
  list_to_map
    [([], Dir); (["jan"], Dir); (["jan"; "assistants"], Dir);
     (["jan"; "assistants"; "jan"], Dir);
     (["jan"; "assistants"; "jan"; "assistant.json"],
      File 64 (Json (Js.object [Js.Field "id" (JStr "jan");
                                Js.Field "object" (JStr "assistant")])));
     (["jan"; "assistants"; "helper"], Dir);
     (["jan"; "assistants"; "helper"; "assistant.json"],
      File 64 (Json (Js.object [Js.Field "id" (JStr "helper");
                                Js.Field "object" (JStr "assistant")])))].

Definition w : world :=
  {| fs := files; timers := []; next_timer := 0; emitted := [];
     console := []; now := 1700000000000 |}.

End Sample5.

Module Sample2.

(** A stored descriptor, a partial update of it, and a world holding it. *)
Definition stored_props : list (string * jsval) :=
  fold_left Js.add_member
    [Js.Field "id" (JStr "m1");
     Js.Field "name" (JStr "m1");
     Js.Field "settings"
       (Js.object [Js.Field "ctx_len" (JNum 2048);
                   Js.Field "ngl" (JNum 33);
                   Js.Field "prompt_template" (JStr "{prompt}")]);
     Js.Field "parameters" (Js.object [Js.Field "stop" (JArr [JStr "</s>"])]);
     Js.Field "metadata"
       (Js.object [Js.Field "author" (JStr "User");
                   Js.Field "size" (JNum 100)])] [].

Definition stored : jsval := JObj stored_props.

Definition update_props : list (string * jsval) :=
  fold_left Js.add_member
    [Js.Field "id" (JStr "m1");
     Js.Field "file_path" (JStr "file://models/m1/model.json");
     Js.Field "file_name" (JStr "model.json");
     Js.Field "settings" (Js.object [Js.Field "ctx_len" (JNum 8192)])] [].

Definition update_without_id_props : list (string * jsval) :=
  fold_left Js.add_member
    [Js.Field "file_path" (JStr "file://models/m1/model.json");
     Js.Field "settings" (Js.object [Js.Field "ctx_len" (JNum 8192)])] [].

Definition files : gmap (list string) node :=
  list_to_map
    [([], Dir); (["jan"], Dir); (["jan"; "models"], Dir);
     (["jan"; "models"; "m1"], Dir);
     (["jan"; "models"; "m1"; "model.json"], File 256 (Json stored));
     (["jan"; "models"; "m1"; "m1.gguf"], File 100 (Gguf Sample.header))].

Definition w : world :=
  {| fs := files; timers := []; next_timer := 0; emitted := [];
     console := []; now := 1700000000000 |}.

End Sample2.

(** ** More inputs *)

Module Sample6.

(** A model folder whose only binary is not a readable GGUF file. *)
Definition files : gmap (list string) node :=
  list_to_map
    [([], Dir); (["jan"], Dir); (["jan"; "models"], Dir);
     (["jan"; "models"; "broken"], Dir);
     (["jan"; "models"; "broken"; "x.gguf"], File 5 Opaque)].

Definition w : world :=
  {| fs := files; timers := []; next_timer := 0; emitted := [];
     console := []; now := 1700000000000 |}.

(** An environment whose template renderer succeeds. *)
Definition E_template : env :=
  {| DEFAULT_MODEL := Sample.defaultModel;
     renderJinjaTemplate := λ _, Ok (JStr "<|user|>{prompt}");
     janDataFolderPath := ["jan"];
     json_length := λ _, 0 |}.

(** A header whose end-of-sequence id is 0. *)
Definition header_eos_0 : list (string * jsval) :=
  [("general.architecture", JStr "llama");
   ("tokenizer.ggml.eos_token_id", JNum 0);
   ("tokenizer.ggml.tokens", JArr [JStr "</s>"; JStr "<s>"])].

End Sample6.

(** ** More of the file system and of strings

    [fs.rm] and [fs.unlinkSync] of [@janhq/core] and [mkdirSync] of Node,
    with the usual meaning: [fs.rm] removes a path and all below it and
    does not fail on a missing path; [unlinkSync] removes a file only;
    [mkdirSync] without options needs the parent directory. *)

Module FsMore.

Definition rm (f : gmap (list string) node) (p : list string)
  : gmap (list string) node :=
  filter (λ kv, ¬ p `prefix_of` fst kv) f.

Definition unlinkSync (f : gmap (list string) node) (p : list string)
  : res (gmap (list string) node) :=
  match f !! p with
  | Some (File _ _) => Ok (delete p f)
  | Some Dir => Throw (FsError "EPERM")
  | None => Throw (FsError "ENOENT")
  end.

Definition mkdirSync (f : gmap (list string) node) (p : list string)
  : res (gmap (list string) node) :=
  match f !! p with
  | Some _ => Throw (FsError "EEXIST")
  | None =>
      match f !! Fs.dirName p with
      | Some Dir => Ok (<[p := Dir]> f)
      | Some (File _ _) => Throw (FsError "ENOTDIR")
      | None => Throw (FsError "ENOENT")
      end
  end.

End FsMore.

Module StrMore.

(** [s.toLowerCase()], over ASCII. *)
Definition lower (c : ascii) : ascii :=
  let n := nat_of_ascii c in
  if (65 <=? n)%nat && (n <=? 90)%nat then ascii_of_nat (n + 32) else c.

Fixpoint toLowerCase (s : string) : string :=
  match s with
  | EmptyString => EmptyString
  | String c r => String (lower c) (toLowerCase r)
  end.

End StrMore.

(** ** [JanModelExtension], continued: deleting and cancelling *)

Module Extension.

(** [modelInfo.metadata?.author?.toLowerCase()] *)
Definition lowerCaseAuthor (modelInfo : jsval) : res jsval :=
  metadata ← Js.get modelInfo "metadata";
  if Js.nullish metadata then Ok JUndefined
  else
    author ← Js.get metadata "author";
    if Js.nullish author then Ok JUndefined
    else match author with
         | JStr s => Ok (JStr (StrMore.toLowerCase s))
         | _ => Throw TypeError   (* [toLowerCase] is not a function *)
         end.

(** The callbacks of [files.map] under [Promise.allSettled]: a failing
    [unlinkSync] rejects one promise and is not looked at. *)
Fixpoint unlinkAll (dirPath : list string) (files : list string) : M unit :=
  match files with
  | [] => mret tt
  | fileName :: rest =>
      _ ← (if negb (String.eqb fileName JanModelExtension._modelMetadataFileName)
           then Op.try_catch
                  (Op.write (λ f, FsMore.unlinkSync f
                                    (Fs.joinPath dirPath [fileName])))
                  (λ _, mret tt)
           else mret tt);
      unlinkAll dirPath rest
  end.

Definition deleteModel (E : env) (model : jsval) : M unit :=
  Op.try_catch
    (file_path ← Op.lift (Js.get model "file_path");
     p ← Op.lift (JanModelExtension.path_of E file_path);
     let dirPath := Fs.dirName p in
     let jsonFilePath :=
       Fs.joinPath dirPath [JanModelExtension._modelMetadataFileName] in
     text ← Op.read (λ f, Fs.readFileSync f jsonFilePath);
     modelInfo ← Op.lift (Fs.parse text);
     author ← Op.lift (lowerCaseAuthor modelInfo);
     let isUserImportModel := Js.strict_eq_str author "user" in
     if isUserImportModel then Op.write (λ f, Ok (FsMore.rm f dirPath))
     else
       files ← Op.read (λ f, Fs.readdirSync f dirPath);
       unlinkAll dirPath files)
    (λ err, Op.log (console_error_exn err)).

(** [abortDownload] belongs to [@janhq/core]: it is a parameter. *)
Definition cancelModelDownload (E : env)
    (abortDownload : list string → res unit) (modelId : string) : M unit :=
  let path := Fs.joinPath (JanModelExtension.homeDir E) [modelId; modelId] in
  Op.try_catch
    (_ ← Op.lift (abortDownload path);
     Op.write (λ f, FsMore.unlinkSync f path))
    (λ e, Op.log (console_error_exn e)).

End Extension.

Module Sample7.

(** A catalog model (not imported by the user) with a binary, a partial
    download and a subfolder. *)
Definition catalog : jsval :=
  Js.object [Js.Field "id" (JStr "tiny");
             Js.Field "metadata" (Js.object [Js.Field "author" (JStr "Jan")])].

Definition files : gmap (list string) node :=
  list_to_map
    [([], Dir); (["jan"], Dir); (["jan"; "models"], Dir);
     (["jan"; "models"; "tiny"], Dir);
     (["jan"; "models"; "tiny"; "model.json"], File 80 (Json catalog));
     (["jan"; "models"; "tiny"; "tiny.gguf"], File 100 (Gguf Sample.header));
     (["jan"; "models"; "tiny"; "cache"], Dir);
     (["jan"; "models"; "tiny"; "cache"; "kv.bin"], File 9 Opaque)].

Definition w : world :=
  {| fs := files; timers := []; next_timer := 0; emitted := [];
     console := []; now := 1700000000000 |}.

Definition model : jsval :=
  Js.object [Js.Spread catalog;
             Js.Field "file_path" (JStr "file://models/tiny/model.json");
             Js.Field "file_name" (JStr "model.json")].

End Sample7.

Module Sample8.

(** A model imported by the user, with a binary and a subfolder, next to
    another model. *)
Definition imported : jsval :=
  Js.object [Js.Field "id" (JStr "mine");
             Js.Field "metadata" (Js.object [Js.Field "author" (JStr "USER")])].

Definition files : gmap (list string) node :=
  list_to_map
    [([], Dir); (["jan"], Dir); (["jan"; "models"], Dir);
     (["jan"; "models"; "mine"], Dir);
     (["jan"; "models"; "mine"; "model.json"], File 64 (Json imported));
     (["jan"; "models"; "mine"; "mine.gguf"], File 100 (Gguf Sample.header));
     (["jan"; "models"; "mine"; "cache"], Dir);
     (["jan"; "models"; "mine"; "cache"; "kv.bin"], File 9 Opaque);
     (["jan"; "models"; "mine-1"], Dir);
     (["jan"; "models"; "mine-1"; "model.json"], File 80 (Json Sample7.catalog))].

Definition w : world :=
  {| fs := files; timers := []; next_timer := 0; emitted := [];
     console := []; now := 1700000000000 |}.

Definition model : jsval :=
  Js.object [Js.Spread imported;
             Js.Field "file_path" (JStr "file://models/mine/model.json");
             Js.Field "file_name" (JStr "model.json")].

End Sample8.

(** ** The shape of a file system *)

Module Layout.



(** Every entry has a proper name. *)
Definition named (f : gmap (list string) node) : Prop :=
  ∀ p n, is_Some (f !! (p ++ [n])) → Spec.plain n.

(** The same, as a test on one path. *)
Definition properly_named (q : list string) : bool :=
  match last q with
  | Some n =>
      Str.no_separator n && negb (String.eqb n "")
      && negb (String.eqb n ".") && negb (String.eqb n "..")
  | None => true
  end.

End Layout.

Module Sample9.

(** A binary whose file name holds a space, outside of the data folder. *)
Definition files : gmap (list string) node :=
  list_to_map
    [([], Dir); (["jan"], Dir); (["jan"; "models"], Dir);
     (["home"], Dir);
     (["home"; "c v2.gguf"], File 7 (Gguf Sample.header))].

Definition w : world :=
  {| fs := files; timers := []; next_timer := 0; emitted := [];
     console := []; now := 1700000000000 |}.


End Sample9.

(** ** Threads of the REST helper: [createThread], [updateThread] *)

Module Threads.

(** What a handler answers: a value, or the object [{ key: err }] that
    holds a caught error. *)
Inductive reply : Type :=
  | Value (v : jsval)
  | Caught (key : string) (err : exn).

(** [(ms / 1000).toFixed(0)]: the nearest integer, a half going away from
    zero, with the sign of [ms] kept. *)
Definition seconds (ms : Z) : string :=
  if ms <? 0 then "-" +:+ pretty ((500 - ms) / 1000)
  else pretty ((ms + 500) / 1000).

Definition generateThreadId (assistantId : jsval) : M string :=
  t ← Op.Date_now;
  mret (Js.to_string assistantId +:+ "_" +:+ seconds t).

(** [v === 0] *)
Definition is_zero (v : jsval) : bool :=
  match v with JNum n => n =? 0 | _ => false end.

(** [delete v.k], for a key that is neither an index nor [length]. *)
Definition delete_prop (k : string) (v : jsval) : res jsval :=
  match v with
  | JUndefined | JNull => Throw TypeError
  | JObj ps => Ok (JObj (filter (λ p, fst p ≠ k) ps))
  | _ => Ok v
  end.

(** An argument of [path.join] has to be a string. *)
Definition path_argument (v : jsval) : res string :=
  match v with JStr s => Ok s | _ => Throw TypeError end.

Definition threadMetadataFileName : string := "thread.json".

Definition createThread (E : env) (thread : jsval) : M reply :=
  assistants ← Op.lift (Js.get thread "assistants");
  len ← Op.lift (if Js.truthy assistants then Js.get assistants "length"
                 else Ok JUndefined);
  if negb (Js.truthy assistants) || is_zero len then
    mret (Value (Js.object
                   [Js.Field "message"
                      (JStr "Thread must have at least one assistant")]))
  else
    first ← Op.lift (Js.get assistants "0");
    assistant_id ← Op.lift (Js.get first "assistant_id");
    threadId ← generateThreadId assistant_id;
    Op.try_catch
      (created ← Op.Date_now;
       updated ← Op.Date_now;
       let updatedThread :=
         Js.object [Js.Spread thread;
                    Js.Field "id" (JStr threadId);
                    Js.Field "created" (JNum created);
                    Js.Field "updated" (JNum updated)] in
       id ← Op.lift (Js.get updatedThread "id" ≫= path_argument);
       let threadDirPath :=
         Fs.joinPath (janDataFolderPath E) ["threads"; id] in
       let threadJsonPath :=
         Fs.joinPath threadDirPath [threadMetadataFileName] in
       isExist ← Op.read (λ f, Ok (Fs.existsSync f threadDirPath));
       _ ← (if negb isExist
            then Op.write (λ f, FsMore.mkdirSync f threadDirPath)
            else mret tt);
       _ ← JanModelExtension.writeJson E threadJsonPath updatedThread;
       mret (Value updatedThread))
      (λ err, mret (Caught "error" err)).

(** [threads] stands for [JanApiRouteConfiguration.threads]. *)
Definition updateThread (E : env) (threads : Builder.RouteConfiguration)
    (threadId : string) (thread : jsval) : M reply :=
  currentThreadData ← Builder.retrieveBuilder E threads threadId;
  if negb (Js.truthy currentThreadData) then
    mret (Value (Js.object [Js.Field "message" (JStr "Thread not found")]))
  else
    thread ← Op.lift (delete_prop "id" thread);
    thread ← Op.lift (delete_prop "object" thread);
    updated ← Op.Date_now;
    let updatedThread :=
      Js.object [Js.Spread currentThreadData;
                 Js.Spread thread;
                 Js.Field "updated" (JNum updated)] in
    Op.try_catch
      (id ← Op.lift (Js.get updatedThread "id" ≫= path_argument);
       let threadDirPath :=
         Fs.joinPath (janDataFolderPath E) ["threads"; id] in
       let threadJsonPath :=
         Fs.joinPath threadDirPath [threadMetadataFileName] in
       _ ← JanModelExtension.writeJson E threadJsonPath updatedThread;
       mret (Value updatedThread))
      (λ err, mret (Caught "message" err)).

End Threads.

Module Sample10.

Definition threads : Builder.RouteConfiguration :=
  {| Builder.dirName := "threads"; Builder.metadataFileName := "thread.json";
     Builder.delete_object := "thread" |}.

(** A request for a new thread, and a stored thread. *)
Definition request : jsval :=
  Js.object [Js.Field "title" (JStr "hello");
             Js.Field "id" (JStr "mine");
             Js.Field "assistants"
               (JArr [Js.object [Js.Field "assistant_id" (JStr "jan")]])].

Definition stored : jsval :=
  Js.object [Js.Field "id" (JStr "jan_1699999999");
             Js.Field "object" (JStr "thread");
             Js.Field "title" (JStr "old");
             Js.Field "updated" (JNum 1699999999000)].

Definition patch : jsval :=
  Js.object [Js.Field "id" (JStr "other");
             Js.Field "object" (JStr "model");
             Js.Field "title" (JStr "new")].

Definition files : gmap (list string) node :=
  list_to_map
    [([], Dir); (["jan"], Dir); (["jan"; "threads"], Dir);
     (["jan"; "threads"; "jan_1699999999"], Dir);
     (["jan"; "threads"; "jan_1699999999"; "thread.json"],
      File 90 (Json stored))].

Definition w : world :=
  {| fs := files; timers := []; next_timer := 0; emitted := [];
     console := []; now := 1700000000500 |}.

End Sample10.

(** ** [JanModelExtension], continued: finding the descriptor of a folder *)

Module Registry.

(** The longest path of a file system. *)
Definition depth (f : gmap (list string) node) : nat :=
  max_list (length <$> (map_to_list f).*1).

(** [getModelJsonPath] calls itself on the directories of the folder; the
    embedding bounds the nesting of the calls by [fuel]. A call that runs
    out of fuel gives [None]. *)
Fixpoint getModelJsonPath_fuel (fuel : nat) (f : gmap (list string) node)
    (folderFullPath : list string) : option (res (option (list string))) :=
  match fuel with
  | O => None
  | S fuel' =>
      if negb (Fs.existsSync f folderFullPath) then Some (Ok None)
      else
        match Fs.readdirSync f folderFullPath with
        | Throw e => Some (Throw e)
        | Ok files =>
            if bool_decide (files = []) then Some (Ok None)
            else if bool_decide (JanModelExtension._modelMetadataFileName ∈ files)
            then Some (Ok (Some (Fs.joinPath folderFullPath
                                   [JanModelExtension._modelMetadataFileName])))
            else
              (fix loop (files : list string)
                 : option (res (option (list string))) :=
                 match files with
                 | [] => Some (Ok None)
                 | file :: rest =>
                     let path := Fs.joinPath folderFullPath [file] in
                     match Fs.fileStat f path with
                     | Throw e => Some (Throw e)
                     | Ok fileStats =>
                         if Stat.isDirectory fileStats then
                           match getModelJsonPath_fuel fuel' f path with
                           | None => None
                           | Some (Throw e) => Some (Throw e)
                           | Some (Ok (Some result)) => Some (Ok (Some result))
                           | Some (Ok None) => loop rest
                           end
                         else loop rest
                     end
                 end) files
        end
  end.

(** Enough fuel for every file system whose entries have proper names:
    see [getModelJsonPath_fuel_total]. *)
Definition getModelJsonPath (folderFullPath : list string)
  : M (option (list string)) := λ w,
  match getModelJsonPath_fuel (S (S (depth (fs w)))) (fs w) folderFullPath with
  | Some r => (r, w)
  | None => (Throw (Error "getModelJsonPath does not return"), w)
  end.

(** The descriptors that lie in a folder or in the directories below it:
    [descriptor_below f folder p] when [p] is an entry [model.json] that is
    reached from [folder] through directories only. *)
Inductive descriptor_below (f : gmap (list string) node)
  : list string → list string → Prop :=
  | descriptor_here folder :
      f !! folder = Some Dir →
      is_Some (f !! (folder ++ [JanModelExtension._modelMetadataFileName])) →
      descriptor_below f folder
        (folder ++ [JanModelExtension._modelMetadataFileName])
  | descriptor_deeper folder d p :
      f !! folder = Some Dir →
      f !! (folder ++ [d]) = Some Dir →
      descriptor_below f (folder ++ [d]) p →
      descriptor_below f folder p.

End Registry.

Module Sample11.

(** A model folder whose descriptor lies two levels down. *)
Definition files : gmap (list string) node :=
  list_to_map
    [([], Dir); (["jan"], Dir); (["jan"; "models"], Dir);
     (["jan"; "models"; "deep"], Dir);
     (["jan"; "models"; "deep"; "readme.md"], File 3 Opaque);
     (["jan"; "models"; "deep"; "a"], Dir);
     (["jan"; "models"; "deep"; "a"; "x.bin"], File 5 Opaque);
     (["jan"; "models"; "deep"; "b"], Dir);
     (["jan"; "models"; "deep"; "b"; "c"], Dir);
     (["jan"; "models"; "deep"; "b"; "c"; "model.json"],
      File 20 (Json (Js.object [Js.Field "id" (JStr "deep")])));
     (["jan"; "models"; "empty"], Dir)].

Definition w : world :=
  {| fs := files; timers := []; next_timer := 0; emitted := [];
     console := []; now := 1700000000000 |}.

End Sample11.

(* ===================================================================== *)
(** * Part II. Lemmas and theorems                                        *)
(* ===================================================================== *)

(** ** Objects *)

Section objects.
Implicit Types (k : string) (v : jsval) (ps : list (string * jsval)).

Lemma eqb_false_ne (a b : string) : a ≠ b → String.eqb a b = false.
Proof. intros H. destruct (String.eqb_spec a b); congruence. Qed.

Lemma lookup_set_prop_eq k v ps : Js.lookup_prop k (Js.set_prop k v ps) = v.
Proof.
  induction ps as [|[k' v'] ps IH]; simpl.
  - by rewrite String.eqb_refl.
  - destruct (String.eqb_spec k' k) as [->|Hne]; simpl.
    + by rewrite String.eqb_refl.
    + by rewrite eqb_false_ne.
Qed.

Lemma lookup_set_prop_ne k k' v ps :
  k ≠ k' → Js.lookup_prop k' (Js.set_prop k v ps) = Js.lookup_prop k' ps.
Proof.
  intros Hne. induction ps as [|[k0 v0] ps IH]; simpl.
  - by rewrite eqb_false_ne.
  - destruct (String.eqb_spec k0 k) as [->|Hne0]; simpl.
    + by rewrite !eqb_false_ne.
    + destruct (String.eqb k0 k'); auto.
Qed.

Lemma keys_set_prop k v ps :
  ((Js.set_prop k v ps).*1 = ps.*1) ∨
  ((k ∉ ps.*1) ∧ (Js.set_prop k v ps).*1 = ps.*1 ++ [k]).
Proof.
  induction ps as [|[k0 v0] ps IH]; csimpl.
  - right. split; [apply not_elem_of_nil | done].
  - destruct (String.eqb_spec k0 k) as [->|Hne0]; csimpl; [by left|].
    destruct IH as [->|[Hn ->]]; [by left|right].
    split; [|done]. rewrite elem_of_cons. naive_solver.
Qed.

Lemma NoDup_set_prop k v ps :
  NoDup (ps.*1) → NoDup ((Js.set_prop k v ps).*1).
Proof.
  intros Hnd. destruct (keys_set_prop k v ps) as [->|[Hn ->]]; [done|].
  apply NoDup_app. split_and!; [done| |apply NoDup_singleton].
  intros x Hx Hx'. apply list_elem_of_singleton in Hx'. by subst.
Qed.

Lemma NoDup_spread (qs : list (string * jsval)) ps :
  NoDup (ps.*1) →
  NoDup ((fold_left (λ acc p, Js.set_prop p.1 p.2 acc) qs ps).*1).
Proof.
  revert ps. induction qs as [|q qs IH]; simpl; [done|].
  intros ps Hnd. by apply IH, NoDup_set_prop.
Qed.

Lemma NoDup_add_member ps m :
  NoDup (ps.*1) → NoDup ((Js.add_member ps m).*1).
Proof. destruct m; simpl; [apply NoDup_set_prop | apply NoDup_spread]. Qed.

Lemma NoDup_members ms ps :
  NoDup (ps.*1) → NoDup ((fold_left Js.add_member ms ps).*1).
Proof.
  revert ps. induction ms as [|m ms IH]; simpl; [done|].
  intros ps Hnd. by apply IH, NoDup_add_member.
Qed.

(** Properties that a spread does not name keep their value. *)
Lemma lookup_spread_frame k (qs : list (string * jsval)) ps :
  Js.has_prop k qs = false →
  Js.lookup_prop k (fold_left (λ acc p, Js.set_prop p.1 p.2 acc) qs ps)
  = Js.lookup_prop k ps.
Proof.
  revert ps. induction qs as [|[k0 v0] qs IH]; simpl; [done|].
  intros ps H. apply orb_false_iff in H as [H1 H2].
  rewrite IH by done. apply lookup_set_prop_ne.
  intros ->. by rewrite String.eqb_refl in H1.
Qed.

Lemma has_prop_false k ps : Js.has_prop k ps = false ↔ k ∉ ps.*1.
Proof.
  induction ps as [|[k0 v0] ps IH]; simpl.
  - split; [intros _; apply not_elem_of_nil | done].
  - rewrite orb_false_iff, IH, not_elem_of_cons.
    destruct (String.eqb_spec k0 k); naive_solver.
Qed.

Lemma lookup_prop_None k ps : k ∉ ps.*1 → Js.lookup_prop k ps = JUndefined.
Proof.
  induction ps as [|[k0 v0] ps IH]; simpl; [done|].
  rewrite not_elem_of_cons. intros [Hne Hn].
  rewrite eqb_false_ne by done. auto.
Qed.

End objects.

(** ** Computations that may throw *)

Lemma res_bind_Ok {A B} (m : res A) (f : A → res B) (b : B) :
  m ≫= f = Ok b ↔ ∃ a, m = Ok a ∧ f a = Ok b.
Proof.
  destruct m as [a|e]; unfold mbind, res_bind; [naive_solver|].
  split; [done | by intros (? & ? & ?)].
Qed.

Lemma res_bind_Throw_l {A B} (f : A → res B) (e : exn) : Throw e ≫= f = Throw e.
Proof. reflexivity. Qed.

Lemma res_bind_ret {A} (m : res A) : m ≫= Ok = m.
Proof. by destruct m. Qed.

Lemma get_path_2 (v : jsval) (a b : string) :
  Spec.get_path v [a; b] = Js.get v a ≫= (λ x, Js.get x b).
Proof.
  cbn [Spec.get_path]. destruct (Js.get v a) as [x|]; [|done].
  apply res_bind_ret.
Qed.

(** ** The metadata codec *)

Section codec.
Context (E : env).
Implicit Types (ps : list (string * jsval)).

Lemma coalesce_header_field ps field d :
  Js.coalesce (Js.lookup_prop (Spec.qualified ps field) ps)
    (Js.coalesce (Js.lookup_prop ("llama." +:+ field) ps) (JNum d))
  = Spec.header_field ps field d.
Proof.
  unfold Spec.header_field, Spec.present, Js.coalesce.
  by repeat case_match.
Qed.

(** What [retrieveGGUFMetadata] returns, when it returns. *)
Lemma retrieveGGUFMetadata_Ok ps r :
  retrieveGGUFMetadata E (JObj ps) = Ok r →
  ∃ prompt_template stop,
    r = Js.object
          [Js.Field "settings"
             (Js.object
                [Js.Field "prompt_template" prompt_template;
                 Js.Field "ctx_len" (Spec.header_field ps "context_length" 4096);
                 Js.Field "ngl"
                   (Js.plus_one (Spec.header_field ps "block_count" 32))]);
           Js.Field "parameters" (Js.object [Js.Field "stop" stop])].
Proof.
  unfold retrieveGGUFMetadata. cbn [Js.get mbind res_bind].
  intros H. apply res_bind_Ok in H as (pt & _ & H).
  apply res_bind_Ok in H as (stop & _ & [= <-]).
  exists pt, stop.
  rewrite <- (coalesce_header_field ps "context_length" 4096).
  rewrite <- (coalesce_header_field ps "block_count" 32).
  reflexivity.
Qed.

End codec.

(** Whatever the header is, a result has the two nested objects. *)
Lemma retrieveGGUFMetadata_shape (E : env) (metadata r : jsval) :
  retrieveGGUFMetadata E metadata = Ok r →
  ∃ settings parameters,
    r = Js.object [Js.Field "settings" settings;
                   Js.Field "parameters" parameters].
Proof.
  unfold retrieveGGUFMetadata. intros H.
  repeat (apply res_bind_Ok in H as (? & _ & H)).
  injection H as <-. by eexists _, _.
Qed.

Lemma get_truthy (v : jsval) (k : string) :
  Js.truthy v = true → ∃ x, Js.get v k = Ok x.
Proof. destruct v; cbn; try done; intros _; try case_match; by eexists. Qed.

(** C3. For every header-metadata object, [retrieveGGUFMetadata] sets
    [settings.ctx_len] to the architecture-qualified context-length key if
    present, else to [llama.context_length], else to 4096, and
    [settings.ngl] to one more than the architecture-qualified block-count
    key if present, else [llama.block_count], else 32; a header whose
    block count is 32 gives [ngl] 33. *)
Theorem retrieveGGUFMetadata_ctx_len_ngl (E : env) (ps : list (string * jsval))
    (r : jsval) :
  retrieveGGUFMetadata E (JObj ps) = Ok r →
  Spec.get_path r ["settings"; "ctx_len"]
    = Ok (Spec.header_field ps "context_length" 4096) ∧
  Spec.get_path r ["settings"; "ngl"]
    = Ok (Js.plus_one (Spec.header_field ps "block_count" 32)) ∧
  (∀ n : Z, Spec.header_field ps "block_count" 32 = JNum n →
            Spec.get_path r ["settings"; "ngl"] = Ok (JNum (n + 1))) ∧
  (Spec.header_field ps "block_count" 32 = JNum 32 →
   Spec.get_path r ["settings"; "ngl"] = Ok (JNum 33)).
Proof.
  intros H. apply retrieveGGUFMetadata_Ok in H as (pt & stop & ->).
  assert (Spec.get_path
            (Js.object
               [Js.Field "settings"
                  (Js.object
                     [Js.Field "prompt_template" pt;
                      Js.Field "ctx_len" (Spec.header_field ps "context_length" 4096);
                      Js.Field "ngl"
                        (Js.plus_one (Spec.header_field ps "block_count" 32))]);
                Js.Field "parameters" (Js.object [Js.Field "stop" stop])])
            ["settings"; "ngl"]
          = Ok (Js.plus_one (Spec.header_field ps "block_count" 32))) as Hngl
    by reflexivity.
  split_and!; [reflexivity | exact Hngl | |].
  - intros n Hn. rewrite Hngl, Hn. reflexivity.
  - intros Hn. rewrite Hngl, Hn. reflexivity.
Qed.

Lemma retrieveGGUFMetadata_ctx_len_ngl_witness :
  ∃ r, retrieveGGUFMetadata Sample.E Sample.header = Ok r ∧
       Spec.get_path r ["settings"; "ctx_len"] = Ok (JNum 4096) ∧
       Spec.get_path r ["settings"; "ngl"] = Ok (JNum 33).
Proof.
  eexists. split; [reflexivity|].
  pose proof (retrieveGGUFMetadata_ctx_len_ngl Sample.E
                [("general.architecture", JStr "qwen2");
                 ("qwen2.block_count", JNum 32);
                 ("tokenizer.ggml.eos_token_id", JNum 2);
                 ("tokenizer.ggml.tokens",
                  JArr [JStr "<s>"; JStr "<pad>"; JStr "</eos>"])]
                _ eq_refl) as (H1 & _ & _ & H4).
  split; [exact H1 | exact (H4 eq_refl)].
Defined.

(** *** The stop token *)

Section stop_token.
Context (E : env).
Implicit Types (ps : list (string * jsval)).

(** Without an end-of-sequence id (or with a falsy one, such as 0) the
    stop list is the default descriptor's. *)
Lemma retrieveGGUFMetadata_stop_default ps r :
  Js.truthy (Js.lookup_prop "tokenizer.ggml.eos_token_id" ps) = false →
  retrieveGGUFMetadata E (JObj ps) = Ok r →
  Spec.get_path r ["parameters"; "stop"]
  = Spec.get_path (DEFAULT_MODEL E) ["parameters"; "stop"].
Proof.
  unfold retrieveGGUFMetadata. cbn [Js.get mbind res_bind].
  intros Heos H. rewrite Heos in H.
  apply res_bind_Ok in H as (pt & _ & H).
  apply res_bind_Ok in H as (stop & Hstop & [= <-]).
  rewrite (get_path_2 (DEFAULT_MODEL E)), Hstop. reflexivity.
Qed.

(** With an end-of-sequence id and a token table, the stop list is the
    one token that the id selects (the empty string when the table has
    no such entry). *)
Lemma retrieveGGUFMetadata_stop_token ps r :
  Js.truthy (Js.lookup_prop "tokenizer.ggml.eos_token_id" ps) = true →
  retrieveGGUFMetadata E (JObj ps) = Ok r →
  ∃ tok,
    Js.elem (Js.lookup_prop "tokenizer.ggml.tokens" ps)
            (Js.lookup_prop "tokenizer.ggml.eos_token_id" ps) = Ok tok ∧
    Spec.get_path r ["parameters"; "stop"]
    = Ok (JArr [Js.coalesce tok (JStr "")]).
Proof.
  unfold retrieveGGUFMetadata. cbn [Js.get mbind res_bind].
  intros Heos H. rewrite Heos in H.
  apply res_bind_Ok in H as (pt & _ & H).
  apply res_bind_Ok in H as (stop & Hstop & [= <-]).
  cbn [Js.nullish] in Hstop.
  apply res_bind_Ok in Hstop as (tok & Htok & [= <-]).
  exists tok. split; [done | reflexivity].
Qed.

(** With an end-of-sequence id but no token table, the function throws. *)
Lemma retrieveGGUFMetadata_no_tokens ps :
  Js.truthy (Js.lookup_prop "tokenizer.ggml.eos_token_id" ps) = true →
  Js.nullish (Js.lookup_prop "tokenizer.ggml.tokens" ps) = true →
  ∃ e, retrieveGGUFMetadata E (JObj ps) = Throw e.
Proof.
  intros Heos Htok.
  destruct (retrieveGGUFMetadata E (JObj ps)) as [r|e] eqn:H; [|by eexists].
  apply retrieveGGUFMetadata_stop_token in H as (tok & Helem & _); [|done].
  unfold Js.elem in Helem.
  by destruct (Js.lookup_prop "tokenizer.ggml.tokens" ps).
Qed.

End stop_token.

(** C2, at the failing input. The header declares the end-of-sequence id 2
    and has no token table: [retrieveGGUFMetadata] does not fall back to
    the default stop list, it throws a TypeError. *)
Theorem retrieveGGUFMetadata_throws_without_token_table :
  retrieveGGUFMetadata Sample.E Sample.header_no_tokens = Throw TypeError ∧
  Spec.present [("general.architecture", JStr "qwen2");
                ("qwen2.block_count", JNum 32);
                ("tokenizer.ggml.eos_token_id", JNum 2)]
               "tokenizer.ggml.tokens" = None ∧
  Spec.get_path (DEFAULT_MODEL Sample.E) ["parameters"; "stop"]
  = Ok (JArr [JStr "</s>"]).
Proof. split_and!; reflexivity. Qed.

(** ** Spreads and JSON documents *)

Section spread.
Implicit Types (k : string) (v : jsval) (ps qs : list (string * jsval)).

Lemma has_prop_lookup k ps :
  Js.has_prop k ps = false → Js.lookup_prop k ps = JUndefined.
Proof. rewrite has_prop_false. apply lookup_prop_None. Qed.

Lemma lookup_spread k qs ps :
  NoDup (qs.*1) →
  Js.lookup_prop k (fold_left (λ acc p, Js.set_prop p.1 p.2 acc) qs ps)
  = if Js.has_prop k qs then Js.lookup_prop k qs else Js.lookup_prop k ps.
Proof.
  revert ps. induction qs as [|[k0 v0] qs IH]; intros ps Hnd; [done|].
  rewrite fmap_cons in Hnd. cbn [fst] in Hnd.
  apply NoDup_cons in Hnd as [Hk0 Hnd]. cbn [fold_left fst snd].
  rewrite IH by done. cbn [Js.has_prop existsb Js.lookup_prop fst].
  fold (Js.has_prop k qs).
  destruct (String.eqb_spec k0 k) as [->|Hne]; cbn [orb].
  - apply has_prop_false in Hk0. rewrite Hk0. apply lookup_set_prop_eq.
  - destruct (Js.has_prop k qs); [done|]. by apply lookup_set_prop_ne.
Qed.

(** [{...a, ...b}[k]] is [a[k]] when [b] has no property [k]. *)
Lemma lookup_merge_frame (a b : jsval) k :
  NoDup ((Js.own_props a).*1) →
  Js.has_prop k (Js.own_props b) = false →
  Spec.get_path (Js.object [Js.Spread a; Js.Spread b]) [k] = Ok (Spec.own a k).
Proof.
  intros Hnd Hb. unfold Js.object, Spec.own.
  cbn [fold_left Js.add_member Spec.get_path Js.get mbind res_bind].
  f_equal. rewrite lookup_spread_frame by done.
  rewrite lookup_spread by done.
  destruct (Js.has_prop k (Js.own_props a)) eqn:Ha; [done|].
  symmetry. by apply has_prop_lookup.
Qed.

(** [{...a, ...b}[k]] is [b[k]] when [b] has a property [k]. *)
Lemma lookup_merge_update (a b : jsval) k :
  NoDup ((Js.own_props b).*1) →
  Js.has_prop k (Js.own_props b) = true →
  Spec.get_path (Js.object [Js.Spread a; Js.Spread b]) [k] = Ok (Spec.own b k).
Proof.
  intros Hnd Hb. unfold Js.object, Spec.own.
  cbn [fold_left Js.add_member Spec.get_path Js.get mbind res_bind].
  f_equal. rewrite lookup_spread by done. by rewrite Hb.
Qed.

Lemma NoDup_object ms : ∃ ps, Js.object ms = JObj ps ∧ NoDup (ps.*1).
Proof.
  eexists. split; [reflexivity|]. apply NoDup_members. constructor.
Qed.

Lemma json_props_cons k v ps :
  Spec.json_props ((k, v) :: ps)
  = match v with
    | JUndefined => Spec.json_props ps
    | _ => (k, Js.json v) :: Spec.json_props ps
    end.
Proof. by destruct v. Qed.

Lemma json_object ps : Js.json (JObj ps) = JObj (Spec.json_props ps).
Proof. reflexivity. Qed.

Lemma json_props_keys k ps : k ∈ (Spec.json_props ps).*1 → k ∈ ps.*1.
Proof.
  induction ps as [|[k0 v0] ps IH]; [done|].
  rewrite json_props_cons, fmap_cons, elem_of_cons. cbn [fst].
  destruct v0; rewrite ?fmap_cons, ?elem_of_cons; naive_solver.
Qed.

(** A written property is the written form of the property. *)
Lemma lookup_json_props k ps :
  NoDup (ps.*1) →
  Js.lookup_prop k (Spec.json_props ps) = Spec.json_val (Js.lookup_prop k ps).
Proof.
  induction ps as [|[k0 v0] ps IH]; [done|].
  rewrite fmap_cons, NoDup_cons. cbn [fst]. intros [Hk0 Hnd].
  rewrite json_props_cons. cbn [Js.lookup_prop].
  destruct (String.eqb_spec k0 k) as [->|Hne].
  - destruct v0; cbn [Js.lookup_prop]; rewrite ?String.eqb_refl; try done.
    apply lookup_prop_None. intros H. by apply json_props_keys in H.
  - destruct v0; cbn [Js.lookup_prop]; rewrite ?eqb_false_ne by done; auto.
Qed.

(** A property that is [undefined] is not in the written document. *)
Lemma json_props_undefined k ps :
  NoDup (ps.*1) → Js.lookup_prop k ps = JUndefined →
  Js.has_prop k (Spec.json_props ps) = false.
Proof.
  induction ps as [|[k0 v0] ps IH]; [done|].
  rewrite fmap_cons, NoDup_cons. cbn [fst Js.lookup_prop]. intros [Hk0 Hnd].
  rewrite json_props_cons.
  destruct (String.eqb_spec k0 k) as [->|Hne].
  - intros ->. apply has_prop_false. intros H. by apply json_props_keys in H.
  - intros H. specialize (IH Hnd H).
    destruct v0; cbn [Js.has_prop existsb fst]; fold (Js.has_prop k);
      rewrite ?eqb_false_ne by done; auto.
Qed.

End spread.

(** ** [updateModelInfo] *)

Section updateModelInfo.
Context (E : env).
Implicit Types (ps mps : list (string * jsval)) (w : world).

(** The object literal of [updateModelInfo]. *)
Let merged (mps ps : list (string * jsval)) : list (string * jsval) :=
  fold_left Js.add_member
    [Js.Spread (JObj mps);
     Js.Spread (JObj ps);
     Js.Field "parameters"
       (Js.object [Js.Spread (Js.lookup_prop "parameters" mps);
                   Js.Spread (Js.lookup_prop "parameters" ps)]);
     Js.Field "settings"
       (Js.object [Js.Spread (Js.lookup_prop "settings" mps);
                   Js.Spread (Js.lookup_prop "settings" ps)]);
     Js.Field "metadata"
       (Js.object [Js.Spread (Js.lookup_prop "metadata" mps);
                   Js.Spread (Js.lookup_prop "metadata" ps)]);
     Js.Field "file_path" JUndefined;
     Js.Field "file_name" JUndefined] [].

Lemma updateModelInfo_Ok ps mps w s n :
  Js.nullish (Js.lookup_prop "id" ps) = false →
  Js.lookup_prop "file_path" ps = JStr s →
  fs w !! JanModelExtension.resolve E s = Some (File n (Json (JObj mps))) →
  JanModelExtension.updateModelInfo E (JObj ps) w
  = (Ok (JObj (merged mps ps)),
     set_fs (<[JanModelExtension.resolve E s :=
                 File (json_length E (Js.json (JObj (merged mps ps))))
                      (Json (Js.json (JObj (merged mps ps))))]> (fs w)) w).
Proof.
  intros Hid Hfp Hfile. unfold JanModelExtension.updateModelInfo.
  cbn [Js.get]. unfold mbind, M_bind, Op.lift. rewrite Hid.
  unfold JanModelExtension.readModelMetadata, JanModelExtension.writeJson,
    Op.read, Op.write, Fs.readFileSync, Fs.writeFileSync.
  unfold mbind, M_bind, Op.lift. rewrite Hfp.
  cbn [JanModelExtension.path_of]. rewrite Hfile. reflexivity.
Qed.

Lemma merged_nested mps ps sect :
  sect ∈ Spec.nested →
  Js.lookup_prop sect (merged mps ps)
  = Js.object [Js.Spread (Js.lookup_prop sect mps);
               Js.Spread (Js.lookup_prop sect ps)].
Proof.
  unfold Spec.nested. rewrite !elem_of_cons, elem_of_nil.
  unfold merged. cbn [fold_left Js.add_member].
  intros [->|[->|[->|[]]]].
  - rewrite !lookup_set_prop_ne by done. apply lookup_set_prop_eq.
  - rewrite !lookup_set_prop_ne by done. apply lookup_set_prop_eq.
  - rewrite !lookup_set_prop_ne by done. apply lookup_set_prop_eq.
Qed.

Lemma merged_transient mps ps :
  Js.lookup_prop "file_path" (merged mps ps) = JUndefined ∧
  Js.lookup_prop "file_name" (merged mps ps) = JUndefined.
Proof.
  unfold merged. cbn [fold_left Js.add_member]. split.
  - rewrite !lookup_set_prop_ne by done. apply lookup_set_prop_eq.
  - apply lookup_set_prop_eq.
Qed.

Lemma NoDup_merged mps ps : NoDup ((merged mps ps).*1).
Proof. apply NoDup_members. constructor. Qed.

Lemma updateModelInfo_spec ps mps w s n :
  Js.nullish (Js.lookup_prop "id" ps) = false →
  Js.lookup_prop "file_path" ps = JStr s →
  fs w !! JanModelExtension.resolve E s = Some (File n (Json (JObj mps))) →
  (∀ sect, sect ∈ Spec.nested →
           NoDup ((Js.own_props (Js.lookup_prop sect mps)).*1)) →
  ∃ updated doc,
    JanModelExtension.updateModelInfo E (JObj ps) w
    = (Ok (JObj updated),
       set_fs (<[JanModelExtension.resolve E s :=
                   File (json_length E (JObj doc)) (Json (JObj doc))]> (fs w)) w) ∧
    Js.json (JObj updated) = JObj doc ∧
    (∀ sect k,
       sect ∈ Spec.nested →
       Js.has_prop k (Js.own_props (Js.lookup_prop sect ps)) = false →
       Spec.get_path (JObj updated) [sect; k]
         = Ok (Spec.own (Js.lookup_prop sect mps) k) ∧
       Spec.get_path (JObj doc) [sect; k]
         = Ok (Spec.json_val (Spec.own (Js.lookup_prop sect mps) k))) ∧
    (∀ sect k,
       sect ∈ Spec.nested →
       NoDup ((Js.own_props (Js.lookup_prop sect ps)).*1) →
       Js.has_prop k (Js.own_props (Js.lookup_prop sect ps)) = true →
       Spec.get_path (JObj updated) [sect; k]
         = Ok (Spec.own (Js.lookup_prop sect ps) k)) ∧
    Js.has_prop "file_path" doc = false ∧
    Js.has_prop "file_name" doc = false.
Proof.
  intros Hid Hfp Hfile Hnd.
  exists (merged mps ps), (Spec.json_props (merged mps ps)).
  split; [by apply (updateModelInfo_Ok ps mps w s n)|].
  split; [reflexivity|].
  pose proof (NoDup_merged mps ps) as Hm.
  destruct (merged_transient mps ps) as [Hp Hn].
  split_and!; [| |by apply json_props_undefined..].
  - intros sect k Hsect Hk.
    pose proof (lookup_merge_frame _ _ k (Hnd sect Hsect) Hk) as Hframe.
    destruct (NoDup_object [Js.Spread (Js.lookup_prop sect mps);
                            Js.Spread (Js.lookup_prop sect ps)])
      as (sps & Hsps & Hndsps).
    rewrite Hsps in Hframe. cbn [Spec.get_path Js.get mbind res_bind] in Hframe.
    injection Hframe as Hframe.
    cbn [Spec.get_path Js.get mbind res_bind].
    rewrite lookup_json_props, merged_nested, Hsps by done.
    cbn [Spec.json_val]. rewrite json_object. cbn [Js.get mbind res_bind].
    rewrite lookup_json_props, Hframe by done. done.
  - intros sect k Hsect Hndi Hk.
    pose proof (lookup_merge_update (Js.lookup_prop sect mps) _ k Hndi Hk)
      as Hupd.
    destruct (NoDup_object [Js.Spread (Js.lookup_prop sect mps);
                            Js.Spread (Js.lookup_prop sect ps)])
      as (sps & Hsps & Hndsps).
    rewrite Hsps in Hupd. cbn [Spec.get_path Js.get mbind res_bind] in Hupd.
    injection Hupd as Hupd.
    cbn [Spec.get_path Js.get mbind res_bind].
    rewrite merged_nested, Hsps by done.
    cbn [Js.get mbind res_bind]. by rewrite Hupd.
Qed.

End updateModelInfo.

(** C10. For every partial model-info object whose [id] is [null] or
    [undefined], [updateModelInfo] throws the error "Model ID is required"
    and leaves the world, and so every file, as it was. *)
Theorem updateModelInfo_requires_id (E : env) (ps : list (string * jsval))
    (w : world) :
  Js.nullish (Js.lookup_prop "id" ps) = true →
  JanModelExtension.updateModelInfo E (JObj ps) w
  = (Throw (Error "Model ID is required"), w).
Proof.
  intros H. unfold JanModelExtension.updateModelInfo.
  cbn [Js.get]. unfold mbind, M_bind, Op.lift. by rewrite H.
Qed.

Lemma updateModelInfo_requires_id_witness :
  Js.nullish (Js.lookup_prop "id" Sample2.update_without_id_props) = true ∧
  JanModelExtension.updateModelInfo Sample.E
    (JObj Sample2.update_without_id_props) Sample2.w
  = (Throw (Error "Model ID is required"), Sample2.w).
Proof.
  split; [reflexivity|].
  apply (updateModelInfo_requires_id Sample.E
           Sample2.update_without_id_props Sample2.w).
  reflexivity.
Defined.

(** C7. For every stored descriptor and every partial update with an id
    and the path of the descriptor file, [updateModelInfo] merges the
    nested [parameters], [settings] and [metadata] objects: a key of a
    nested object that the update does not name keeps the stored value, in
    the returned descriptor and in the JSON document written back, and a
    key that the update names takes the update's value; the written
    document has no [file_path] and no [file_name] member. *)
Theorem updateModelInfo_merges_nested_objects (E : env)
    (ps mps : list (string * jsval)) (w : world) (s : string) (n : Z) :
  Js.nullish (Js.lookup_prop "id" ps) = false →
  Js.lookup_prop "file_path" ps = JStr s →
  fs w !! JanModelExtension.resolve E s = Some (File n (Json (JObj mps))) →
  (∀ sect, sect ∈ Spec.nested →
           NoDup ((Js.own_props (Js.lookup_prop sect mps)).*1)) →
  ∃ updated doc,
    JanModelExtension.updateModelInfo E (JObj ps) w
    = (Ok (JObj updated),
       set_fs (<[JanModelExtension.resolve E s :=
                   File (json_length E (JObj doc)) (Json (JObj doc))]> (fs w)) w) ∧
    Js.json (JObj updated) = JObj doc ∧
    (∀ sect k,
       sect ∈ Spec.nested →
       Js.has_prop k (Js.own_props (Js.lookup_prop sect ps)) = false →
       Spec.get_path (JObj updated) [sect; k]
         = Ok (Spec.own (Js.lookup_prop sect mps) k) ∧
       Spec.get_path (JObj doc) [sect; k]
         = Ok (Spec.json_val (Spec.own (Js.lookup_prop sect mps) k))) ∧
    (∀ sect k,
       sect ∈ Spec.nested →
       NoDup ((Js.own_props (Js.lookup_prop sect ps)).*1) →
       Js.has_prop k (Js.own_props (Js.lookup_prop sect ps)) = true →
       Spec.get_path (JObj updated) [sect; k]
         = Ok (Spec.own (Js.lookup_prop sect ps) k)) ∧
    Js.has_prop "file_path" doc = false ∧
    Js.has_prop "file_name" doc = false.
Proof. apply updateModelInfo_spec. Qed.

Lemma updateModelInfo_merges_nested_objects_witness :
  ∃ updated doc,
    JanModelExtension.updateModelInfo Sample.E (JObj Sample2.update_props)
      Sample2.w
    = (Ok (JObj updated),
       set_fs (<[["jan"; "models"; "m1"; "model.json"] :=
                   File 0 (Json (JObj doc))]> Sample2.files) Sample2.w) ∧
    Spec.get_path (JObj doc) ["settings"; "ngl"] = Ok (JNum 33) ∧
    Spec.get_path (JObj doc) ["settings"; "prompt_template"]
      = Ok (JStr "{prompt}") ∧
    Spec.get_path (JObj updated) ["settings"; "ctx_len"] = Ok (JNum 8192) ∧
    Js.has_prop "file_path" doc = false.
Proof.
  destruct (updateModelInfo_merges_nested_objects Sample.E
              Sample2.update_props Sample2.stored_props Sample2.w
              "file://models/m1/model.json" 256)
    as (updated & doc & Hrun & _ & Hframe & Hupd & Hpath & _).
  - reflexivity.
  - reflexivity.
  - reflexivity.
  - intros sect Hsect. unfold Spec.nested in Hsect.
    rewrite !elem_of_cons, elem_of_nil in Hsect.
    destruct Hsect as [->|[->|[->|[]]]];
      apply (bool_decide_unpack _); reflexivity.
  - exists updated, doc. split; [exact Hrun|].
    assert ("settings" ∈ Spec.nested) as Hin.
    { unfold Spec.nested. rewrite !elem_of_cons. auto. }
    split; [exact (proj2 (Hframe "settings" "ngl" Hin eq_refl))|].
    split; [exact (proj2 (Hframe "settings" "prompt_template" Hin eq_refl))|].
    split; [|exact Hpath].
    apply (Hupd "settings" "ctx_len" Hin); [|reflexivity].
    apply (bool_decide_unpack _); reflexivity.
Defined.

(** ** Paths *)

Section paths.
Implicit Types (s t : string) (p : list string).

Lemma split_cons (c : ascii) s :
  Fs.split (String c s)
  = if Ascii.eqb c "/"%char then EmptyString :: Fs.split s
    else match Fs.split s with
         | [] => [String c EmptyString]
         | seg :: segs => String c seg :: segs
         end.
Proof. reflexivity. Qed.

Lemma split_no_separator t : Str.no_separator t = true → Fs.split t = [t].
Proof.
  induction t as [|c r IH]; [done|]. cbn [Str.no_separator].
  intros [Hc Hr]%andb_true_iff. apply negb_true_iff in Hc.
  by rewrite split_cons, Hc, (IH Hr).
Qed.

(** A suffix without separator only extends the last segment. *)
Lemma split_snoc s :
  ∃ init lst, Fs.split s = init ++ [lst] ∧
    ∀ t, Str.no_separator t = true → Fs.split (s +:+ t) = init ++ [lst +:+ t].
Proof.
  induction s as [|c r (init & lst & Hr & IH)].
  - exists [], "". split; [done|]. intros t Ht. by apply split_no_separator.
  - destruct (Ascii.eqb c "/") eqn:Hc.
    + exists ("" :: init), lst. rewrite split_cons, Hc, Hr.
      split; [done|]. intros t Ht.
      change (String c r +:+ t) with (String c (r +:+ t)).
      by rewrite split_cons, Hc, (IH t Ht).
    + destruct init as [|i0 init].
      * exists [], (String c lst). rewrite split_cons, Hc, Hr.
        split; [done|]. intros t Ht.
        change (String c r +:+ t) with (String c (r +:+ t)).
      by rewrite split_cons, Hc, (IH t Ht).
      * exists (String c i0 :: init), lst. rewrite split_cons, Hc, Hr.
        split; [done|]. intros t Ht.
        change (String c r +:+ t) with (String c (r +:+ t)).
      by rewrite split_cons, Hc, (IH t Ht).
Qed.

Lemma joinPath_app p l1 l2 :
  Fs.joinPath p (l1 ++ l2) = Fs.joinPath (Fs.joinPath p l1) l2.
Proof. unfold Fs.joinPath. by rewrite bind_app, fold_left_app. Qed.

Lemma push_plain p n : n ≠ "" → n ≠ "." → n ≠ ".." → Fs.push p n = p ++ [n].
Proof.
  intros H1 H2 H3. unfold Fs.push.
  by rewrite !eqb_false_ne.
Qed.

Lemma dashed_plain s d :
  let n := s +:+ "-" +:+ d in n ≠ "" ∧ n ≠ "." ∧ n ≠ "..".
Proof. by destruct s as [|c [|c' [|c'' r]]]. Qed.

Lemma no_separator_pretty_go (x : N) s :
  Str.no_separator s = true → Str.no_separator (pretty_N_go x s) = true.
Proof.
  revert s. induction (N.lt_wf_0 x) as [x _ IH]; intros s Hs.
  destruct (decide (x = 0)%N) as [->|Hx]; [by rewrite pretty_N_go_0|].
  rewrite pretty_N_go_step by lia. apply IH.
  - apply N.div_lt; lia.
  - cbn [Str.no_separator]. rewrite Hs, andb_true_r.
    unfold pretty_N_char. by repeat case_match.
Qed.

Lemma no_separator_pretty (k : nat) : Str.no_separator (pretty k) = true.
Proof.
  unfold pretty, pretty_nat, pretty, pretty_N.
  case_decide; [done|]. by apply no_separator_pretty_go.
Qed.

(** Every numbered folder name is one new component under a folder that
    does not depend on the number. *)
Lemma joinPath_numbered p s :
  ∃ q lst, ∀ k : nat,
    Fs.joinPath p [s +:+ "-" +:+ pretty k] = q ++ [lst +:+ "-" +:+ pretty k].
Proof.
  destruct (split_snoc s) as (init & lst & _ & Hsplit).
  exists (fold_left Fs.push init p), lst. intros k.
  unfold Fs.joinPath. cbn [mbind list_bind]. rewrite app_nil_r.
  rewrite Hsplit, fold_left_app.
  - cbn [fold_left]. destruct (dashed_plain lst (pretty k)) as (?&?&?).
    by apply push_plain.
  - cbn [Str.no_separator String.append]. apply no_separator_pretty.
Qed.

End paths.

(** ** The folder allocator: [getModelFolderName] *)

Section allocator.
Context (E : env) (f : gmap (list string) node) (name : string).

(** The path that a call with [count] probes. *)
Lemma probed_candidate (count : option nat) :
  Fs.joinPath (janDataFolderPath E)
    ["models";
     match count with
     | Some (S n) => name +:+ "-" +:+ pretty (S n)
     | Some O | None => name
     end]
  = Spec.candidate E name (default 0%nat count).
Proof.
  unfold Spec.candidate. rewrite <- joinPath_app.
  by destruct count as [[|n]|].
Qed.

(** The calls go through the candidates in order and stop at the first
    unused one, if they are allowed that many calls. *)
Lemma getModelFolderName_fuel_run (d : nat) :
  ∀ (fuel : nat) (count : option nat),
    (∀ j, (default 0 count ≤ j < default 0 count + d)%nat →
          Fs.existsSync f (Spec.candidate E name j) = true) →
    Fs.existsSync f (Spec.candidate E name (default 0 count + d)%nat) = false →
    (d < fuel)%nat →
    JanModelExtension.getModelFolderName_fuel fuel E f name count
    = Some (Spec.candidate E name (default 0 count + d)%nat).
Proof.
  induction d as [|d IH]; intros fuel count Hused Hfree Hfuel;
    (destruct fuel as [|fuel]; [lia|]);
    cbn [JanModelExtension.getModelFolderName_fuel];
    rewrite probed_candidate.
  - rewrite Nat.add_0_r in Hfree |- *. by rewrite Hfree.
  - rewrite (Hused (default 0%nat count)) by lia. cbn [negb].
    set (c := default 0%nat count) in *.
    specialize (IH fuel (Some (c + 1)%nat)).
    change (default 0%nat (Some (c + 1)%nat)) with (c + 1)%nat in IH.
    replace (c + S d)%nat with (c + 1 + d)%nat by lia.
    apply IH; [|by replace (c + 1 + d)%nat with (c + S d)%nat by lia|lia].
    intros j Hj. apply Hused. lia.
Qed.

(** Distinct numbers give distinct folders. *)
Lemma candidate_inj (j k : nat) :
  Spec.candidate E name (S j) = Spec.candidate E name (S k) → j = k.
Proof.
  unfold Spec.candidate, Spec.folder_name.
  destruct (joinPath_numbered
              (Fs.joinPath (janDataFolderPath E) ["models"]) name)
    as (q & lst & Hq).
  rewrite !Hq. intros [_ H]%app_inj_tail.
  apply (inj (String.append lst)) in H.
  apply (inj (String.append "-")) in H.
  apply (inj pretty) in H. lia.
Qed.

(** A finite file system cannot hold all the numbered folders. *)
Lemma candidate_unused :
  ∃ m, (m ≤ S (size f))%nat ∧ Fs.existsSync f (Spec.candidate E name m) = false.
Proof.
  set (l := (λ k, Spec.candidate E name (S k)) <$> seq 0 (S (size f))).
  destruct (decide (Forall (λ p, Fs.existsSync f p = true) l)) as [Hall|Hnot].
  - exfalso.
    assert (NoDup l) as Hnd.
    { apply NoDup_fmap_2; [|apply NoDup_seq].
      intros j k. apply candidate_inj. }
    assert (list_to_set l ⊆ dom f) as Hsub.
    { intros p Hp. apply elem_of_list_to_set in Hp.
      rewrite Forall_forall in Hall. specialize (Hall p Hp).
      apply bool_decide_eq_true in Hall. by apply elem_of_dom. }
    apply subseteq_size in Hsub.
    rewrite size_list_to_set, size_dom in Hsub by done.
    unfold l in Hsub. rewrite length_fmap, length_seq in Hsub. lia.
  - apply not_Forall_Exists in Hnot; [|apply _].
    apply Exists_exists in Hnot as (p & Hp & Hfree).
    apply list_elem_of_fmap in Hp as (k & -> & Hk).
    apply elem_of_seq in Hk. exists (S k). split; [lia|].
    cbn in Hfree. by destruct (Fs.existsSync f _).
Qed.

(** The first unused candidate. *)
Lemma candidate_first_unused (m : nat) :
  (∃ k, (k ≤ m)%nat ∧ Fs.existsSync f (Spec.candidate E name k) = false ∧
        ∀ j, (j < k)%nat → Fs.existsSync f (Spec.candidate E name j) = true) ∨
  (∀ j, (j ≤ m)%nat → Fs.existsSync f (Spec.candidate E name j) = true).
Proof.
  induction m as [|m [(k & Hk & Hfree & Hmin)|Hall]].
  - destruct (Fs.existsSync f (Spec.candidate E name 0)) eqn:H0.
    + right. intros j Hj. by replace j with 0%nat by lia.
    + left. exists 0%nat. split_and!; [lia|done|lia].
  - left. exists k. split_and!; [lia|done|done].
  - destruct (Fs.existsSync f (Spec.candidate E name (S m))) eqn:Hm.
    + right. intros j Hj. destruct (decide (j = S m)) as [->|]; [done|].
      apply Hall. lia.
    + left. exists (S m). split_and!; [lia|done|].
      intros j Hj. apply Hall. lia.
Qed.

Lemma getModelFolderName_fuel_total :
  ∃ k, (k ≤ S (size f))%nat ∧
    (∀ fuel, (k < fuel)%nat →
       JanModelExtension.getModelFolderName_fuel fuel E f name None
       = Some (Spec.candidate E name k)) ∧
    Fs.existsSync f (Spec.candidate E name k) = false ∧
    (∀ j, (j < k)%nat → Fs.existsSync f (Spec.candidate E name j) = true).
Proof.
  destruct candidate_unused as (m & Hm & Hfree).
  destruct (candidate_first_unused m) as [(k & Hk & Hkfree & Hmin)|Hall].
  - exists k. split_and!; [lia| |done|done].
    intros fuel Hfuel.
    apply (getModelFolderName_fuel_run k fuel None); cbn [default];
      [intros j Hj; apply Hmin; lia|done|done].
  - rewrite Hall in Hfree by lia. done.
Qed.

End allocator.

(** C6. For every desired folder name, [getModelFolderName] returns the
    first path that does not exist among root/name, root/name-1,
    root/name-2, ...: it returns root/name when that does not exist; with
    [foo] and [foo-1] present and [foo-2] absent it returns [foo-2]; the
    returned path does not exist when it is probed. *)
Theorem getModelFolderName_first_unused (E : env) (desiredName : string)
    (w : world) :
  ∃ k : nat,
    JanModelExtension.getModelFolderName E desiredName w
      = (Ok (Spec.candidate E desiredName k), w) ∧
    Fs.existsSync (fs w) (Spec.candidate E desiredName k) = false ∧
    (∀ j, (j < k)%nat →
          Fs.existsSync (fs w) (Spec.candidate E desiredName j) = true) ∧
    (Fs.existsSync (fs w) (Spec.candidate E desiredName 0) = false → k = 0%nat) ∧
    (Fs.existsSync (fs w) (Spec.candidate E desiredName 0) = true →
     Fs.existsSync (fs w) (Spec.candidate E desiredName 1) = true →
     Fs.existsSync (fs w) (Spec.candidate E desiredName 2) = false →
     k = 2%nat).
Proof.
  destruct (getModelFolderName_fuel_total E (fs w) desiredName)
    as (k & Hk & Hrun & Hfree & Hmin).
  exists k. split_and!; [|done|done| |].
  - unfold JanModelExtension.getModelFolderName.
    by rewrite Hrun by lia.
  - intros H0. destruct k as [|k]; [done|].
    rewrite Hmin in H0 by lia. done.
  - intros H0 H1 H2.
    destruct (decide (k = 2%nat)) as [|Hne]; [done|exfalso].
    destruct (decide (k < 2)%nat).
    + destruct k as [|[|k]]; [congruence|congruence|lia].
    + rewrite Hmin in H2 by lia. done.
Qed.

Lemma getModelFolderName_first_unused_witness :
  JanModelExtension.getModelFolderName Sample.E "foo" Sample3.w
  = (Ok ["jan"; "models"; "foo-2"], Sample3.w).
Proof.
  destruct (getModelFolderName_first_unused Sample.E "foo" Sample3.w)
    as (k & Hrun & _ & _ & _ & Hfoo).
  rewrite (Hfoo eq_refl eq_refl eq_refl) in Hrun. exact Hrun.
Defined.

(** ** Directory listings *)

Section listings.
Implicit Types (f : gmap (list string) node) (p q : list string) (n : string).

Lemma child_name_Some p q n : Fs.child_name p q = Some n ↔ q = p ++ [n].
Proof.
  revert q. induction p as [|a p IH]; intros q.
  - destruct q as [|b [|c q]]; cbn; naive_solver.
  - destruct q as [|b q]; cbn; [naive_solver|].
    destruct (String.eqb_spec a b) as [->|Hne]; [|naive_solver].
    rewrite IH. naive_solver.
Qed.

Lemma elem_of_entries f p n : n ∈ Fs.entries f p ↔ is_Some (f !! (p ++ [n])).
Proof.
  unfold Fs.entries. rewrite list_elem_of_omap. split.
  - intros ([q x] & Hq & Hn). apply child_name_Some in Hn. cbn in Hn. subst q.
    apply elem_of_map_to_list in Hq. by eexists.
  - intros [x Hx]. exists (p ++ [n], x). split.
    + by apply elem_of_map_to_list.
    + by apply child_name_Some.
Qed.

Lemma joinPath_plain p n : Spec.plain n → Fs.joinPath p [n] = p ++ [n].
Proof.
  intros (Hsep & H1 & H2 & H3). unfold Fs.joinPath.
  cbn [mbind list_bind]. rewrite app_nil_r, split_no_separator by done.
  by apply push_plain.
Qed.

Lemma plain_model_json : Spec.plain JanModelExtension._modelMetadataFileName.
Proof. by split_and!. Qed.

Lemma sort_Sorted (l : list string) : StronglySorted String.le (Str.sort l).
Proof. apply Sorted_StronglySorted; [apply _|]. apply Sorted_merge_sort; apply _. Qed.

Lemma elem_of_sort (l : list string) n : n ∈ Str.sort l ↔ n ∈ l.
Proof. unfold Str.sort. by rewrite merge_sort_Permutation. Qed.

End listings.

(** ** Synthesis: [generateModelMetadata] *)

Section synthesis.
Context (E : env) (dirName : string) (w : world).

Let dir : list string := Fs.joinPath (JanModelExtension.homeDir E) [dirName].

Lemma joinPath_entry (file : string) :
  Spec.plain file →
  Fs.joinPath (JanModelExtension.homeDir E) [dirName; file] = dir ++ [file].
Proof.
  intros Hplain. change [dirName; file] with ([dirName] ++ [file]).
  rewrite joinPath_app. by apply joinPath_plain.
Qed.

Lemma joinPath_binary (file : string) :
  Spec.plain file →
  Fs.joinPath (janDataFolderPath E) ["models"; dirName; file] = dir ++ [file].
Proof.
  intros Hplain. rewrite <- joinPath_entry by done.
  change ["models"; dirName; file] with (["models"] ++ [dirName; file]).
  by rewrite joinPath_app.
Qed.

Lemma findBinary_cons (file : string) (rest : list string) (x : node) :
  Spec.plain file →
  fs w !! (dir ++ [file]) = Some x →
  JanModelExtension.findBinary E dirName (file :: rest) w
  = if Str.ends_with JanModelExtension._supportedModelFormat file
    then match x with
         | Dir => JanModelExtension.findBinary E dirName rest w
         | File n _ => (Ok (Some (file, n)), w)
         end
    else JanModelExtension.findBinary E dirName rest w.
Proof.
  intros Hplain Hx. cbn [JanModelExtension.findBinary].
  destruct (Str.ends_with _ file); [|done].
  unfold mbind, M_bind, Op.read, Fs.fileStat.
  rewrite joinPath_entry, Hx by done. by destruct x.
Qed.

(** The loop returns the first entry of the listing that is a binary. *)
Lemma findBinary_run (files : list string) :
  (∀ file, file ∈ files →
           Spec.plain file ∧ is_Some (fs w !! (dir ++ [file]))) →
  StronglySorted String.le files →
  (JanModelExtension.findBinary E dirName files w = (Ok None, w) ∧
   ∀ file n d, file ∈ files → ¬ Spec.binary (fs w) dir file n d) ∨
  (∃ file n d,
     JanModelExtension.findBinary E dirName files w = (Ok (Some (file, n)), w) ∧
     Spec.binary (fs w) dir file n d ∧
     ∀ file' n' d', file' ∈ files → Spec.binary (fs w) dir file' n' d' →
                    String.le file file').
Proof.
  induction files as [|file rest IH]; intros Hentries Hsorted.
  { left. split; [done|]. intros ??? H. by apply elem_of_nil in H. }
  apply StronglySorted_inv in Hsorted as [Hrest Hle].
  destruct (Hentries file) as [Hplain [x Hx]]; [by left|].
  assert (∀ file', file' ∈ rest →
            Spec.plain file' ∧ is_Some (fs w !! (dir ++ [file']))) as Hentries'.
  { intros file' H. apply Hentries. by right. }
  specialize (IH Hentries' Hrest).
  (* what the loop does after skipping [file] *)
  assert ((∀ n d, ¬ Spec.binary (fs w) dir file n d) →
          (JanModelExtension.findBinary E dirName rest w = (Ok None, w) ∧
           ∀ file' n d, file' ∈ file :: rest →
                        ¬ Spec.binary (fs w) dir file' n d) ∨
          (∃ file0 n d,
             JanModelExtension.findBinary E dirName rest w
               = (Ok (Some (file0, n)), w) ∧
             Spec.binary (fs w) dir file0 n d ∧
             ∀ file' n' d', file' ∈ file :: rest →
                            Spec.binary (fs w) dir file' n' d' →
                            String.le file0 file')) as Hskip.
  { intros Hnot. destruct IH as [[Hrun Hnone]|(file0 & n & d & Hrun & Hbin & Hmin)].
    - left. split; [done|]. intros file' n d [->|H]%elem_of_cons; eauto.
    - right. exists file0, n, d. split_and!; [done..|].
      intros file' n' d' [->|H]%elem_of_cons Hbin'; [|by eauto].
      by destruct (Hnot n' d'). }
  rewrite (findBinary_cons file rest x) by done.
  destruct (Str.ends_with JanModelExtension._supportedModelFormat file) eqn:Hext.
  - destruct x as [|n d].
    + apply Hskip. intros n d [Hf _]. congruence.
    + right. exists file, n, d. split_and!; [done|by split|].
      intros file' n' d' [->|H]%elem_of_cons _; [done|].
      rewrite Forall_forall in Hle. by apply Hle.
  - apply Hskip. intros n d [_ Hf]. congruence.
Qed.

Lemma first_binary_unique file n d file' n' d' :
  Spec.first_binary (fs w) dir file n d →
  Spec.binary (fs w) dir file' n' d' →
  String.le file' file →
  file' = file ∧ n' = n ∧ d' = d.
Proof.
  intros [[Hf Hext] Hmin] [Hf' Hext'] Hle.
  assert (file' = file) as ->.
  { apply (anti_symm String.le); [done|]. by apply (Hmin file' n' d'). }
  rewrite Hf in Hf'. by injection Hf' as -> ->.
Qed.

(** What the loop finds in the sorted listing of the folder. *)
Lemma findBinary_sorted_listing :
  (∀ n, is_Some (fs w !! (dir ++ [n])) → Spec.plain n) →
  (JanModelExtension.findBinary E dirName (Str.sort (Fs.entries (fs w) dir)) w
     = (Ok None, w) ∧
   ∀ file n d, ¬ Spec.binary (fs w) dir file n d) ∨
  (∃ file n d,
     JanModelExtension.findBinary E dirName (Str.sort (Fs.entries (fs w) dir)) w
       = (Ok (Some (file, n)), w) ∧
     Spec.first_binary (fs w) dir file n d).
Proof.
  intros Hplain.
  assert (∀ file, file ∈ Str.sort (Fs.entries (fs w) dir) ↔
                  is_Some (fs w !! (dir ++ [file]))) as Hin.
  { intros file. by rewrite elem_of_sort, elem_of_entries. }
  destruct (findBinary_run (Str.sort (Fs.entries (fs w) dir)))
    as [[Hrun Hnone]|(file & n & d & Hrun & Hbin & Hmin)].
  - intros file Hfile%Hin. split; [by apply Hplain|done].
  - apply sort_Sorted.
  - left. split; [done|]. intros file n d Hbin.
    apply (Hnone file n d); [|done]. apply Hin. destruct Hbin as [Hf _]. by eexists.
  - right. exists file, n, d. split; [done|]. split; [done|].
    intros file' n' d' Hbin'. apply (Hmin file' n' d'); [|done].
    apply Hin. destruct Hbin' as [Hf _]. by eexists.
Qed.

Lemma try_readGguf (p : list string) n d :
  fs w !! p = Some (File n d) →
  Op.try_catch (Op.read (λ f, Fs.readGguf f p)) (λ _, mret JUndefined) w
  = (Ok (Spec.header_of d), w).
Proof.
  intros Hp. unfold Op.try_catch, Op.read, Fs.readGguf, Fs.readFileSync.
  rewrite Hp. by destruct d.
Qed.

(** The rest of [generateModelMetadata] once the loop has found a binary. *)
Lemma generateModelMetadata_found file n d updatedModel :
  fs w !! dir = Some Dir →
  fs w !! (dir ++ [JanModelExtension._modelMetadataFileName]) = None →
  JanModelExtension.findBinary E dirName (Str.sort (Fs.entries (fs w) dir)) w
    = (Ok (Some (file, n)), w) →
  fs w !! (dir ++ [file]) = Some (File n d) →
  Spec.plain file →
  retrieveGGUFMetadata E (Spec.header_of d) = Ok updatedModel →
  Js.truthy (DEFAULT_MODEL E) = true →
  ∃ model,
    JanModelExtension.generateModelMetadata E dirName w
    = (Ok (JObj model),
       set_fs (<[dir ++ [JanModelExtension._modelMetadataFileName] :=
                   File (json_length E (Js.json (JObj model)))
                        (Json (Js.json (JObj model)))]> (fs w)) w) ∧
    Js.lookup_prop "id" model = JStr dirName ∧
    Js.lookup_prop "name" model = JStr dirName ∧
    Js.lookup_prop "metadata" model
    = Js.object [Js.Field "size" (JNum n);
                 Js.Field "author" (JStr "User");
                 Js.Field "tags" (JArr [])] ∧
    Spec.get_path (JObj model) ["settings"; "llama_model_path"] = Ok (JStr file).
Proof.
  intros Hdir Hnone Hfind Hfile Hplain Hmd Hdef.
  destruct (retrieveGGUFMetadata_shape _ _ _ Hmd) as (us & up & ->).
  destruct (get_truthy _ "parameters" Hdef) as [dp Hdp].
  destruct (get_truthy _ "settings" Hdef) as [ds Hds].
  eexists. split.
  - unfold JanModelExtension.generateModelMetadata.
    unfold mbind at 1, M_bind at 1, Op.read at 1, Fs.readdirSync.
    fold dir. rewrite Hdir.
    unfold mbind at 1, M_bind at 1. rewrite Hfind.
    unfold mbind at 1, M_bind at 1.
    rewrite joinPath_binary by done. fold dir.
    rewrite (try_readGguf _ n d) by done.
    unfold mbind at 1, M_bind at 1, Op.lift at 1. rewrite Hmd, Hdef.
    cbn [negb].
    unfold mbind, M_bind, Op.lift, Op.Date_now, JanModelExtension.writeJson,
      Op.write, Fs.writeFileSync.
    rewrite Hdp, Hds. cbn [Js.get].
    rewrite joinPath_entry by apply plain_model_json. fold dir.
    unfold Fs.dirName. rewrite Hnone, removelast_last, Hdir.
    reflexivity.
  - cbn [fold_left Js.add_member]. split_and!.
    + rewrite !lookup_set_prop_ne by done. apply lookup_set_prop_eq.
    + rewrite !lookup_set_prop_ne by done. apply lookup_set_prop_eq.
    + apply lookup_set_prop_eq.
    + cbn [Spec.get_path Js.get mbind res_bind].
      rewrite !lookup_set_prop_ne by done. rewrite lookup_set_prop_eq.
      unfold Js.object. cbn [fold_left Js.add_member Js.get mbind res_bind].
      by rewrite lookup_set_prop_eq.
Qed.

Lemma generateModelMetadata_not_found :
  fs w !! dir = Some Dir →
  JanModelExtension.findBinary E dirName (Str.sort (Fs.entries (fs w) dir)) w
    = (Ok None, w) →
  JanModelExtension.generateModelMetadata E dirName w
  = (Ok JUndefined,
     {| fs := fs w; timers := timers w; next_timer := next_timer w;
        emitted := emitted w;
        console := console w ++
          [console_warn ("Unable to find binary file for model " +:+ dirName)];
        now := now w |}).
Proof.
  intros Hdir Hfind. unfold JanModelExtension.generateModelMetadata.
  unfold mbind at 1, M_bind at 1, Op.read at 1, Fs.readdirSync.
  fold dir. rewrite Hdir.
  unfold mbind at 1, M_bind at 1. by rewrite Hfind.
Qed.

End synthesis.

(** C5, as amended. For every model folder without a descriptor file (in a
    file system whose entries have proper names), [generateModelMetadata]
    picks the lexicographically first entry that has the [.gguf] extension
    and is not a directory. When there is none it returns [undefined] after
    a console warning, and neither throws nor writes. Otherwise, when the
    header metadata of that binary is converted without an error and a
    default descriptor is configured, the synthesized descriptor has [id]
    and [name] equal to the folder name, [metadata.author] equal to
    ["User"] (capitalised), [metadata.size] equal to the byte length of the
    binary, and it is written into the folder as [model.json]. *)
Theorem generateModelMetadata_synthesizes (E : env) (dirName : string)
    (w : world) :
  let dir := Fs.joinPath (JanModelExtension.homeDir E) [dirName] in
  fs w !! dir = Some Dir →
  fs w !! (dir ++ [JanModelExtension._modelMetadataFileName]) = None →
  (∀ n, is_Some (fs w !! (dir ++ [n])) → Spec.plain n) →
  ((∀ file n d, ¬ Spec.binary (fs w) dir file n d) →
   ∃ w',
     JanModelExtension.generateModelMetadata E dirName w = (Ok JUndefined, w') ∧
     fs w' = fs w ∧
     console w' = console w ++
       [console_warn ("Unable to find binary file for model " +:+ dirName)]) ∧
  ((∃ file n d, Spec.binary (fs w) dir file n d) →
   ∃ file n d,
     Spec.first_binary (fs w) dir file n d ∧
     ∀ updatedModel,
       retrieveGGUFMetadata E (Spec.header_of d) = Ok updatedModel →
       Js.truthy (DEFAULT_MODEL E) = true →
       ∃ model,
         JanModelExtension.generateModelMetadata E dirName w
         = (Ok model,
            set_fs (<[dir ++ [JanModelExtension._modelMetadataFileName] :=
                        File (json_length E (Js.json model))
                             (Json (Js.json model))]> (fs w)) w) ∧
         Spec.get_path model ["id"] = Ok (JStr dirName) ∧
         Spec.get_path model ["name"] = Ok (JStr dirName) ∧
         Spec.get_path model ["metadata"; "author"] = Ok (JStr "User") ∧
         Spec.get_path model ["metadata"; "size"] = Ok (JNum n) ∧
         Spec.get_path model ["settings"; "llama_model_path"] = Ok (JStr file)).
Proof.
  intros dir Hdir Hnone Hplain.
  destruct (findBinary_sorted_listing E dirName w Hplain)
    as [[Hrun Hnobin]|(file & n & d & Hrun & Hfirst)]; fold dir in Hrun.
  - split.
    + intros _. eexists. split; [by apply generateModelMetadata_not_found|done].
    + intros (file & n & d & Hbin). by destruct (Hnobin file n d).
  - split.
    + intros Hnobin. destruct Hfirst as [Hbin _]. by destruct (Hnobin file n d).
    + intros _. exists file, n, d. split; [done|].
      intros updatedModel Hmd Hdef.
      destruct Hfirst as [[Hfile Hext] Hmin].
      destruct (generateModelMetadata_found E dirName w file n d updatedModel)
        as (model & Hgen & Hid & Hname & Hmeta & Hpath); try done.
      { apply Hplain. by eexists. }
      exists (JObj model). split; [done|].
      cbn [Spec.get_path Js.get mbind res_bind].
      rewrite Hid, Hname, Hmeta. by split_and!.
Qed.

Lemma generateModelMetadata_synthesizes_witness :
  ∃ model w',
    JanModelExtension.generateModelMetadata Sample.E "foo" Sample3.w
      = (Ok model, w') ∧
    fs w' !! ["jan"; "models"; "foo"; "model.json"]
      = Some (File 0 (Json (Js.json model))) ∧
    Spec.get_path model ["id"] = Ok (JStr "foo") ∧
    Spec.get_path model ["metadata"; "author"] = Ok (JStr "User") ∧
    Spec.get_path model ["metadata"; "size"] = Ok (JNum 100) ∧
    Spec.get_path model ["settings"; "llama_model_path"] = Ok (JStr "a.gguf").
Proof.
  destruct (generateModelMetadata_synthesizes Sample.E "foo" Sample3.w)
    as [_ Hsome].
  - reflexivity.
  - reflexivity.
  - intros n [x Hx]. apply elem_of_list_to_map_2 in Hx.
    change (Fs.joinPath (JanModelExtension.homeDir Sample.E) ["foo"])
      with ["jan"; "models"; "foo"] in Hx.
    cbn [app] in Hx.
    repeat (apply elem_of_cons in Hx as [Hx|Hx];
            [simplify_eq; try by split_and!|]).
    by apply elem_of_nil in Hx.
  - destruct Hsome as (file & n & d & Hfirst & Hgen).
    { exists "a.gguf", 100, (Gguf Sample.header). by split. }
    assert (file = "a.gguf" ∧ n = 100 ∧ d = Gguf Sample.header)
      as (-> & -> & ->).
    { destruct Hfirst as [[Hf Hext] Hmin].
      pose proof (Hmin "a.gguf" 100 (Gguf Sample.header)
                    (conj eq_refl eq_refl)) as Hle.
      apply elem_of_list_to_map_2 in Hf.
      change (Fs.joinPath (JanModelExtension.homeDir Sample.E) ["foo"])
        with ["jan"; "models"; "foo"] in Hf.
      clear Hmin. cbn [app] in Hf.
      repeat (apply elem_of_cons in Hf as [Hf|Hf];
              [simplify_eq;
               first [by vm_compute in Hle | discriminate Hext | by split_and!]|]).
      by apply elem_of_nil in Hf. }
    destruct (Hgen _ eq_refl eq_refl)
      as (model & Hrun & Hid & _ & Hauthor & Hsize & Hpath).
    eexists model, _. split; [exact Hrun|].
    split; [apply lookup_insert_eq|].
    exact (conj Hid (conj Hauthor (conj Hsize Hpath))).
Defined.

(** C5, as stated, at a folder with binaries and no descriptor: the
    synthesized descriptor's [metadata.author] is not ["user"]. *)
Lemma generateModelMetadata_author_not_user :
  ∃ model w',
    JanModelExtension.generateModelMetadata Sample.E "foo" Sample3.w
      = (Ok model, w') ∧
    Spec.get_path model ["metadata"; "author"] = Ok (JStr "User") ∧
    Spec.get_path model ["metadata"; "author"] ≠ Ok (JStr "user").
Proof.
  eexists _, _. split; [vm_compute; reflexivity|]. split; [reflexivity|done].
Qed.

(** ** What an operation leaves untouched *)

(** [keeps proj m]: running [m] does not change the component [proj] of
    the world, whether [m] returns or throws. *)
Definition keeps {A X} (proj : world → X) (m : M A) : Prop :=
  ∀ w, proj (m w).2 = proj w.

Section keeps.
Context {X : Type} (proj : world → X).

Lemma keeps_ret {A} (a : A) : keeps proj (mret a).
Proof. by intros w. Qed.

Lemma keeps_bind {A B} (m : M A) (f : A → M B) :
  keeps proj m → (∀ a, keeps proj (f a)) → keeps proj (m ≫= f).
Proof.
  intros Hm Hf w. unfold mbind, M_bind. specialize (Hm w).
  destruct (m w) as [[a|e] w1]; cbn in *; [|done].
  by rewrite Hf.
Qed.

Lemma keeps_lift {A} (r : res A) : keeps proj (Op.lift r).
Proof. by intros w. Qed.

Lemma keeps_read {A} (g : gmap (list string) node → res A) :
  keeps proj (Op.read g).
Proof. by intros w. Qed.

Lemma keeps_try_catch {A} (m : M A) (h : exn → M A) :
  keeps proj m → (∀ e, keeps proj (h e)) → keeps proj (Op.try_catch m h).
Proof.
  intros Hm Hh w. unfold Op.try_catch. specialize (Hm w).
  destruct (m w) as [[a|e] w1]; cbn in *; [done|].
  by rewrite Hh.
Qed.

Lemma keeps_Date_now : keeps proj Op.Date_now.
Proof. by intros w. Qed.

End keeps.

Lemma keeps_write {X} (proj : world → X) g :
  (∀ f w, proj (set_fs f w) = proj w) → keeps proj (Op.write g).
Proof.
  intros H w. unfold Op.write. destruct (g (fs w)); cbn; [apply H|done].
Qed.

Create HintDb keeps.
#[local] Hint Resolve keeps_ret keeps_lift keeps_read keeps_Date_now : keeps.

(** The individual components. *)
Lemma write_keeps_timers g : keeps timers (Op.write g).
Proof. by apply keeps_write. Qed.
Lemma write_keeps_next_timer g : keeps next_timer (Op.write g).
Proof. by apply keeps_write. Qed.
Lemma write_keeps_emitted g : keeps emitted (Op.write g).
Proof. by apply keeps_write. Qed.
Lemma log_keeps_timers l : keeps timers (Op.log l).
Proof. by intros w. Qed.
Lemma log_keeps_next_timer l : keeps next_timer (Op.log l).
Proof. by intros w. Qed.
Lemma log_keeps_emitted l : keeps emitted (Op.log l).
Proof. by intros w. Qed.
Lemma log_keeps_fs l : keeps fs (Op.log l).
Proof. by intros w. Qed.
Lemma setInterval_keeps_emitted cb : keeps emitted (Op.setInterval cb).
Proof. by intros w. Qed.
Lemma clearInterval_keeps_emitted id : keeps emitted (Op.clearInterval id).
Proof. by intros w. Qed.

#[local] Hint Resolve write_keeps_timers write_keeps_next_timer
  write_keeps_emitted log_keeps_timers log_keeps_next_timer log_keeps_emitted
  log_keeps_fs setInterval_keeps_emitted clearInterval_keeps_emitted : keeps.

(** Go through the binds and the branches of an operation. *)
Ltac keeps_step :=
  first
    [ solve [eauto with keeps]
    | apply keeps_bind; [|intros ?]
    | apply keeps_try_catch; [|intros ?]
    | progress cbv zeta
    | match goal with
      | |- keeps _ (if ?b then _ else _) => destruct b
      | |- keeps _ (match ?x with _ => _ end) => destruct x
      end ].
Ltac keeps_auto := repeat keeps_step.

Section keeps_extension.
Context (E : env).

Lemma writeJson_keeps {X} (proj : world → X) p v :
  (∀ f w, proj (set_fs f w) = proj w) →
  keeps proj (JanModelExtension.writeJson E p v).
Proof. intros H. by apply keeps_write. Qed.

Lemma findBinary_keeps {X} (proj : world → X) dirName files :
  keeps proj (JanModelExtension.findBinary E dirName files).
Proof.
  induction files as [|file rest IH]; cbn [JanModelExtension.findBinary];
    keeps_auto.
Qed.

Lemma generateModelMetadata_keeps {X} (proj : world → X) dirName :
  (∀ f w, proj (set_fs f w) = proj w) →
  (∀ l, keeps proj (Op.log l)) →
  keeps proj (JanModelExtension.generateModelMetadata E dirName).
Proof.
  intros Hfs Hlog. unfold JanModelExtension.generateModelMetadata.
  pose proof (findBinary_keeps proj dirName) as Hfind.
  pose proof (λ p v, writeJson_keeps proj p v Hfs) as Hwrite.
  keeps_auto.
Qed.


Lemma getModelFolderName_keeps {X} (proj : world → X) name :
  keeps proj (JanModelExtension.getModelFolderName E name).
Proof.
  intros w. unfold JanModelExtension.getModelFolderName.
  by destruct (JanModelExtension.getModelFolderName_fuel _ _ _ _ _).
Qed.


End keeps_extension.

(** ** The copy strategy and its progress timer *)

Lemma M_bind_Ok {A B} (m : M A) (f : A → M B) (w w' : world) (b : B) :
  (m ≫= f) w = (Ok b, w') →
  ∃ a w1, m w = (Ok a, w1) ∧ f a w1 = (Ok b, w').
Proof.
  unfold mbind, M_bind. destruct (m w) as [[a|e] w1]; [|done].
  intros H. by exists a, w1.
Qed.

Lemma M_bind_run {A B} (m : M A) (f : A → M B) (w w1 : world) (a : A) :
  m w = (Ok a, w1) → (m ≫= f) w = f a w1.
Proof. unfold mbind, M_bind. by intros ->. Qed.

Lemma M_bind_throw {A B} (m : M A) (f : A → M B) (w w1 : world) (e : exn) :
  m w = (Throw e, w1) → (m ≫= f) w = (Throw e, w1).
Proof. unfold mbind, M_bind. by intros ->. Qed.

Section progress_timer.
Context (E : env).

Lemma keeps_run {A X} (proj : world → X) (m : M A) w r w' :
  keeps proj m → m w = (r, w') → proj w' = proj w.
Proof. intros Hm Hrun. specialize (Hm w). by rewrite Hrun in Hm. Qed.

Lemma filter_fresh (id : nat) (l : list (nat * timer)) :
  Forall (λ t, (t.1 < id)%nat) l → filter (λ t, t.1 ≠ id) l = l.
Proof.
  induction 1 as [|t l Ht _ IH]; [done|].
  rewrite filter_cons_True by lia. by rewrite IH.
Qed.

(** When the copy strategy returns, the timer it started is cleared. *)
Lemma importModel_returns_clears model w d w' :
  Spec.timers_wf w →
  JanModelExtension.importModel E model MOVE_BINARY_FILE w = (Ok d, w') →
  timers w' = timers w.
Proof.
  intros Hwf. unfold JanModelExtension.importModel. cbv zeta.
  intros H.
  apply M_bind_Ok in H as (folder & w1 & H1 & H).
  apply M_bind_Ok in H as ([] & w2 & H2 & H).
  apply M_bind_Ok in H as (srcStat & w3 & H3 & H).
  apply M_bind_Ok in H as (interval & w4 & H4 & H).
  apply M_bind_Ok in H as ([] & w5 & H5 & H).
  apply M_bind_Ok in H as ([] & w6 & H6 & H).
  pose proof (keeps_run timers _ _ _ _ (getModelFolderName_keeps E _ _) H1) as T1.
  pose proof (keeps_run next_timer _ _ _ _ (getModelFolderName_keeps E _ _) H1) as N1.
  pose proof (keeps_run timers _ _ _ _ (write_keeps_timers _) H2) as T2.
  pose proof (keeps_run next_timer _ _ _ _ (write_keeps_next_timer _) H2) as N2.
  injection H3 as _ <-. injection H4 as <- <-.
  pose proof (keeps_run timers _ _ _ _ (write_keeps_timers _) H5) as T5.
  injection H6 as <-.
  assert (keeps timers (JanModelExtension.generateModelMetadata E
                          (Fs.baseName folder))) as Hgen.
  { apply generateModelMetadata_keeps; [done|apply log_keeps_timers]. }
  rewrite (keeps_run timers _ _ _ _ Hgen H). cbn [timers].
  rewrite T5. cbn [timers]. rewrite filter_app, filter_cons_False by naive_solver.
  rewrite filter_nil, app_nil_r, T2, T1, N2, N1.
  by apply filter_fresh.
Qed.

(** When the copy itself fails, [importModel] rejects with the error of
    the copy and the timer stays installed. *)
Lemma importModel_copy_fails_leaks model w folder f1 srcStat e :
  let binaryName := Str.remove_spaces (Fs.baseName (path model)) in
  let binaryPath :=
    Fs.joinPath folder
      [if Str.ends_with JanModelExtension._supportedModelFormat binaryName
       then binaryName
       else binaryName +:+ JanModelExtension._supportedModelFormat] in
  JanModelExtension.getModelFolderName E
    (if Str.ends_with JanModelExtension._supportedModelFormat binaryName
     then Str.replace_first JanModelExtension._supportedModelFormat "" binaryName
     else binaryName) w = (Ok folder, w) →
  Fs.mkdir (fs w) folder = Ok f1 →
  Fs.fileStat f1 (path model) = Ok srcStat →
  Fs.copyFile f1 (path model) binaryPath = Throw e →
  ∃ w',
    JanModelExtension.importModel E model MOVE_BINARY_FILE w = (Throw e, w') ∧
    timers w' = timers w ++
      [(next_timer w, ProgressPoll model binaryPath (Stat.size srcStat))].
Proof.
  intros binaryName binaryPath Hname Hmkdir Hstat Hcopy.
  unfold JanModelExtension.importModel. cbv zeta.
  fold binaryName. rewrite (M_bind_run _ _ _ _ _ Hname).
  unfold mbind, M_bind, Op.write, Op.read, Op.setInterval.
  rewrite Hmkdir. cbn [fs set_fs]. rewrite Hstat. cbn [fs].
  fold binaryPath. rewrite Hcopy. by eexists.
Qed.

(** The timers survive the passing of time. *)
Lemma fire_keeps_timers t : keeps timers (Op.fire t).
Proof.
  destruct t. unfold Op.fire.
  apply keeps_try_catch; [|intros; apply keeps_ret].
  apply keeps_bind; [apply keeps_read|]. by intros a w.
Qed.

Lemma tick_keeps_timers : keeps timers Op.tick.
Proof.
  intros w. unfold Op.tick.
  assert (∀ l acc, timers (fold_left
            (λ (acc : res unit * world) (t : nat * timer),
               match Op.fire t.2 acc.2 with (_, w') => (Ok tt, w') end)
            l acc).2 = timers acc.2) as H.
  { induction l as [|t l IH]; intros acc; [done|]. cbn [fold_left].
    rewrite IH. pose proof (fire_keeps_timers t.2 acc.2) as Hf.
    by destruct (Op.fire t.2 acc.2). }
  apply H.
Qed.

End progress_timer.

(** C1, at the failing input. The model path names a directory, the copy
    fails after the progress timer has been started, and [importModel]
    rejects while the timer is still installed; it stays installed as time
    passes. On the paths where [importModel] returns, the timer is cleared
    (lemma [importModel_returns_clears]). *)
Theorem importModel_leaves_timer_when_copy_fails :
  ∃ w',
    JanModelExtension.importModel Sample.E Sample3.folder MOVE_BINARY_FILE
      Sample3.w = (Throw (FsError "EISDIR"), w') ∧
    timers Sample3.w = [] ∧
    timers w'
    = [(0%nat, ProgressPoll Sample3.folder
                 ["jan"; "models"; "folder"; "folder.gguf"] 0)] ∧
    timers (Op.tick w').2 = timers w'.
Proof.
  eexists. split; [vm_compute; reflexivity|].
  split; [reflexivity|]. split; [reflexivity|]. apply tick_keeps_timers.
Qed.

(** ** Batch import: [importModels] *)

Section batch.
Context (E : env) (optionType : OptionType).



End batch.


(** ** Remote progress polling *)

Section polling.
Import Polling.

Lemma handler_interval body s :
  interval (handler body s) = if terminal body then false else interval s.
Proof.
  unfold handler, terminal. destruct (Js.get body "downloadState") as [d|]; [|done].
  destruct (Js.strict_eq_str d "end"); [done|].
  by destruct (Js.strict_eq_str d "error").
Qed.

Lemma handler_resolved body s :
  resolved (handler body s) = if terminal body then true else resolved s.
Proof.
  unfold handler, terminal. destruct (Js.get body "downloadState") as [d|]; [|done].
  destruct (Js.strict_eq_str d "end"); [done|].
  by destruct (Js.strict_eq_str d "error").
Qed.

Lemma step_interval s i s' :
  step s i = Some s' →
  interval s' = match i with
                | Response body => if terminal body then false else interval s
                | _ => interval s
                end.
Proof.
  destruct i as [|body|]; cbn [step].
  - destruct (interval s) eqn:Hi; [|done]. by intros [= <-].
  - case_bool_decide; [done|]. intros [= <-]. by rewrite handler_interval.
  - case_bool_decide; [done|]. by intros [= <-].
Qed.

Lemma step_resolved s i s' :
  step s i = Some s' →
  resolved s' = match i with
                | Response body => if terminal body then true else resolved s
                | _ => resolved s
                end.
Proof.
  destruct i as [|body|]; cbn [step].
  - destruct (interval s) eqn:Hi; [|done]. by intros [= <-].
  - case_bool_decide; [done|]. intros [= <-]. by rewrite handler_resolved.
  - case_bool_decide; [done|]. by intros [= <-].
Qed.

(** The interval is cleared exactly by a terminal answer. *)
Lemma run_interval (l : list input) :
  ∀ s s', run s l = Some s' →
    (interval s' = false ↔
     interval s = false ∨ ∃ body, Response body ∈ l ∧ terminal body = true) ∧
    (resolved s = negb (interval s) → resolved s' = negb (interval s')).
Proof.
  induction l as [|i l IH]; intros s s'; cbn [run].
  - intros [= <-]. split; [|done]. split; [by left|].
    intros [?|(body & H & _)]; [done|]. by apply elem_of_nil in H.
  - destruct (step s i) as [s1|] eqn:Hstep; [|done]. intros Hrun.
    destruct (IH _ _ Hrun) as [Hint Hres].
    pose proof (step_interval _ _ _ Hstep) as Hi.
    pose proof (step_resolved _ _ _ Hstep) as Hr.
    split.
    + rewrite Hint, Hi. split.
      * intros [H|(body & Hin & Hterm)].
        -- destruct i as [|body|]; [by left|..|by left].
           destruct (terminal body) eqn:Hterm; [|by left].
           right. exists body. split; [by left|done].
        -- right. exists body. split; [by right|done].
      * intros [H|(body & Hin & Hterm)].
        -- left. destruct i as [|body|]; [done|..|done]. by case_match.
        -- apply elem_of_cons in Hin as [<-|Hin].
           ++ left. by rewrite Hterm.
           ++ right. by exists body.
    + intros Hinv. apply Hres. rewrite Hi, Hr.
      destruct i as [|body|]; [done|..|done]. by destruct (terminal body).
Qed.

(** One firing and its answer. *)
Lemma run_round body s (l : list input) :
  interval s = true →
  run s (Fire :: Response body :: l)
  = run (handler body {| interval := true; resolved := resolved s;
                         inflight := inflight s; emitted := emitted s |}) l.
Proof.
  intros Hs. cbn [run step]. rewrite Hs. cbn [inflight].
  case_bool_decide; [lia|done].
Qed.

(** Any number of polls that are not answered with a terminal state. *)
Lemma run_unbounded body d (n : nat) :
  Js.get body "downloadState" = Ok d →
  terminal body = false →
  ∀ s, interval s = true →
    ∃ s', run s (concat (replicate n [Fire; Response body])) = Some s' ∧
          interval s' = true ∧ resolved s' = resolved s ∧
          inflight s' = inflight s ∧
          emitted s' = emitted s ++ replicate n (onFileDownloadUpdate body).
Proof.
  intros Hd Hterm. induction n as [|n IH]; intros s Hs.
  - exists s. by rewrite app_nil_r.
  - cbn [replicate concat app]. rewrite run_round by done.
    set (s1 := handler body _).
    assert (interval s1 = true ∧ resolved s1 = resolved s ∧
            inflight s1 = inflight s ∧
            emitted s1 = emitted s ++ [onFileDownloadUpdate body])
      as (Hi & Hr & Hf & He).
    { subst s1. unfold handler, terminal in *. rewrite Hd in *.
      apply orb_false_iff in Hterm as [-> ->]. done. }
    destruct (IH s1 Hi) as (s' & Hrun & Hi' & Hr' & Hf' & He').
    exists s'. rewrite Hrun, Hi', Hr', Hf', He', Hr, Hf, He.
    by rewrite <- app_assoc.
Qed.

End polling.

(** C8. The handler of a poll answer emits exactly one event: success for
    the download state [end], error for [error], update for anything else.
    In every run of the polling from its start, the interval is cleared,
    and the promise resolved, if and only if an answer with state [end] or
    [error] was handled; and for every number [n], [n] polls answered with
    another state leave the polling running. *)
Theorem polling_maps_states_and_stops_on_terminal :
  (∀ body d s,
     Js.get body "downloadState" = Ok d →
     Polling.emitted (Polling.handler body s)
     = Polling.emitted s ++
       [if Js.strict_eq_str d "end" then Polling.onFileDownloadSuccess body
        else if Js.strict_eq_str d "error" then Polling.onFileDownloadError body
        else Polling.onFileDownloadUpdate body]) ∧
  (∀ inputs s',
     Polling.run Polling.start inputs = Some s' →
     (Polling.interval s' = false ↔
      ∃ body, Polling.Response body ∈ inputs ∧ Polling.terminal body = true) ∧
     Polling.resolved s' = negb (Polling.interval s')) ∧
  (∀ (n : nat) body d,
     Js.get body "downloadState" = Ok d →
     Polling.terminal body = false →
     ∃ s',
       Polling.run Polling.start
         (concat (replicate n [Polling.Fire; Polling.Response body])) = Some s' ∧
       Polling.interval s' = true ∧
       Polling.resolved s' = false ∧
       Polling.emitted s' = replicate n (Polling.onFileDownloadUpdate body)).
Proof.
  split_and!.
  - intros body d s Hd. unfold Polling.handler. rewrite Hd.
    destruct (Js.strict_eq_str d "end"); [done|].
    by destruct (Js.strict_eq_str d "error").
  - intros inputs s' Hrun.
    destruct (run_interval inputs _ _ Hrun) as [Hint Hres].
    split; [|by apply Hres]. rewrite Hint. cbn [Polling.interval Polling.start].
    naive_solver.
  - intros n body d Hd Hterm.
    destruct (run_unbounded body d n Hd Hterm Polling.start eq_refl)
      as (s' & Hrun & Hi & Hr & _ & He).
    exists s'. by split_and!.
Qed.

Lemma polling_maps_states_and_stops_on_terminal_witness :
  ∃ s',
    Polling.run Polling.start
      [Polling.Fire; Polling.Response Sample4.downloading;
       Polling.Fire; Polling.Response Sample4.ended] = Some s' ∧
    Polling.interval s' = false ∧
    Polling.resolved s' = true ∧
    Polling.emitted s'
    = [Polling.onFileDownloadUpdate Sample4.downloading;
       Polling.onFileDownloadSuccess Sample4.ended].
Proof.
  destruct polling_maps_states_and_stops_on_terminal as (_ & Hstop & _).
  exists {| Polling.interval := false; Polling.resolved := true;
            Polling.inflight := 0;
            Polling.emitted :=
              [Polling.onFileDownloadUpdate Sample4.downloading;
               Polling.onFileDownloadSuccess Sample4.ended] |}.
  assert (Polling.run Polling.start
            [Polling.Fire; Polling.Response Sample4.downloading;
             Polling.Fire; Polling.Response Sample4.ended]
          = Some {| Polling.interval := false; Polling.resolved := true;
                    Polling.inflight := 0;
                    Polling.emitted :=
                      [Polling.onFileDownloadUpdate Sample4.downloading;
                       Polling.onFileDownloadSuccess Sample4.ended] |})
    as Hrun by reflexivity.
  split; [exact Hrun|].
  destruct (Hstop _ _ Hrun) as [Hint Hres].
  split; [|split; [exact Hres|reflexivity]].
  apply Hint. exists Sample4.ended. split; [|reflexivity].
  rewrite !elem_of_cons. auto.
Defined.

(** ** The REST helpers *)

Section builder.
Context (E : env) (configuration : Builder.RouteConfiguration).

Lemma readModelMetadata_keeps_fs p : keeps fs (Builder.readModelMetadata p).
Proof. unfold Builder.readModelMetadata. keeps_auto. Qed.

Lemma readAll_keeps_fs directoryPath dirs :
  keeps fs (Builder.readAll configuration directoryPath dirs).
Proof.
  pose proof readModelMetadata_keeps_fs.
  induction dirs as [|d r IH]; cbn [Builder.readAll]; keeps_auto.
Qed.

Lemma parseAll_keeps_fs results : keeps fs (Builder.parseAll results).
Proof. induction results as [|d r IH]; cbn [Builder.parseAll]; keeps_auto. Qed.

Lemma getBuilder_keeps_fs : keeps fs (Builder.getBuilder E configuration).
Proof.
  pose proof readAll_keeps_fs. pose proof parseAll_keeps_fs.
  unfold Builder.getBuilder. keeps_auto.
Qed.

Lemma retrieveBuilder_keeps_fs id :
  keeps fs (Builder.retrieveBuilder E configuration id).
Proof.
  pose proof getBuilder_keeps_fs.
  unfold Builder.retrieveBuilder. keeps_auto.
Qed.

Lemma rmdirSync_Ok (f f' : gmap (list string) node) (p : list string) :
  Fs.rmdirSync f p = Ok f' →
  (∀ q, p `prefix_of` q → f' !! q = None) ∧
  (∀ q, ¬ p `prefix_of` q → f' !! q = f !! q).
Proof.
  unfold Fs.rmdirSync. destruct (f !! p) as [[|]|]; try done.
  intros [= <-]. split; intros q Hq.
  - apply map_lookup_filter_None. right. intros x _. cbn. tauto.
  - apply option_eq. intros x. rewrite map_lookup_filter_Some. cbn. tauto.
Qed.

Lemma deleteBuilder_protected w :
  Builder.dirName configuration = "assistants" →
  Builder.deleteBuilder E configuration "jan" w
  = (Ok (Js.object [Js.Field "message" (JStr "Cannot delete Jan assistant")]), w).
Proof. intros H. unfold Builder.deleteBuilder. by rewrite H. Qed.

Lemma deleteBuilder_proceeds id w data w1 :
  ¬ (Builder.dirName configuration = "assistants" ∧ id = "jan") →
  Builder.retrieveBuilder E configuration id w = (Ok data, w1) →
  Js.truthy data = true →
  fs w !! Fs.joinPath
            (Fs.joinPath (janDataFolderPath E) [Builder.dirName configuration])
            [id] = Some Dir →
  ∃ w',
    Builder.deleteBuilder E configuration id w
    = (Ok (Js.object
             [Js.Field "id" (JStr id);
              Js.Field "object" (JStr (Builder.delete_object configuration));
              Js.Field "deleted" (JBool true)]), w') ∧
    (∀ q, Fs.joinPath
            (Fs.joinPath (janDataFolderPath E) [Builder.dirName configuration])
            [id] `prefix_of` q → fs w' !! q = None) ∧
    (∀ q, ¬ Fs.joinPath
              (Fs.joinPath (janDataFolderPath E) [Builder.dirName configuration])
              [id] `prefix_of` q → fs w' !! q = fs w !! q).
Proof.
  intros Hnot Hget Htruthy Hdir.
  pose proof (keeps_run fs _ _ _ _ (retrieveBuilder_keeps_fs id) Hget) as Hfs.
  unfold Builder.deleteBuilder.
  assert (String.eqb (Builder.dirName configuration) "assistants"
          && String.eqb id "jan" = false) as ->.
  { apply andb_false_iff.
    destruct (String.eqb_spec (Builder.dirName configuration) "assistants");
      [|by left].
    destruct (String.eqb_spec id "jan"); [|by right]. naive_solver. }
  unfold Op.try_catch. rewrite (M_bind_run _ _ _ _ _ Hget), Htruthy.
  cbn [negb]. unfold mbind, M_bind, Op.write.
  rewrite Hfs.
  destruct (Fs.rmdirSync (fs w) _) as [f'|e] eqn:Hrm.
  - eexists. split; [reflexivity|]. cbn [fs set_fs].
    by apply rmdirSync_Ok.
  - unfold Fs.rmdirSync in Hrm. by rewrite Hdir in Hrm.
Qed.

End builder.

(** C9. In the assistants registry, [deleteBuilder] answers the id [jan]
    with the message "Cannot delete Jan assistant" and leaves the world,
    and so every file and directory, as it was. For every other id that
    [retrieveBuilder] finds and whose folder exists, the delete proceeds:
    the folder and everything below it is removed, nothing else is, and the
    answer reports the deletion. *)
Theorem deleteBuilder_refuses_jan :
  (∀ E configuration w,
     Builder.dirName configuration = "assistants" →
     Builder.deleteBuilder E configuration "jan" w
     = (Ok (Js.object [Js.Field "message" (JStr "Cannot delete Jan assistant")]),
        w)) ∧
  (∀ E configuration id w data w1,
     ¬ (Builder.dirName configuration = "assistants" ∧ id = "jan") →
     Builder.retrieveBuilder E configuration id w = (Ok data, w1) →
     Js.truthy data = true →
     fs w !! Fs.joinPath
               (Fs.joinPath (janDataFolderPath E) [Builder.dirName configuration])
               [id] = Some Dir →
     ∃ w',
       Builder.deleteBuilder E configuration id w
       = (Ok (Js.object
                [Js.Field "id" (JStr id);
                 Js.Field "object" (JStr (Builder.delete_object configuration));
                 Js.Field "deleted" (JBool true)]), w') ∧
       (∀ q, Fs.joinPath
               (Fs.joinPath (janDataFolderPath E)
                  [Builder.dirName configuration]) [id] `prefix_of` q →
             fs w' !! q = None) ∧
       (∀ q, ¬ Fs.joinPath
                 (Fs.joinPath (janDataFolderPath E)
                    [Builder.dirName configuration]) [id] `prefix_of` q →
             fs w' !! q = fs w !! q)).
Proof.
  split.
  - intros. by apply deleteBuilder_protected.
  - intros. by eapply deleteBuilder_proceeds.
Qed.

Lemma deleteBuilder_refuses_jan_witness :
  Builder.deleteBuilder Sample.E Sample5.assistants "jan" Sample5.w
  = (Ok (Js.object [Js.Field "message" (JStr "Cannot delete Jan assistant")]),
     Sample5.w) ∧
  ∃ w',
    Builder.deleteBuilder Sample.E Sample5.assistants "helper" Sample5.w
    = (Ok (Js.object [Js.Field "id" (JStr "helper");
                      Js.Field "object" (JStr "assistant");
                      Js.Field "deleted" (JBool true)]), w') ∧
    fs w' !! ["jan"; "assistants"; "helper"; "assistant.json"] = None ∧
    fs w' !! ["jan"; "assistants"; "jan"; "assistant.json"]
    = fs Sample5.w !! ["jan"; "assistants"; "jan"; "assistant.json"].
Proof.
  destruct deleteBuilder_refuses_jan as [Hjan Hother].
  split; [by apply Hjan|].
  destruct (Hother Sample.E Sample5.assistants "helper" Sample5.w
              (Js.object [Js.Field "id" (JStr "helper");
                          Js.Field "object" (JStr "assistant")])
              Sample5.w)
    as (w' & Hrun & Hgone & Hkept).
  - intros [_ H]. discriminate H.
  - vm_compute. reflexivity.
  - reflexivity.
  - reflexivity.
  - exists w'. split; [exact Hrun|]. split.
    + apply Hgone. by exists ["assistant.json"].
    + apply Hkept. intros [k Hk]. discriminate Hk.
Defined.

(* ===================================================================== *)
(** * Part III. Further properties of the code                            *)
(* ===================================================================== *)

(** ** The REST helpers: listing, retrieving, deleting *)

Section builder_more.
Context (E : env) (configuration : Builder.RouteConfiguration).

Let directoryPath : list string :=
  Fs.joinPath (janDataFolderPath E) [Builder.dirName configuration].

(** The text of the metadata file of some entry of the directory. *)
Let stored (f : gmap (list string) node) (c : content) : Prop :=
  ∃ d n, f !! Fs.joinPath directoryPath [d; Builder.metadataFileName configuration]
         = Some (File n c).

Lemma readModelMetadata_run p w :
  Builder.readModelMetadata p w
  = match fs w !! p with
    | Some (File _ d) => (Ok (Some d), w)
    | Some Dir => (Throw (FsError "EISDIR"), w)
    | None => (Ok None, w)
    end.
Proof.
  unfold Builder.readModelMetadata, mbind, M_bind, Op.read, Fs.existsSync,
    Fs.readFileSync.
  destruct (fs w !! p) as [[|n d]|] eqn:Hp.
  - rewrite bool_decide_eq_true_2 by eauto. by rewrite Hp.
  - rewrite bool_decide_eq_true_2 by eauto. by rewrite Hp.
  - rewrite bool_decide_eq_false_2; [done|]. by intros [? ?].
Qed.

Lemma readAll_Ok dirs w xs w' :
  Builder.readAll configuration directoryPath dirs w = (Ok xs, w') →
  w' = w ∧ Forall (λ x, ∀ c, x = Some c → stored (fs w) c) xs.
Proof.
  revert xs. induction dirs as [|d r IH]; intros xs; cbn [Builder.readAll].
  - intros [= <- <-]. by split.
  - unfold mbind at 1, M_bind at 1. rewrite readModelMetadata_run.
    destruct (fs w !! _) as [[|n c]|] eqn:Hp; [done|..].
    + intros H. apply M_bind_Ok in H as (ys & w1 & Hr & [= <- <-]).
      destruct (IH _ Hr) as [-> Hall]. split; [done|].
      constructor; [|done]. intros c' [= <-]. by exists d, n.
    + intros H. apply M_bind_Ok in H as (ys & w1 & Hr & [= <- <-]).
      destruct (IH _ Hr) as [-> Hall]. split; [done|].
      by constructor.
Qed.

Lemma parse_or_undefined c w :
  ∃ w1,
    Op.try_catch (Op.lift (Fs.parse c))
      (λ err, _ ← Op.log (console_error_exn err); mret JUndefined) w
    = (Ok (match c with Json v => v | _ => JUndefined end), w1).
Proof. destruct c; eexists; reflexivity. Qed.

Lemma parseAll_run results w :
  ∃ vs w',
    Builder.parseAll results w = (Ok vs, w') ∧
    Forall (λ v, v = JUndefined ∨ Json v ∈ results) vs.
Proof.
  revert w. induction results as [|c r IH]; intros w; cbn [Builder.parseAll].
  - by exists [], w.
  - destruct (parse_or_undefined c w) as (w1 & Hc).
    rewrite (M_bind_run _ _ _ _ _ Hc).
    destruct (IH w1) as (vs & w' & Hr & Hall).
    rewrite (M_bind_run _ _ _ _ _ Hr).
    eexists (_ :: vs), w'. split; [reflexivity|]. constructor.
    + destruct c; try (by left). right. by left.
    + eapply Forall_impl; [done|]. intros x [?|?]; [by left|right; by right].
Qed.

(** Everything in the world but the console. *)
Definition quiet (w : world)
  : gmap (list string) node * list (nat * timer) * nat * list event * Z :=
  (fs w, timers w, next_timer w, emitted w, now w).

Lemma log_keeps_quiet l : keeps quiet (Op.log l).
Proof. by intros w. Qed.

Lemma getBuilder_keeps_quiet : keeps quiet (Builder.getBuilder E configuration).
Proof.
  pose proof log_keeps_quiet.
  assert (∀ p, keeps quiet (Builder.readModelMetadata p)) as Hread
    by (intros; unfold Builder.readModelMetadata; keeps_auto).
  assert (∀ d l, keeps quiet (Builder.readAll configuration d l)) as HreadAll
    by (intros d l; induction l; cbn [Builder.readAll]; keeps_auto).
  assert (∀ l, keeps quiet (Builder.parseAll l)) as Hparse
    by (intros l; induction l; cbn [Builder.parseAll]; keeps_auto).
  unfold Builder.getBuilder. keeps_auto.
Qed.

(** What [getBuilder] returns: the parsed metadata files of the entries. *)
Lemma getBuilder_run w :
  ∃ data w',
    Builder.getBuilder E configuration w = (Ok data, w') ∧
    quiet w' = quiet w ∧
    (Fs.existsSync (fs w) directoryPath = false → data = []) ∧
    Forall (λ v, Js.truthy v = true ∧ stored (fs w) (Json v)) data.
Proof.
  pose proof (getBuilder_keeps_quiet w) as Hquiet.
  unfold Builder.getBuilder in *. fold directoryPath in Hquiet |- *.
  unfold Op.try_catch in *.
  match goal with
  | |- context [match ?m w with _ => _ end] =>
      destruct (m w) as [[data|e] w1] eqn:Hbody
  end.
  2:{ eexists [], _. split; [reflexivity|]. by split_and!. }
  exists data, w1. split; [done|]. split; [done|].
  apply M_bind_Ok in Hbody as (isExist & w2 & [= <- <-] & Hbody).
  destruct (Fs.existsSync (fs w) directoryPath) eqn:Hex; cbn [negb] in Hbody.
  2:{ apply M_bind_Ok in Hbody as ([] & w3 & _ & [= <- <-]). by split. }
  split; [done|].
  apply M_bind_Ok in Hbody as (files & w3 & [= _ <-] & Hbody).
  apply M_bind_Ok in Hbody as (read & w4 & Hread & Hbody).
  apply readAll_Ok in Hread as [-> Hread].
  apply M_bind_Ok in Hbody as (parsed & w5 & Hparsed & [= <- <-]).
  destruct (parseAll_run (filter (λ d, Builder.nonempty d = true) (omap id read)) w)
    as (vs & w6 & Hrun & Hall).
  rewrite Hrun in Hparsed. injection Hparsed as <- <-.
  apply Forall_forall. intros v [Hv Hin]%list_elem_of_filter. split; [done|].
  rewrite Forall_forall in Hall. destruct (Hall v Hin) as [->|Hjson]; [done|].
  apply list_elem_of_filter in Hjson as [_ Hjson].
  apply list_elem_of_omap in Hjson as (x & Hx & Hid). cbn in Hid. subst x.
  rewrite Forall_forall in Hread. by apply (Hread _ Hx).
Qed.

End builder_more.

Lemma filterById_truthy (id : string) (data : list jsval) :
  Forall (λ v, Js.truthy v = true) data →
  ∃ matching,
    Builder.filterById id data = Ok matching ∧
    Forall (λ d, d ∈ data ∧ Js.get d "id" = Ok (JStr id)) matching.
Proof.
  induction 1 as [|d data Hd _ (matching & Hm & Hall)]; cbn [Builder.filterById].
  - by exists [].
  - destruct (get_truthy d "id" Hd) as [d_id Hid]. rewrite Hid, Hm.
    cbn [mbind res_bind].
    assert (Forall (λ d0, d0 ∈ d :: data ∧ Js.get d0 "id" = Ok (JStr id)) matching)
      as Hall'.
    { eapply Forall_impl; [done|]. intros x [? ?]. split; [by right|done]. }
    destruct (Js.strict_eq_str d_id id) eqn:Heq; eexists; (split; [done|]);
      [|done].
    constructor; [|done]. split; [by left|]. rewrite Hid.
    destruct d_id; try done. cbn in Heq. apply String.eqb_eq in Heq. by subst.
Qed.

(** X1. [getBuilder] never throws and never changes a file: it answers
    with a list, the empty one when the directory of the registry does not
    exist, and every element of the list is a truthy value that is the
    parsed metadata file of some entry of the directory. *)
Theorem getBuilder_lists_parsed_metadata (E : env)
    (configuration : Builder.RouteConfiguration) (w : world) :
  ∃ data w',
    Builder.getBuilder E configuration w = (Ok data, w') ∧
    fs w' = fs w ∧
    (Fs.existsSync (fs w)
       (Fs.joinPath (janDataFolderPath E) [Builder.dirName configuration])
     = false → data = []) ∧
    Forall (λ v, Js.truthy v = true ∧
                 ∃ d n, fs w !! Fs.joinPath
                                  (Fs.joinPath (janDataFolderPath E)
                                     [Builder.dirName configuration])
                                  [d; Builder.metadataFileName configuration]
                        = Some (File n (Json v))) data.
Proof.
  destruct (getBuilder_run E configuration w)
    as (data & w' & Hrun & Hquiet & Hnone & Hall).
  exists data, w'. split_and!; try done. by injection Hquiet.
Qed.

Lemma retrieveBuilder_run (E : env) (configuration : Builder.RouteConfiguration)
    (id : string) (w : world) :
  ∃ r w',
    Builder.retrieveBuilder E configuration id w = (Ok r, w') ∧
    quiet w' = quiet w ∧
    (r = JUndefined ∨
     (Js.truthy r = true ∧ Js.get r "id" = Ok (JStr id) ∧
      ∃ d n, fs w !! Fs.joinPath
                       (Fs.joinPath (janDataFolderPath E)
                          [Builder.dirName configuration])
                       [d; Builder.metadataFileName configuration]
             = Some (File n (Json r)))).
Proof.
  destruct (getBuilder_run E configuration w)
    as (data & w' & Hrun & Hquiet & _ & Hall).
  destruct (filterById_truthy id data) as (matching & Hm & Hmatch).
  { eapply Forall_impl; [done|]. by intros v [? _]. }
  unfold Builder.retrieveBuilder. rewrite (M_bind_run _ _ _ _ _ Hrun).
  unfold mbind, M_bind, Op.lift. rewrite Hm.
  destruct matching as [|d matching].
  - eexists _, _. split; [reflexivity|]. split; [done|by left].
  - change (default JUndefined (head (d :: matching))) with d.
    apply Forall_cons in Hmatch as [[Hin Hid] _].
    rewrite Forall_forall in Hall. destruct (Hall d Hin) as [Htruthy Hstored].
    rewrite Htruthy. cbn [negb].
    eexists _, _. split; [reflexivity|]. split; [done|by right].
Qed.

(** X2. [retrieveBuilder] never throws and never changes a file; its
    answer is [undefined], or the parsed metadata file of an entry of the
    registry whose [id] is the string asked for. *)
Theorem retrieveBuilder_finds_id (E : env)
    (configuration : Builder.RouteConfiguration) (id : string) (w : world) :
  ∃ r w',
    Builder.retrieveBuilder E configuration id w = (Ok r, w') ∧
    fs w' = fs w ∧
    (r = JUndefined ∨
     (Js.get r "id" = Ok (JStr id) ∧
      ∃ d n, fs w !! Fs.joinPath
                       (Fs.joinPath (janDataFolderPath E)
                          [Builder.dirName configuration])
                       [d; Builder.metadataFileName configuration]
             = Some (File n (Json r)))).
Proof.
  destruct (retrieveBuilder_run E configuration id w)
    as (r & w' & Hrun & Hquiet & Hr).
  exists r, w'. split_and!; [done|by injection Hquiet|].
  destruct Hr as [->|(_ & Hid & Hstored)]; [by left|by right].
Qed.

(** X3. [deleteBuilder] never throws. Whatever it is asked, it leaves
    every path outside of the folder [<registry>/<id>] as it was; and when
    [retrieveBuilder] finds no entry with the id, no file is changed at all
    and, unless the id is the protected one, the answer is "Not found". *)
Theorem deleteBuilder_stays_in_folder (E : env)
    (configuration : Builder.RouteConfiguration) (id : string) (w : world) :
  ∃ r w',
    Builder.deleteBuilder E configuration id w = (Ok r, w') ∧
    (∀ q, ¬ Fs.joinPath
              (Fs.joinPath (janDataFolderPath E) [Builder.dirName configuration])
              [id] `prefix_of` q →
          fs w' !! q = fs w !! q) ∧
    ((Builder.retrieveBuilder E configuration id w).1 = Ok JUndefined →
     fs w' = fs w ∧
     (r = Js.object [Js.Field "message" (JStr "Cannot delete Jan assistant")] ∨
      r = Js.object [Js.Field "message" (JStr "Not found")])).
Proof.
  unfold Builder.deleteBuilder.
  destruct (String.eqb (Builder.dirName configuration) "assistants"
            && String.eqb id "jan").
  { eexists _, w. split; [reflexivity|]. split; [done|]. intros _. by split; [|left]. }
  destruct (retrieveBuilder_run E configuration id w)
    as (data & w1 & Hget & Hquiet & Hdata).
  assert (fs w1 = fs w) as Hfs by (by injection Hquiet).
  unfold Op.try_catch. rewrite (M_bind_run _ _ _ _ _ Hget). rewrite Hget.
  cbn [fst].
  destruct (Js.truthy data) eqn:Htruthy; cbn [negb].
  - unfold mbind, M_bind, Op.write, Op.log. rewrite Hfs.
    destruct (Fs.rmdirSync (fs w) _) as [f'|e] eqn:Hrm.
    + eexists _, _. split; [reflexivity|]. cbn [fs set_fs]. split.
      * by apply rmdirSync_Ok.
      * intros [= ->]. done.
    + eexists _, _. split; [reflexivity|]. cbn [fs]. split; [by rewrite Hfs|].
      intros [= ->]. done.
  - eexists _, _. split; [reflexivity|]. split; [by rewrite Hfs|].
    intros _. split; [done|by right].
Qed.

(** ** The metadata codec: template, stop token, unreadable header *)

Section digits.

Definition digit (c : ascii) : bool :=
  existsb (Ascii.eqb c)
    ["0"; "1"; "2"; "3"; "4"; "5"; "6"; "7"; "8"; "9"]%char.

Fixpoint digits (s : string) : bool :=
  match s with
  | EmptyString => true
  | String c r => digit c && digits r
  end.

Lemma digits_pretty_go (x : N) s : digits s = true → digits (pretty_N_go x s) = true.
Proof.
  revert s. induction (N.lt_wf_0 x) as [x _ IH]; intros s Hs.
  destruct (decide (x = 0)%N) as [->|Hx]; [by rewrite pretty_N_go_0|].
  rewrite pretty_N_go_step by lia. apply IH.
  - apply N.div_lt; lia.
  - cbn [digits]. rewrite Hs, andb_true_r.
    unfold pretty_N_char. by repeat case_match.
Qed.

Lemma digits_pretty (i : nat) : digits (pretty (Z.of_nat i)) = true.
Proof.
  destruct i as [|i]; [done|].
  change (Z.of_nat (S i)) with (Z.pos (Pos.of_succ_nat i)).
  unfold pretty, pretty_Z, pretty, pretty_positive, pretty, pretty_N.
  case_decide; [done|]. by apply digits_pretty_go.
Qed.

(** Indexing by the numeral of an index is indexing. *)
Lemma index_prop_lookup {A} (l : list A) (i j : nat) :
  Js.index_prop (pretty (Z.of_nat (i + j))) i l = l !! j.
Proof.
  revert i j. induction l as [|x l IH]; intros i j; cbn [Js.index_prop].
  - by destruct j.
  - destruct j as [|j].
    + by rewrite Nat.add_0_r, String.eqb_refl.
    + rewrite eqb_false_ne.
      * replace (i + S j)%nat with (S i + j)%nat by lia. by rewrite IH.
      * intros H. apply (inj pretty) in H. lia.
Qed.

Lemma get_array_index (xs : list jsval) (j : nat) :
  Js.get (JArr xs) (pretty (Z.of_nat j)) = Ok (default JUndefined (xs !! j)).
Proof.
  cbn [Js.get]. rewrite eqb_false_ne.
  - by rewrite <- (index_prop_lookup xs 0 j).
  - intros H. pose proof (digits_pretty j) as Hd. rewrite H in Hd. done.
Qed.

Lemma elem_array (xs : list jsval) (n : Z) :
  0 ≤ n →
  Js.elem (JArr xs) (JNum n) = Ok (default JUndefined (xs !! Z.to_nat n)).
Proof.
  intros Hn. unfold Js.elem. cbn [Js.to_string].
  rewrite <- (Z2Nat.id n Hn) at 1. apply get_array_index.
Qed.

End digits.

(** X4. When the header declares a positive end-of-sequence id and holds
    a token table, the stop list of [retrieveGGUFMetadata] is the one token
    at that index of the table, and the empty string when the table has no
    such index. *)
Theorem retrieveGGUFMetadata_stop_is_indexed_token (E : env)
    (ps : list (string * jsval)) (xs : list jsval) (n : Z) (r : jsval) :
  Js.lookup_prop "tokenizer.ggml.eos_token_id" ps = JNum n →
  0 < n →
  Js.lookup_prop "tokenizer.ggml.tokens" ps = JArr xs →
  retrieveGGUFMetadata E (JObj ps) = Ok r →
  Spec.get_path r ["parameters"; "stop"]
  = Ok (JArr [match xs !! Z.to_nat n with
              | Some t => Js.coalesce t (JStr "")
              | None => JStr ""
              end]).
Proof.
  intros Heos Hn Htok Hr.
  destruct (retrieveGGUFMetadata_stop_token E ps r) as (tok & Helem & ->);
    [|done|].
  { rewrite Heos. cbn. apply negb_true_iff, Z.eqb_neq. lia. }
  rewrite Heos, Htok, elem_array in Helem by lia. injection Helem as <-.
  by destruct (xs !! Z.to_nat n).
Qed.

Lemma retrieveGGUFMetadata_stop_is_indexed_token_witness :
  ∃ r, retrieveGGUFMetadata Sample.E Sample.header = Ok r ∧
       Spec.get_path r ["parameters"; "stop"] = Ok (JArr [JStr "</eos>"]).
Proof.
  eexists. split; [reflexivity|].
  apply (retrieveGGUFMetadata_stop_is_indexed_token Sample.E
           [("general.architecture", JStr "qwen2");
            ("qwen2.block_count", JNum 32);
            ("tokenizer.ggml.eos_token_id", JNum 2);
            ("tokenizer.ggml.tokens",
             JArr [JStr "<s>"; JStr "<pad>"; JStr "</eos>"])]
           [JStr "<s>"; JStr "<pad>"; JStr "</eos>"] 2);
    [reflexivity|lia|reflexivity|reflexivity].
Defined.

(** X5. An end-of-sequence id of 0 counts as no id: like a header without
    id, it gives the stop list of the default descriptor, whatever the
    token table holds at index 0. *)
Theorem retrieveGGUFMetadata_eos_zero_is_absent (E : env)
    (ps : list (string * jsval)) (r : jsval) :
  Js.lookup_prop "tokenizer.ggml.eos_token_id" ps = JNum 0 ∨
  Js.nullish (Js.lookup_prop "tokenizer.ggml.eos_token_id" ps) = true →
  retrieveGGUFMetadata E (JObj ps) = Ok r →
  Spec.get_path r ["parameters"; "stop"]
  = Spec.get_path (DEFAULT_MODEL E) ["parameters"; "stop"].
Proof.
  intros Heos. apply retrieveGGUFMetadata_stop_default.
  destruct Heos as [->|Hnull]; [done|].
  by destruct (Js.lookup_prop "tokenizer.ggml.eos_token_id" ps).
Qed.

Lemma retrieveGGUFMetadata_eos_zero_is_absent_witness :
  ∃ r, retrieveGGUFMetadata Sample.E (JObj Sample6.header_eos_0) = Ok r ∧
       Spec.get_path r ["parameters"; "stop"] = Ok (JArr [JStr "</s>"]) ∧
       Js.elem (JArr [JStr "</s>"; JStr "<s>"]) (JNum 0) = Ok (JStr "</s>").
Proof.
  eexists. split; [reflexivity|]. split; [|reflexivity].
  apply (retrieveGGUFMetadata_eos_zero_is_absent Sample.E Sample6.header_eos_0);
    [by left|reflexivity].
Defined.

(** X6. The prompt template of the result is the rendered template when
    the renderer returns one, and the default descriptor's template when
    the renderer fails or returns nothing: a failure of the renderer is
    never the failure of [retrieveGGUFMetadata]. *)
Theorem retrieveGGUFMetadata_template_fallback (E : env) (metadata r : jsval) :
  retrieveGGUFMetadata E metadata = Ok r →
  Spec.get_path r ["settings"; "prompt_template"]
  = match renderJinjaTemplate E metadata with
    | Ok t =>
        if Js.nullish t
        then Spec.get_path (DEFAULT_MODEL E) ["settings"; "prompt_template"]
        else Ok t
    | Throw _ => Spec.get_path (DEFAULT_MODEL E) ["settings"; "prompt_template"]
    end.
Proof.
  unfold retrieveGGUFMetadata. intros H.
  apply res_bind_Ok in H as (eos_id & _ & H).
  apply res_bind_Ok in H as (architecture & _ & H).
  apply res_bind_Ok in H as (pt & Hpt & H).
  repeat (apply res_bind_Ok in H as (? & _ & H)).
  injection H as <-. rewrite (get_path_2 (DEFAULT_MODEL E)).
  unfold catch_undefined in Hpt.
  destruct (renderJinjaTemplate E metadata) as [t|e].
  - destruct (Js.nullish t); rewrite Hpt; reflexivity.
  - cbn [Js.nullish] in Hpt. rewrite Hpt. reflexivity.
Qed.

Lemma retrieveGGUFMetadata_template_fallback_witness :
  (∃ r, retrieveGGUFMetadata Sample.E Sample.header = Ok r ∧
        Spec.get_path r ["settings"; "prompt_template"] = Ok (JStr "{prompt}")) ∧
  (∃ r, retrieveGGUFMetadata Sample6.E_template Sample.header = Ok r ∧
        Spec.get_path r ["settings"; "prompt_template"]
        = Ok (JStr "<|user|>{prompt}")).
Proof.
  split; eexists; (split; [reflexivity|]).
  - apply (retrieveGGUFMetadata_template_fallback Sample.E Sample.header).
    reflexivity.
  - apply (retrieveGGUFMetadata_template_fallback Sample6.E_template
             Sample.header).
    reflexivity.
Defined.

Section unreadable_header.
Context (E : env) (dirName : string) (w : world).

Let dir : list string := Fs.joinPath (JanModelExtension.homeDir E) [dirName].

Lemma first_binary_functional file n d file' n' d' :
  Spec.first_binary (fs w) dir file n d →
  Spec.first_binary (fs w) dir file' n' d' →
  file' = file ∧ n' = n ∧ d' = d.
Proof.
  intros H [Hbin' Hmin']. apply (first_binary_unique E dirName w); [done..|].
  destruct H as [Hbin _]. by apply (Hmin' file n d).
Qed.

Lemma generateModelMetadata_unreadable file n d :
  fs w !! dir = Some Dir →
  (∀ n, is_Some (fs w !! (dir ++ [n])) → Spec.plain n) →
  Spec.first_binary (fs w) dir file n d →
  Js.nullish (Spec.header_of d) = true →
  JanModelExtension.generateModelMetadata E dirName w = (Throw TypeError, w).
Proof.
  intros Hdir Hplain Hfirst Hnull.
  destruct (findBinary_sorted_listing E dirName w Hplain)
    as [[_ Hnone]|(file' & n' & d' & Hfind & Hfirst')].
  { destruct Hfirst as [Hbin _]. by destruct (Hnone file n d). }
  fold dir in Hfind, Hfirst'.
  destruct (first_binary_functional _ _ _ _ _ _ Hfirst Hfirst') as (-> & -> & ->).
  destruct Hfirst as [[Hfile _] _].
  unfold JanModelExtension.generateModelMetadata.
  unfold mbind at 1, M_bind at 1, Op.read at 1, Fs.readdirSync.
  fold dir. rewrite Hdir.
  unfold mbind at 1, M_bind at 1. rewrite Hfind.
  unfold mbind at 1, M_bind at 1.
  rewrite joinPath_binary by (apply Hplain; by eexists). fold dir.
  rewrite (try_readGguf w _ n d) by done.
  unfold mbind at 1, M_bind at 1, Op.lift at 1.
  by destruct (Spec.header_of d).
Qed.

End unreadable_header.

(** X7. When the header of the binary that synthesis picks cannot be read
    (the file is not a GGUF file, or its header is [null]), the failure of
    the reader is swallowed but [retrieveGGUFMetadata] then receives
    [undefined]: [generateModelMetadata] throws a TypeError, and no
    descriptor is written. *)
Theorem generateModelMetadata_throws_on_unreadable_header (E : env)
    (dirName : string) (w : world) (file : string) (n : Z) (d : content) :
  let dir := Fs.joinPath (JanModelExtension.homeDir E) [dirName] in
  fs w !! dir = Some Dir →
  (∀ n, is_Some (fs w !! (dir ++ [n])) → Spec.plain n) →
  Spec.first_binary (fs w) dir file n d →
  Js.nullish (Spec.header_of d) = true →
  JanModelExtension.generateModelMetadata E dirName w = (Throw TypeError, w).
Proof. intros dir. apply generateModelMetadata_unreadable. Qed.

Lemma generateModelMetadata_throws_on_unreadable_header_witness :
  JanModelExtension.generateModelMetadata Sample.E "broken" Sample6.w
  = (Throw TypeError, Sample6.w).
Proof.
  apply (generateModelMetadata_throws_on_unreadable_header Sample.E "broken"
           Sample6.w "x.gguf" 5 Opaque).
  - reflexivity.
  - intros n [x Hx]. apply elem_of_list_to_map_2 in Hx.
    change (Fs.joinPath (JanModelExtension.homeDir Sample.E) ["broken"])
      with ["jan"; "models"; "broken"] in Hx.
    cbn [app] in Hx.
    repeat (apply elem_of_cons in Hx as [Hx|Hx];
            [simplify_eq; try by split_and!|]).
    by apply elem_of_nil in Hx.
  - split; [by split|]. intros file' n' d' [Hf _].
    apply elem_of_list_to_map_2 in Hf.
    change (Fs.joinPath (JanModelExtension.homeDir Sample.E) ["broken"])
      with ["jan"; "models"; "broken"] in Hf.
    cbn [app] in Hf.
    repeat (apply elem_of_cons in Hf as [Hf|Hf];
            [simplify_eq; try done|]).
    by apply elem_of_nil in Hf.
  - reflexivity.
Defined.

(** ** [updateModelInfo]: top-level fields, and what it leaves alone *)

Lemma not_nested (k : string) :
  k ≠ "parameters" → k ≠ "settings" → k ≠ "metadata" → k ∉ Spec.nested.
Proof.
  intros. unfold Spec.nested. rewrite !not_elem_of_cons.
  split_and!; [done..|apply not_elem_of_nil].
Qed.

(** X8. Besides the three nested objects and the two transient fields, a
    field of the updated descriptor is the field of the update when the
    update has it, and the stored field otherwise; the returned descriptor
    has [file_path] set to [undefined]. *)
Theorem updateModelInfo_top_level_fields (E : env)
    (ps mps : list (string * jsval)) (w : world) (s : string) (n : Z) :
  Js.nullish (Js.lookup_prop "id" ps) = false →
  Js.lookup_prop "file_path" ps = JStr s →
  fs w !! JanModelExtension.resolve E s = Some (File n (Json (JObj mps))) →
  NoDup (ps.*1) → NoDup (mps.*1) →
  ∃ updated w',
    JanModelExtension.updateModelInfo E (JObj ps) w = (Ok (JObj updated), w') ∧
    (∀ k, k ∉ Spec.nested → k ≠ "file_path" → k ≠ "file_name" →
          Js.lookup_prop k updated
          = if Js.has_prop k ps then Js.lookup_prop k ps
            else Js.lookup_prop k mps) ∧
    Js.lookup_prop "id" updated = Js.lookup_prop "id" ps ∧
    Js.lookup_prop "file_path" updated = JUndefined.
Proof.
  intros Hid Hfp Hfile Hps Hmps.
  eexists _, _. split; [by apply (updateModelInfo_Ok E ps mps w s n)|].
  cbn [fold_left Js.add_member Js.own_props].
  assert (∀ k, k ∉ Spec.nested → k ≠ "file_path" → k ≠ "file_name" →
            Js.lookup_prop k
              (Js.set_prop "file_name" JUndefined
                 (Js.set_prop "file_path" JUndefined
                    (Js.set_prop "metadata"
                       (Js.object [Js.Spread (Js.lookup_prop "metadata" mps);
                                   Js.Spread (Js.lookup_prop "metadata" ps)])
                       (Js.set_prop "settings"
                          (Js.object [Js.Spread (Js.lookup_prop "settings" mps);
                                      Js.Spread (Js.lookup_prop "settings" ps)])
                          (Js.set_prop "parameters"
                             (Js.object
                                [Js.Spread (Js.lookup_prop "parameters" mps);
                                 Js.Spread (Js.lookup_prop "parameters" ps)])
                             (fold_left (λ acc p, Js.set_prop p.1 p.2 acc) ps
                                (fold_left (λ acc p, Js.set_prop p.1 p.2 acc)
                                   mps [])))))))
            = if Js.has_prop k ps then Js.lookup_prop k ps
              else Js.lookup_prop k mps) as Htop.
  { intros k Hk Hp Hn. unfold Spec.nested in Hk.
    rewrite !not_elem_of_cons in Hk. destruct Hk as (H1 & H2 & H3 & _).
    rewrite !lookup_set_prop_ne by done.
    rewrite !lookup_spread by done.
    destruct (Js.has_prop k ps); [done|].
    destruct (Js.has_prop k mps) eqn:Hm; [done|].
    symmetry. by apply has_prop_lookup. }
  split; [exact Htop|]. split.
  - rewrite Htop; [|by apply not_nested|done..].
    destruct (Js.has_prop "id" ps) eqn:Hhas; [done|].
    apply has_prop_lookup in Hhas. by rewrite Hhas in Hid.
  - rewrite !lookup_set_prop_ne by done. apply lookup_set_prop_eq.
Qed.

Lemma updateModelInfo_top_level_fields_witness :
  ∃ updated w',
    JanModelExtension.updateModelInfo Sample.E (JObj Sample2.update_props)
      Sample2.w = (Ok (JObj updated), w') ∧
    Js.lookup_prop "name" updated = JStr "m1" ∧
    Js.lookup_prop "file_path" updated = JUndefined.
Proof.
  destruct (updateModelInfo_top_level_fields Sample.E
              Sample2.update_props Sample2.stored_props Sample2.w
              "file://models/m1/model.json" 256)
    as (updated & w' & Hrun & Htop & _ & Hpath);
    [reflexivity|reflexivity|reflexivity|
     apply (bool_decide_unpack _); reflexivity|
     apply (bool_decide_unpack _); reflexivity|].
  exists updated, w'. split; [exact Hrun|]. split; [|exact Hpath].
  rewrite Htop; [reflexivity|by apply not_nested|done|done].
Defined.


(** ** Deleting a model: [deleteModel] *)

Lemma res_bind_Ok_l {A B} (a : A) (f : A → res B) : Ok a ≫= f = f a.
Proof. reflexivity. Qed.

Lemma rm_lookup (f : gmap (list string) node) (p : list string) :
  (∀ q, p `prefix_of` q → FsMore.rm f p !! q = None) ∧
  (∀ q, ¬ p `prefix_of` q → FsMore.rm f p !! q = f !! q).
Proof.
  unfold FsMore.rm. split; intros q Hq.
  - apply map_lookup_filter_None. right. intros x _. cbn. tauto.
  - apply option_eq. intros x. rewrite map_lookup_filter_Some. cbn. tauto.
Qed.

Section unlinkAll.
Context (dir : list string).

(** The entries that [unlinkAll] removes: the files of the listing other
    than the descriptor. *)
Let removed (files : list string) (f : gmap (list string) node)
    (q : list string) : Prop :=
  ∃ n sz d, n ∈ files ∧ n ≠ JanModelExtension._modelMetadataFileName ∧
            q = dir ++ [n] ∧ f !! q = Some (File sz d).

Lemma unlinkAll_run (files : list string) :
  ∀ w,
    (∀ n, n ∈ files → Spec.plain n) →
    ∃ w',
      Extension.unlinkAll dir files w = (Ok tt, w') ∧
      timers w' = timers w ∧ emitted w' = emitted w ∧ console w' = console w ∧
      (∀ q, removed files (fs w) q → fs w' !! q = None) ∧
      (∀ q, ¬ removed files (fs w) q → fs w' !! q = fs w !! q).
Proof.
  induction files as [|n r IH]; intros w Hplain.
  { exists w. split_and!; try done.
    intros q (n & sz & d & Hn & _). by apply elem_of_nil in Hn. }
  cbn [Extension.unlinkAll].
  (* the first entry *)
  assert (∃ w1,
            (if negb (String.eqb n JanModelExtension._modelMetadataFileName)
             then Op.try_catch
                    (Op.write (λ f, FsMore.unlinkSync f (Fs.joinPath dir [n])))
                    (λ _, mret tt)
             else mret tt) w = (Ok tt, w1) ∧
            timers w1 = timers w ∧ emitted w1 = emitted w ∧
            console w1 = console w ∧
            (∀ q, removed [n] (fs w) q → fs w1 !! q = None) ∧
            (∀ q, ¬ removed [n] (fs w) q → fs w1 !! q = fs w !! q))
    as (w1 & Hstep & Ht & He & Hc & Hgone & Hkept).
  { rewrite joinPath_plain by (apply Hplain; by left).
    destruct (String.eqb_spec n JanModelExtension._modelMetadataFileName)
      as [Heq|Hne]; cbn [negb].
    { exists w. split_and!; try done.
      intros q (n' & sz & d & Hn' & Hne & _).
      apply list_elem_of_singleton in Hn'. by subst. }
    unfold Op.try_catch, Op.write, FsMore.unlinkSync.
    destruct (fs w !! (dir ++ [n])) as [[|sz d]|] eqn:Hn.
    - exists w. split_and!; try done.
      intros q (n' & sz & d & Hn' & _ & -> & Hq).
      apply list_elem_of_singleton in Hn'. subst. congruence.
    - eexists. split; [reflexivity|]. cbn [fs timers emitted console set_fs].
      split_and!; try done.
      + intros q (n' & sz' & d' & Hn' & _ & -> & Hq).
        apply list_elem_of_singleton in Hn'. subst. apply lookup_delete_eq.
      + intros q Hq. apply lookup_delete_ne. intros <-. apply Hq.
        exists n, sz, d. split_and!; try done. by apply list_elem_of_singleton.
    - exists w. split_and!; try done.
      intros q (n' & sz & d & Hn' & _ & -> & Hq).
      apply list_elem_of_singleton in Hn'. subst. congruence. }
  rewrite (M_bind_run _ _ _ _ _ Hstep).
  destruct (IH w1) as (w' & Hrun & Ht' & He' & Hc' & Hgone' & Hkept').
  { intros n' Hn'. apply Hplain. by right. }
  exists w'. split; [done|]. split_and!; try congruence.
  - intros q (n' & sz & d & Hn' & Hne & -> & Hq).
    destruct (decide (n' = n)) as [->|Hnn].
    + assert (fs w1 !! (dir ++ [n]) = None) as H1.
      { apply Hgone. exists n, sz, d. split_and!; try done. by left. }
      rewrite Hkept'; [done|].
      intros (? & ? & ? & _ & _ & _ & Hf). congruence.
    + apply elem_of_cons in Hn' as [?|Hn']; [done|].
      apply Hgone'. exists n', sz, d. split_and!; try done.
      rewrite Hkept; [done|].
      intros (n0 & ? & ? & Hn0 & _ & Heq & _).
      apply list_elem_of_singleton in Hn0. subst n0.
      apply app_inj_tail in Heq as [_ ?]. done.
  - intros q Hq.
    assert (fs w1 !! q = fs w !! q) as H1.
    { apply Hkept. intros (n0 & sz & d & Hn0 & Hne & -> & Hf).
      apply list_elem_of_singleton in Hn0. subst n0.
      apply Hq. exists n, sz, d. split_and!; try done. by left. }
    rewrite <- H1. apply Hkept'.
    intros (n0 & sz & d & Hn0 & Hne & -> & Hf).
    apply Hq. exists n0, sz, d. split_and!; try done; [by right|congruence].
Qed.

End unlinkAll.

Section deleteModel.
Context (E : env) (model : jsval) (s : string) (w : world).
Hypothesis Hpath : Js.get model "file_path" = Ok (JStr s).

Let dir : list string := Fs.dirName (JanModelExtension.resolve E s).
Let descriptor : list string :=
  dir ++ [JanModelExtension._modelMetadataFileName].

(** The two branches after the descriptor has been read. *)
Let branch (author : jsval) : M unit :=
  if Js.strict_eq_str author "user"
  then Op.write (λ f, Ok (FsMore.rm f dir))
  else files ← Op.read (λ f, Fs.readdirSync f dir);
       Extension.unlinkAll dir files.

(** The lower-cased author recorded in the descriptor. *)
Let recorded : res jsval :=
  text ← Fs.readFileSync (fs w) descriptor;
  modelInfo ← Fs.parse text;
  Extension.lowerCaseAuthor modelInfo.

Lemma deleteModel_descriptor :
  Extension.deleteModel E model w
  = match recorded with
    | Ok author =>
        Op.try_catch (branch author) (λ err, Op.log (console_error_exn err)) w
    | Throw e => Op.log (console_error_exn e) w
    end.
Proof.
  unfold Extension.deleteModel, Op.try_catch.
  unfold mbind at 1, M_bind at 1, Op.lift at 1. rewrite Hpath.
  unfold mbind at 1, M_bind at 1, Op.lift at 1.
  cbn [JanModelExtension.path_of]. cbv zeta. fold dir.
  rewrite (joinPath_plain _ _ plain_model_json). fold descriptor.
  unfold mbind at 1, M_bind at 1, Op.read at 1. unfold recorded.
  destruct (Fs.readFileSync (fs w) descriptor) as [text|e]; [|done].
  unfold mbind at 1, M_bind at 1, Op.lift at 1.
  rewrite res_bind_Ok_l.
  destruct (Fs.parse text) as [modelInfo|e]; [|done].
  unfold mbind at 1, M_bind at 1, Op.lift at 1.
  rewrite res_bind_Ok_l.
  destruct (Extension.lowerCaseAuthor modelInfo) as [author|e]; [|done].
  reflexivity.
Qed.

Lemma lowerCaseAuthor_string (modelInfo metadata : jsval) (a : string) :
  Js.get modelInfo "metadata" = Ok metadata →
  Js.get metadata "author" = Ok (JStr a) →
  Extension.lowerCaseAuthor modelInfo = Ok (JStr (StrMore.toLowerCase a)).
Proof.
  intros Hmd Ha. unfold Extension.lowerCaseAuthor. rewrite Hmd, res_bind_Ok_l.
  destruct metadata; try discriminate Ha; cbn [Js.nullish]; by rewrite Ha.
Qed.

(** Removing the files of the folder, one by one. *)
Lemma branch_catalog (author : jsval) :
  Js.strict_eq_str author "user" = false →
  fs w !! dir = Some Dir →
  (∀ n, is_Some (fs w !! (dir ++ [n])) → Spec.plain n) →
  ∃ w',
    branch author w = (Ok tt, w') ∧
    timers w' = timers w ∧ emitted w' = emitted w ∧ console w' = console w ∧
    (∀ name sz d,
       name ≠ JanModelExtension._modelMetadataFileName →
       fs w !! (dir ++ [name]) = Some (File sz d) →
       fs w' !! (dir ++ [name]) = None) ∧
    (∀ q,
       ¬ (∃ name sz d,
            name ≠ JanModelExtension._modelMetadataFileName ∧
            q = dir ++ [name] ∧ fs w !! q = Some (File sz d)) →
       fs w' !! q = fs w !! q).
Proof.
  intros Hauthor Hdir Hplain. unfold branch. rewrite Hauthor.
  unfold mbind at 1, M_bind at 1, Op.read at 1, Fs.readdirSync. rewrite Hdir.
  destruct (unlinkAll_run dir (Fs.entries (fs w) dir) w)
    as (w' & Hrun & Ht & He & Hc & Hgone & Hkept).
  { intros n Hn. apply Hplain. by apply elem_of_entries. }
  exists w'. split_and!; try done.
  - intros name sz d Hname Hfile. apply Hgone.
    exists name, sz, d. split_and!; try done.
    apply elem_of_entries. by eexists.
  - intros q Hq. apply Hkept. intros (name & sz & d & _ & Hname & -> & Hfile).
    apply Hq. by exists name, sz, d.
Qed.


End deleteModel.

(** X10. A model whose descriptor records the author [user], in any
    capitalisation, is deleted with its whole folder: [deleteModel] returns
    without an error and without a console line, every path at or below the
    folder of [model.file_path] is gone, and every other path is as it
    was. *)
Theorem deleteModel_removes_user_model_folder (E : env) (model : jsval)
    (s : string) (w : world) (n : Z) (modelInfo metadata : jsval)
    (a : string) :
  let dir := Fs.dirName (JanModelExtension.resolve E s) in
  Js.get model "file_path" = Ok (JStr s) →
  fs w !! (dir ++ [JanModelExtension._modelMetadataFileName])
    = Some (File n (Json modelInfo)) →
  Js.get modelInfo "metadata" = Ok metadata →
  Js.get metadata "author" = Ok (JStr a) →
  StrMore.toLowerCase a = "user" →
  ∃ w',
    Extension.deleteModel E model w = (Ok tt, w') ∧
    console w' = console w ∧ timers w' = timers w ∧ emitted w' = emitted w ∧
    (∀ q, dir `prefix_of` q → fs w' !! q = None) ∧
    (∀ q, ¬ dir `prefix_of` q → fs w' !! q = fs w !! q).
Proof.
  intros dir Hpath Hfile Hmd Ha Huser.
  rewrite (deleteModel_descriptor E model s w Hpath). fold dir.
  unfold Fs.readFileSync. rewrite Hfile, res_bind_Ok_l.
  cbn [Fs.parse]. rewrite res_bind_Ok_l.
  rewrite (lowerCaseAuthor_string _ _ _ Hmd Ha), Huser.
  eexists. split; [reflexivity|]. cbn [fs console timers emitted set_fs].
  split_and!; try done; intros q Hq; by apply rm_lookup.
Qed.

Lemma deleteModel_removes_user_model_folder_witness :
  ∃ w',
    Extension.deleteModel Sample.E Sample8.model Sample8.w = (Ok tt, w') ∧
    console w' = console Sample8.w ∧ timers w' = timers Sample8.w ∧
    emitted w' = emitted Sample8.w ∧
    (∀ q, ["jan"; "models"; "mine"] `prefix_of` q → fs w' !! q = None) ∧
    (∀ q, ¬ ["jan"; "models"; "mine"] `prefix_of` q →
          fs w' !! q = fs Sample8.w !! q).
Proof.
  apply (deleteModel_removes_user_model_folder Sample.E Sample8.model
           "file://models/mine/model.json" Sample8.w 64 Sample8.imported
           (Js.object [Js.Field "author" (JStr "USER")]) "USER");
    reflexivity.
Defined.

(** X11. A model whose descriptor records another author (or none) keeps
    its folder: when the folder is a directory whose entries have proper
    names, [deleteModel] returns without an error and without a console
    line, every file directly in the folder other than [model.json] is
    gone, and everything else (the descriptor, the subfolders and what they
    hold, every path outside the folder) is as it was. *)
Theorem deleteModel_keeps_catalog_descriptor (E : env) (model : jsval)
    (s : string) (w : world) (n : Z) (modelInfo author : jsval) :
  let dir := Fs.dirName (JanModelExtension.resolve E s) in
  Js.get model "file_path" = Ok (JStr s) →
  fs w !! (dir ++ [JanModelExtension._modelMetadataFileName])
    = Some (File n (Json modelInfo)) →
  Extension.lowerCaseAuthor modelInfo = Ok author →
  author ≠ JStr "user" →
  fs w !! dir = Some Dir →
  (∀ n, is_Some (fs w !! (dir ++ [n])) → Spec.plain n) →
  ∃ w',
    Extension.deleteModel E model w = (Ok tt, w') ∧
    console w' = console w ∧ timers w' = timers w ∧ emitted w' = emitted w ∧
    (∀ name sz d,
       name ≠ JanModelExtension._modelMetadataFileName →
       fs w !! (dir ++ [name]) = Some (File sz d) →
       fs w' !! (dir ++ [name]) = None) ∧
    (∀ q,
       ¬ (∃ name sz d,
            name ≠ JanModelExtension._modelMetadataFileName ∧
            q = dir ++ [name] ∧ fs w !! q = Some (File sz d)) →
       fs w' !! q = fs w !! q).
Proof.
  intros dir Hpath Hfile Hauthor Hne Hdir Hplain.
  rewrite (deleteModel_descriptor E model s w Hpath). fold dir.
  unfold Fs.readFileSync. rewrite Hfile, res_bind_Ok_l.
  cbn [Fs.parse]. rewrite res_bind_Ok_l, Hauthor.
  assert (Js.strict_eq_str author "user" = false) as Hfalse.
  { destruct author as [| | | | |a| |]; try done. cbn.
    destruct (String.eqb_spec a "user") as [->|]; done. }
  destruct (branch_catalog E s w author Hfalse Hdir Hplain)
    as (w' & Hrun & Ht & He & Hc & Hgone & Hkept).
  exists w'. unfold Op.try_catch. subst dir. rewrite Hrun. by split_and!.
Qed.

Lemma deleteModel_keeps_catalog_descriptor_witness :
  ∃ w',
    Extension.deleteModel Sample.E Sample7.model Sample7.w = (Ok tt, w') ∧
    fs w' !! ["jan"; "models"; "tiny"; "tiny.gguf"] = None ∧
    fs w' !! ["jan"; "models"; "tiny"; "model.json"]
      = Some (File 80 (Json Sample7.catalog)) ∧
    fs w' !! ["jan"; "models"; "tiny"; "cache"; "kv.bin"]
      = Some (File 9 Opaque).
Proof.
  destruct (deleteModel_keeps_catalog_descriptor Sample.E Sample7.model
              "file://models/tiny/model.json" Sample7.w 80 Sample7.catalog
              (JStr "jan"))
    as (w' & Hrun & _ & _ & _ & Hgone & Hkept).
  - reflexivity.
  - reflexivity.
  - reflexivity.
  - discriminate.
  - reflexivity.
  - intros n [x Hx]. apply elem_of_list_to_map_2 in Hx.
    change (Fs.dirName (JanModelExtension.resolve Sample.E
                          "file://models/tiny/model.json"))
      with ["jan"; "models"; "tiny"] in Hx.
    cbn [app] in Hx.
    repeat (apply elem_of_cons in Hx as [Hx|Hx];
            [simplify_eq; try by split_and!|]).
    by apply elem_of_nil in Hx.
  - exists w'. split; [exact Hrun|]. split_and!.
    + apply (Hgone "tiny.gguf" 100 (Gguf Sample.header)); [discriminate|reflexivity].
    + rewrite Hkept; [reflexivity|].
      intros (name & sz & d & Hname & Heq & _).
      change (Fs.dirName (JanModelExtension.resolve Sample.E
                            "file://models/tiny/model.json"))
        with ["jan"; "models"; "tiny"] in Heq.
      cbn [app] in Heq. clear -Hname Heq. simplify_eq.
    + rewrite Hkept; [reflexivity|].
      intros (name & sz & d & Hname & Heq & _).
      change (Fs.dirName (JanModelExtension.resolve Sample.E
                            "file://models/tiny/model.json"))
        with ["jan"; "models"; "tiny"] in Heq.
      cbn [app] in Heq. clear -Hname Heq. simplify_eq.
Defined.





(** ** Synthesis followed by deletion *)

(** A property with a value is written, whatever else the object holds. *)
Lemma lookup_json_props_defined k ps :
  Js.lookup_prop k ps ≠ JUndefined →
  Js.lookup_prop k (Spec.json_props ps) = Js.json (Js.lookup_prop k ps).
Proof.
  induction ps as [|[k0 v0] ps IH]; [done|].
  rewrite json_props_cons. cbn [Js.lookup_prop].
  destruct (String.eqb_spec k0 k) as [->|Hne].
  - intros Hv. destruct v0; try done; cbn [Js.lookup_prop];
      by rewrite String.eqb_refl.
  - intros Hv. destruct v0; cbn [Js.lookup_prop];
      rewrite ?eqb_false_ne by done; auto.
Qed.

Section synthesized_then_deleted.
Context (E : env) (dirName : string) (w : world).

Let dir : list string := Fs.joinPath (JanModelExtension.homeDir E) [dirName].

Lemma generateModelMetadata_then_deleteModel file n d updatedModel model s :
  fs w !! dir = Some Dir →
  fs w !! (dir ++ [JanModelExtension._modelMetadataFileName]) = None →
  (∀ n, is_Some (fs w !! (dir ++ [n])) → Spec.plain n) →
  Spec.first_binary (fs w) dir file n d →
  retrieveGGUFMetadata E (Spec.header_of d) = Ok updatedModel →
  Js.truthy (DEFAULT_MODEL E) = true →
  Js.get model "file_path" = Ok (JStr s) →
  JanModelExtension.resolve E s
    = dir ++ [JanModelExtension._modelMetadataFileName] →
  ∃ m w1 w2,
    JanModelExtension.generateModelMetadata E dirName w = (Ok m, w1) ∧
    Extension.deleteModel E model w1 = (Ok tt, w2) ∧
    console w2 = console w1 ∧
    (∀ q, dir `prefix_of` q → fs w2 !! q = None) ∧
    (∀ q, ¬ dir `prefix_of` q → fs w2 !! q = fs w !! q).
Proof.
  intros Hdir Hnone Hplain Hfirst Hmd Hdef Hpath Hres.
  destruct (findBinary_sorted_listing E dirName w Hplain)
    as [[_ Hnobin]|(file' & n' & d' & Hfind & Hfirst')].
  { destruct Hfirst as [Hbin _]. by destruct (Hnobin file n d). }
  fold dir in Hfind, Hfirst'.
  destruct (first_binary_functional E dirName w _ _ _ _ _ _ Hfirst Hfirst')
    as (-> & -> & ->).
  destruct Hfirst as [[Hfile _] _].
  destruct (generateModelMetadata_found E dirName w file n d updatedModel)
    as (ps & Hrun & _ & _ & Hmeta & _); try done.
  { apply Hplain. by eexists. }
  fold dir in Hrun.
  assert (Fs.dirName (JanModelExtension.resolve E s) = dir) as Hdirname.
  { rewrite Hres. apply removelast_last. }
  eexists _, _, _. split; [exact Hrun|].
  rewrite (deleteModel_descriptor E model s _ Hpath), Hdirname.
  cbn [fs set_fs]. unfold Fs.readFileSync.
  rewrite lookup_insert_eq, res_bind_Ok_l. cbn [Fs.parse].
  rewrite res_bind_Ok_l, json_object.
  rewrite (lowerCaseAuthor_string _ (Js.json (Js.lookup_prop "metadata" ps)) "User").
  - split; [reflexivity|]. cbn [fs console set_fs]. split_and!; [done| |].
    + intros q Hq. by apply rm_lookup.
    + intros q Hq. destruct (rm_lookup
        (<[dir ++ [JanModelExtension._modelMetadataFileName] :=
             File (json_length E (JObj (Spec.json_props ps)))
                  (Json (JObj (Spec.json_props ps)))]> (fs w)) dir) as [_ ->];
        [|done].
      apply lookup_insert_ne. intros <-. apply Hq. by apply prefix_app_r.
  - cbn [Js.get]. f_equal. apply lookup_json_props_defined. by rewrite Hmeta.
  - by rewrite Hmeta.
Qed.

End synthesized_then_deleted.

(** X14. A descriptor that [generateModelMetadata] has synthesized marks
    the model as imported by the user: after a successful synthesis for a
    folder, [deleteModel] of a model whose [file_path] is the descriptor of
    that folder removes the folder with the binary of the user in it, and
    leaves every other path as it was before the synthesis. *)
Theorem deleteModel_removes_synthesized_model (E : env) (dirName : string)
    (w : world) (file : string) (n : Z) (d : content)
    (updatedModel model : jsval) (s : string) :
  let dir := Fs.joinPath (JanModelExtension.homeDir E) [dirName] in
  fs w !! dir = Some Dir →
  fs w !! (dir ++ [JanModelExtension._modelMetadataFileName]) = None →
  (∀ n, is_Some (fs w !! (dir ++ [n])) → Spec.plain n) →
  Spec.first_binary (fs w) dir file n d →
  retrieveGGUFMetadata E (Spec.header_of d) = Ok updatedModel →
  Js.truthy (DEFAULT_MODEL E) = true →
  Js.get model "file_path" = Ok (JStr s) →
  JanModelExtension.resolve E s
    = dir ++ [JanModelExtension._modelMetadataFileName] →
  ∃ m w1 w2,
    JanModelExtension.generateModelMetadata E dirName w = (Ok m, w1) ∧
    Extension.deleteModel E model w1 = (Ok tt, w2) ∧
    console w2 = console w1 ∧
    (∀ q, dir `prefix_of` q → fs w2 !! q = None) ∧
    (∀ q, ¬ dir `prefix_of` q → fs w2 !! q = fs w !! q).
Proof. intros dir. apply generateModelMetadata_then_deleteModel. Qed.

Lemma deleteModel_removes_synthesized_model_witness :
  ∃ m w1 w2,
    JanModelExtension.generateModelMetadata Sample.E "foo" Sample3.w
      = (Ok m, w1) ∧
    Extension.deleteModel Sample.E
      (Js.object [Js.Field "file_path" (JStr "file://models/foo/model.json")])
      w1 = (Ok tt, w2) ∧
    console w2 = console w1 ∧
    (∀ q, ["jan"; "models"; "foo"] `prefix_of` q → fs w2 !! q = None) ∧
    (∀ q, ¬ ["jan"; "models"; "foo"] `prefix_of` q →
          fs w2 !! q = fs Sample3.w !! q).
Proof.
  apply (deleteModel_removes_synthesized_model Sample.E "foo" Sample3.w
           "a.gguf" 100 (Gguf Sample.header)
           (default JUndefined
              (match retrieveGGUFMetadata Sample.E Sample.header with
               | Ok v => Some v | Throw _ => None end))
           (Js.object [Js.Field "file_path"
                         (JStr "file://models/foo/model.json")])
           "file://models/foo/model.json").
  - reflexivity.
  - reflexivity.
  - intros n [x Hx]. apply elem_of_list_to_map_2 in Hx.
    change (Fs.joinPath (JanModelExtension.homeDir Sample.E) ["foo"])
      with ["jan"; "models"; "foo"] in Hx.
    cbn [app] in Hx.
    repeat (apply elem_of_cons in Hx as [Hx|Hx];
            [simplify_eq; try by split_and!|]).
    by apply elem_of_nil in Hx.
  - split; [by split|]. intros file' n' d' [Hf Hext].
    apply elem_of_list_to_map_2 in Hf.
    change (Fs.joinPath (JanModelExtension.homeDir Sample.E) ["foo"])
      with ["jan"; "models"; "foo"] in Hf.
    cbn [app] in Hf.
    repeat (apply elem_of_cons in Hf as [Hf|Hf];
            [simplify_eq; first [discriminate Hext | by vm_compute]|]).
    by apply elem_of_nil in Hf.
  - reflexivity.
  - reflexivity.
  - reflexivity.
  - reflexivity.
Defined.

(** ** Cancelling a download: [cancelModelDownload] *)

(** X15. [cancelModelDownload] never throws and touches one path only, the
    entry named like the model inside the folder of the model. When the
    abort fails, the error is logged and the partial file stays; when the
    abort succeeds, the entry is removed if it is a file, and otherwise the
    failure of the removal is logged and the file system stays as it
    was. *)
Theorem cancelModelDownload_removes_only_partial_file (E : env)
    (abortDownload : list string → res unit) (modelId : string) (w : world) :
  let path := Fs.joinPath (JanModelExtension.homeDir E) [modelId; modelId] in
  let logged e :=
    {| fs := fs w; timers := timers w; next_timer := next_timer w;
       emitted := emitted w; console := console w ++ [console_error_exn e];
       now := now w |} in
  ∃ w',
    Extension.cancelModelDownload E abortDownload modelId w = (Ok tt, w') ∧
    timers w' = timers w ∧ emitted w' = emitted w ∧
    (∀ q, q ≠ path → fs w' !! q = fs w !! q) ∧
    (∀ e, abortDownload path = Throw e → w' = logged e) ∧
    (abortDownload path = Ok tt →
     match fs w !! path with
     | Some (File _ _) => fs w' !! path = None ∧ console w' = console w
     | Some Dir => w' = logged (FsError "EPERM")
     | None => w' = logged (FsError "ENOENT")
     end).
Proof.
  intros path logged.
  unfold Extension.cancelModelDownload, Op.try_catch. fold path.
  unfold mbind at 1, M_bind at 1, Op.lift at 1.
  destruct (abortDownload path) as [[]|e] eqn:Habort.
  - unfold Op.write, FsMore.unlinkSync.
    destruct (fs w !! path) as [[|sz d]|] eqn:Hp.
    + eexists. split; [reflexivity|]. by split_and!.
    + eexists. split; [reflexivity|]. cbn [fs timers emitted console set_fs].
      split_and!; try done.
      * intros q Hq. by apply lookup_delete_ne.
      * intros _. split; [apply lookup_delete_eq|done].
    + eexists. split; [reflexivity|]. by split_and!.
  - eexists. split; [reflexivity|]. split_and!; try done.
    intros e' [= <-]. done.
Qed.

(** ** Importing by link: [importModel] with [SYMLINK] *)


Section import_link.
Context (E : env) (model : ImportingModel) (w : world).

Let binaryName : string := Str.remove_spaces (Fs.baseName (path model)).
Let name : string :=
  if Str.ends_with JanModelExtension._supportedModelFormat binaryName
  then Str.replace_first JanModelExtension._supportedModelFormat "" binaryName
  else binaryName.



End import_link.








(** ** Paths written as strings *)










(** ** Importing by link, then deleting *)

Section link_then_delete.
Context (E : env) (model : ImportingModel) (w : world).



End link_then_delete.



(** ** Importing by copy: the successful run *)




Lemma no_separator_app_inv (s t : string) :
  Str.no_separator (s +:+ t) = true →
  Str.no_separator s = true ∧ Str.no_separator t = true.
Proof.
  induction s as [|c r IH]; [done|].
  change (String c r +:+ t) with (String c (r +:+ t)).
  cbn [Str.no_separator]. intros [Hc Hr]%andb_true_iff.
  destruct (IH Hr) as [-> ->]. by rewrite Hc.
Qed.


Section import_copy.
Context (E : env) (model : ImportingModel) (w : world).

Let binaryName : string := Str.remove_spaces (Fs.baseName (path model)).
Let name : string :=
  if Str.ends_with JanModelExtension._supportedModelFormat binaryName
  then Str.replace_first JanModelExtension._supportedModelFormat "" binaryName
  else binaryName.
Let modelBinaryFile : string :=
  if Str.ends_with JanModelExtension._supportedModelFormat binaryName
  then binaryName
  else binaryName +:+ JanModelExtension._supportedModelFormat.




End import_copy.



(** ** Threads: [createThread] *)

Section createThread.
Context (E : env) (thread : jsval) (w : world).
Context (assistants len first assistant_id : jsval).
Hypothesis Hassistants : Js.get thread "assistants" = Ok assistants.
Hypothesis Htruthy : Js.truthy assistants = true.
Hypothesis Hlen : Js.get assistants "length" = Ok len.
Hypothesis Hnonzero : Threads.is_zero len = false.
Hypothesis Hfirst : Js.get assistants "0" = Ok first.
Hypothesis Hid : Js.get first "assistant_id" = Ok assistant_id.

Let threadId : string :=
  Js.to_string assistant_id +:+ "_" +:+ Threads.seconds (now w).
Let updatedThread : jsval :=
  Js.object [Js.Spread thread;
             Js.Field "id" (JStr threadId);
             Js.Field "created" (JNum (now w));
             Js.Field "updated" (JNum (now w))].
Let threadDirPath : list string :=
  Fs.joinPath (janDataFolderPath E) ["threads"; threadId].
Let threadJsonPath : list string :=
  threadDirPath ++ [Threads.threadMetadataFileName].

Lemma plain_thread_json : Spec.plain Threads.threadMetadataFileName.
Proof. by split_and!. Qed.

(** [createThread] once the thread has passed the check. *)
Lemma createThread_checked :
  Threads.createThread E thread w
  = Op.try_catch
      (isExist ← Op.read (λ f, Ok (Fs.existsSync f threadDirPath));
       _ ← (if negb isExist
            then Op.write (λ f, FsMore.mkdirSync f threadDirPath)
            else mret tt);
       _ ← JanModelExtension.writeJson E threadJsonPath updatedThread;
       mret (Threads.Value updatedThread))
      (λ err, mret (Threads.Caught "error" err)) w.
Proof.
  unfold Threads.createThread.
  unfold mbind at 1, M_bind at 1, Op.lift at 1. rewrite Hassistants.
  unfold mbind at 1, M_bind at 1, Op.lift at 1. rewrite Htruthy, Hlen, Hnonzero.
  cbn [negb orb].
  unfold mbind at 1, M_bind at 1, Op.lift at 1. rewrite Hfirst.
  unfold mbind at 1, M_bind at 1, Op.lift at 1. rewrite Hid.
  unfold mbind at 1, M_bind at 1, Threads.generateThreadId, Op.Date_now.
  unfold mbind at 1, M_bind at 1, mret at 1, M_ret at 1. fold threadId.
  unfold Op.try_catch.
  unfold mbind at 1, M_bind at 1. unfold mbind at 1, M_bind at 1.
  fold updatedThread.
  assert (Js.get updatedThread "id" = Ok (JStr threadId)) as ->.
  { unfold updatedThread. cbn [Js.object fold_left Js.add_member Js.get].
    f_equal. rewrite !lookup_set_prop_ne by done. apply lookup_set_prop_eq. }
  rewrite res_bind_Ok_l. cbn [Threads.path_argument].
  unfold mbind at 1, M_bind at 1, Op.lift at 1. fold threadDirPath.
  rewrite (joinPath_plain _ _ plain_thread_json). fold threadJsonPath.
  reflexivity.
Qed.

Lemma createThread_stores :
  (fs w !! threadDirPath = None →
   fs w !! Fs.dirName threadDirPath = Some Dir) →
  (∀ n d, fs w !! threadDirPath ≠ Some (File n d)) →
  fs w !! threadJsonPath ≠ Some Dir →
  Threads.createThread E thread w
  = (Ok (Threads.Value updatedThread),
     set_fs (<[threadJsonPath :=
                 File (json_length E (Js.json updatedThread))
                      (Json (Js.json updatedThread))]>
               (<[threadDirPath := Dir]> (fs w))) w) ∧
  Js.get updatedThread "id" = Ok (JStr threadId).
Proof.
  intros Hparent Hnofile Hnodir. split.
  2:{ unfold updatedThread. cbn [Js.object fold_left Js.add_member Js.get].
      f_equal. rewrite !lookup_set_prop_ne by done. apply lookup_set_prop_eq. }
  rewrite createThread_checked. unfold Op.try_catch.
  unfold mbind at 1, M_bind at 1, Op.read at 1, Fs.existsSync.
  assert (Fs.dirName threadJsonPath = threadDirPath) as Hdirname
    by apply removelast_last.
  assert (threadJsonPath ≠ threadDirPath) as Hne.
  { intros H. apply (f_equal length) in H. unfold threadJsonPath in H.
    rewrite length_app in H. cbn in H. lia. }
  destruct (fs w !! threadDirPath) as [[|n d]|] eqn:Hdir.
  - rewrite bool_decide_true by done. cbn [negb].
    unfold mbind at 1, M_bind at 1, mret at 1, M_ret at 1.
    unfold mbind at 1, M_bind at 1, JanModelExtension.writeJson, Op.write,
      Fs.writeFileSync.
    rewrite Hdirname, Hdir, (insert_id (fs w) threadDirPath Dir) by done.
    by destruct (fs w !! threadJsonPath) as [[|]|].
  - by destruct (Hnofile n d).
  - rewrite bool_decide_false by (by intros [? ?]). cbn [negb].
    unfold mbind at 1, M_bind at 1, Op.write at 1, FsMore.mkdirSync.
    rewrite Hdir, (Hparent eq_refl).
    unfold mbind at 1, M_bind at 1, JanModelExtension.writeJson, Op.write,
      Fs.writeFileSync.
    cbn [fs set_fs]. rewrite Hdirname, lookup_insert_eq.
    rewrite (lookup_insert_ne _ threadDirPath threadJsonPath) by done.
    by destruct (fs w !! threadJsonPath) as [[|]|].
Qed.

Lemma createThread_no_parent :
  fs w !! threadDirPath = None →
  fs w !! Fs.dirName threadDirPath = None →
  Threads.createThread E thread w
  = (Ok (Threads.Caught "error" (FsError "ENOENT")), w).
Proof.
  intros Hdir Hparent. rewrite createThread_checked. unfold Op.try_catch.
  unfold mbind at 1, M_bind at 1, Op.read at 1, Fs.existsSync.
  rewrite bool_decide_false by (rewrite Hdir; by intros [? ?]). cbn [negb].
  unfold mbind at 1, M_bind at 1, Op.write at 1, FsMore.mkdirSync.
  by rewrite Hdir, Hparent.
Qed.

End createThread.

(** X20. A thread with at least one assistant is stored under
    [threads/<assistant>_<seconds>]: the id is the id of the first
    assistant, an underscore and the time in seconds rounded to the
    nearest (not cut off), and it replaces the [id] of the request. When
    the folder of the thread exists or can be created, and no directory is
    in the way of [thread.json], [createThread] creates the folder if it
    is missing, writes the thread to [thread.json] in it, replacing what
    was there, and answers with the thread. *)
Theorem createThread_stores_thread (E : env) (thread : jsval) (w : world)
    (assistants len first assistant_id : jsval) :
  let threadId :=
    Js.to_string assistant_id +:+ "_" +:+ Threads.seconds (now w) in
  let updatedThread :=
    Js.object [Js.Spread thread;
               Js.Field "id" (JStr threadId);
               Js.Field "created" (JNum (now w));
               Js.Field "updated" (JNum (now w))] in
  let threadDirPath := Fs.joinPath (janDataFolderPath E) ["threads"; threadId] in
  let threadJsonPath := threadDirPath ++ [Threads.threadMetadataFileName] in
  Js.get thread "assistants" = Ok assistants →
  Js.truthy assistants = true →
  Js.get assistants "length" = Ok len →
  Threads.is_zero len = false →
  Js.get assistants "0" = Ok first →
  Js.get first "assistant_id" = Ok assistant_id →
  (fs w !! threadDirPath = None →
   fs w !! Fs.dirName threadDirPath = Some Dir) →
  (∀ n d, fs w !! threadDirPath ≠ Some (File n d)) →
  fs w !! threadJsonPath ≠ Some Dir →
  Threads.createThread E thread w
  = (Ok (Threads.Value updatedThread),
     set_fs (<[threadJsonPath :=
                 File (json_length E (Js.json updatedThread))
                      (Json (Js.json updatedThread))]>
               (<[threadDirPath := Dir]> (fs w))) w) ∧
  Js.get updatedThread "id" = Ok (JStr threadId).
Proof.
  intros threadId updatedThread threadDirPath threadJsonPath
    H1 H2 H3 H4 H5 H6.
  by apply (createThread_stores E thread w assistants len first assistant_id).
Qed.

Lemma createThread_stores_thread_witness :
  ∃ t w',
    Threads.createThread Sample.E Sample10.request Sample10.w
      = (Ok (Threads.Value t), w') ∧
    Js.get t "id" = Ok (JStr "jan_1700000001") ∧
    fs w' !! ["jan"; "threads"; "jan_1700000001"] = Some Dir ∧
    fs w' !! ["jan"; "threads"; "jan_1700000001"; "thread.json"]
      = Some (File 0 (Json (Js.json t))).
Proof.
  destruct (createThread_stores_thread Sample.E Sample10.request Sample10.w
              (JArr [Js.object [Js.Field "assistant_id" (JStr "jan")]])
              (JNum 1)
              (Js.object [Js.Field "assistant_id" (JStr "jan")])
              (JStr "jan")) as [Hrun Hid]; try reflexivity; try discriminate.
  eexists _, _. split; [exact Hrun|]. split; [exact Hid|].
  cbn [fs set_fs]. split.
  - rewrite lookup_insert_ne by discriminate. apply lookup_insert_eq.
  - apply lookup_insert_eq.
Defined.

(** X21. [createThread] does not create the [threads] folder: when the
    folder of the new thread and its parent are both missing, the thread
    is not stored, nothing is written, and the answer is the object
    [{ error }] with the [ENOENT] error of [mkdirSync]; the call itself
    does not throw. *)
Theorem createThread_needs_threads_folder (E : env) (thread : jsval)
    (w : world) (assistants len first assistant_id : jsval) :
  let threadId :=
    Js.to_string assistant_id +:+ "_" +:+ Threads.seconds (now w) in
  let threadDirPath := Fs.joinPath (janDataFolderPath E) ["threads"; threadId] in
  Js.get thread "assistants" = Ok assistants →
  Js.truthy assistants = true →
  Js.get assistants "length" = Ok len →
  Threads.is_zero len = false →
  Js.get assistants "0" = Ok first →
  Js.get first "assistant_id" = Ok assistant_id →
  fs w !! threadDirPath = None →
  fs w !! Fs.dirName threadDirPath = None →
  Threads.createThread E thread w
  = (Ok (Threads.Caught "error" (FsError "ENOENT")), w).
Proof.
  intros threadId threadDirPath H1 H2 H3 H4 H5 H6.
  by apply (createThread_no_parent E thread w assistants len first assistant_id).
Qed.

Lemma createThread_needs_threads_folder_witness :
  Threads.createThread Sample.E Sample10.request Sample3.w
  = (Ok (Threads.Caught "error" (FsError "ENOENT")), Sample3.w).
Proof.
  apply (createThread_needs_threads_folder Sample.E Sample10.request Sample3.w
           (JArr [Js.object [Js.Field "assistant_id" (JStr "jan")]])
           (JNum 1)
           (Js.object [Js.Field "assistant_id" (JStr "jan")])
           (JStr "jan")); reflexivity.
Defined.

(** ** Threads: [updateThread] *)

Section delete_prop.
Implicit Types (k : string) (ps : list (string * jsval)).

Lemma has_prop_delete k k' ps :
  Js.has_prop k (filter (λ p, p.1 ≠ k') ps)
  = if String.eqb k k' then false else Js.has_prop k ps.
Proof.
  induction ps as [|[k0 v0] ps IH].
  - by destruct (String.eqb k k').
  - destruct (decide (k0 = k')) as [->|Hne].
    + rewrite filter_cons_False by (cbn; naive_solver). rewrite IH.
      cbn [Js.has_prop existsb fst]. fold (Js.has_prop k ps).
      destruct (String.eqb_spec k k') as [->|Hk]; [done|].
      by rewrite eqb_false_ne.
    + rewrite filter_cons_True by done.
      cbn [Js.has_prop existsb fst]. fold (Js.has_prop k ps).
      fold (Js.has_prop k (filter (λ p, p.1 ≠ k') ps)). rewrite IH.
      destruct (String.eqb_spec k k') as [->|Hk]; [|done].
      by rewrite eqb_false_ne.
Qed.

Lemma lookup_prop_delete k k' ps :
  k ≠ k' →
  Js.lookup_prop k (filter (λ p, p.1 ≠ k') ps) = Js.lookup_prop k ps.
Proof.
  intros Hk. induction ps as [|[k0 v0] ps IH]; [done|].
  destruct (decide (k0 = k')) as [->|Hne].
  - rewrite filter_cons_False by (cbn; naive_solver). rewrite IH.
    cbn [Js.lookup_prop]. by rewrite eqb_false_ne.
  - rewrite filter_cons_True by done. cbn [Js.lookup_prop]. by rewrite IH.
Qed.

Lemma NoDup_delete k' ps :
  NoDup (ps.*1) → NoDup ((filter (λ p, p.1 ≠ k') ps).*1).
Proof.
  induction ps as [|[k0 v0] ps IH]; [done|].
  rewrite fmap_cons, NoDup_cons. cbn [fst]. intros [Hk0 Hnd].
  destruct (decide (k0 = k')) as [->|Hne].
  - rewrite filter_cons_False by (cbn; naive_solver). auto.
  - rewrite filter_cons_True by done. rewrite fmap_cons, NoDup_cons.
    split; [|auto]. cbn [fst]. intros Hin. apply Hk0.
    apply list_elem_of_fmap in Hin as ([k1 v1] & -> & Hin).
    apply list_elem_of_filter in Hin as [_ Hin].
    apply list_elem_of_fmap. by exists (k1, v1).
Qed.

End delete_prop.

Section updateThread.
Context (E : env) (threads : Builder.RouteConfiguration) (threadId : string).
Context (tps cps : list (string * jsval)) (w w1 : world).
Hypothesis Hcurrent :
  Builder.retrieveBuilder E threads threadId w = (Ok (JObj cps), w1).
Hypothesis Hcps : NoDup (cps.*1).
Hypothesis Htps : NoDup (tps.*1).

Let patch : list (string * jsval) :=
  filter (λ p, p.1 ≠ "object") (filter (λ p, p.1 ≠ "id") tps).
Let updatedThread : jsval :=
  Js.object [Js.Spread (JObj cps); Js.Spread (JObj patch);
             Js.Field "updated" (JNum (now w))].
Let threadJsonPath : list string :=
  Fs.joinPath (janDataFolderPath E) ["threads"; threadId]
    ++ [Threads.threadMetadataFileName].

Lemma retrieved_quiet : fs w1 = fs w ∧ now w1 = now w.
Proof.
  destruct (retrieveBuilder_run E threads threadId w) as (r & w' & Hrun & Hq & _).
  rewrite Hcurrent in Hrun. injection Hrun as _ <-.
  unfold quiet in Hq. by injection Hq as -> _ _ _ ->.
Qed.

Lemma retrieved_id : Js.lookup_prop "id" cps = JStr threadId.
Proof.
  destruct (retrieveBuilder_run E threads threadId w)
    as (r & w' & Hrun & _ & [->|(_ & Hid & _)]);
    rewrite Hcurrent in Hrun; [done|].
  injection Hrun as <- _. cbn [Js.get] in Hid. by injection Hid.
Qed.

Lemma updatedThread_merged (k : string) :
  k ≠ "updated" →
  Js.get updatedThread k
  = Ok (if Js.has_prop k patch then Js.lookup_prop k patch
        else Js.lookup_prop k cps).
Proof.
  intros Hk. unfold updatedThread.
  cbn [Js.object fold_left Js.add_member Js.get Js.own_props]. f_equal.
  rewrite lookup_set_prop_ne by done.
  rewrite lookup_spread by (unfold patch; by do 2 apply NoDup_delete).
  destruct (Js.has_prop k patch); [done|]. rewrite lookup_spread by done.
  destruct (Js.has_prop k cps) eqn:Hc; [done|].
  symmetry. by apply has_prop_lookup.
Qed.

Lemma updateThread_found :
  Threads.updateThread E threads threadId (JObj tps) w
  = match Fs.writeFileSync (fs w) threadJsonPath
            (json_length E (Js.json updatedThread))
            (Json (Js.json updatedThread)) with
    | Ok f' => (Ok (Threads.Value updatedThread), set_fs f' w1)
    | Throw e => (Ok (Threads.Caught "message" e), w1)
    end.
Proof.
  destruct retrieved_quiet as [Hfs Hnow].
  unfold Threads.updateThread. rewrite (M_bind_run _ _ _ _ _ Hcurrent).
  cbn [Js.truthy negb Threads.delete_prop].
  unfold mbind at 1, M_bind at 1, Op.lift at 1.
  unfold mbind at 1, M_bind at 1, Op.lift at 1.
  unfold mbind at 1, M_bind at 1, Op.Date_now at 1.
  cbn [Threads.delete_prop]. rewrite Hnow. fold patch. fold updatedThread.
  unfold Op.try_catch. unfold mbind at 1, M_bind at 1, Op.lift at 1.
  rewrite (updatedThread_merged "id") by done.
  unfold patch at 1. rewrite !has_prop_delete. cbn [String.eqb Ascii.eqb Bool.eqb].
  rewrite retrieved_id, res_bind_Ok_l. cbn [Threads.path_argument].
  rewrite (joinPath_plain _ _ plain_thread_json). fold threadJsonPath.
  unfold mbind at 1, M_bind at 1, JanModelExtension.writeJson, Op.write.
  rewrite Hfs. by destruct (Fs.writeFileSync _ _ _ _).
Qed.

End updateThread.

(** X22. [updateThread] cannot change the [id] or the [object] of a
    thread, and it merges one level deep only. For a stored thread and a
    patch that are objects, the updated thread has the [id] that was
    asked for and the [object] of the stored thread, whatever the patch
    says; [updated] is the current time; every other property is the one
    of the patch when the patch has it, and the one of the stored thread
    otherwise. The thread is written to [threads/<id>/thread.json], and
    when that fails the answer is the object [{ message }] with the error
    and no file has changed. *)
Theorem updateThread_keeps_id_and_object (E : env)
    (threads : Builder.RouteConfiguration) (threadId : string)
    (tps cps : list (string * jsval)) (w w1 : world) :
  let threadJsonPath :=
    Fs.joinPath (janDataFolderPath E) ["threads"; threadId]
      ++ [Threads.threadMetadataFileName] in
  Builder.retrieveBuilder E threads threadId w = (Ok (JObj cps), w1) →
  NoDup (cps.*1) →
  NoDup (tps.*1) →
  ∃ u r w',
    Threads.updateThread E threads threadId (JObj tps) w = (Ok r, w') ∧
    Js.get u "id" = Ok (JStr threadId) ∧
    Js.get u "object" = Ok (Js.lookup_prop "object" cps) ∧
    Js.get u "updated" = Ok (JNum (now w)) ∧
    (∀ k, k ≠ "id" → k ≠ "object" → k ≠ "updated" →
          Js.get u k = Ok (if Js.has_prop k tps then Js.lookup_prop k tps
                           else Js.lookup_prop k cps)) ∧
    ((r = Threads.Value u ∧
      fs w' = <[threadJsonPath := File (json_length E (Js.json u))
                                       (Json (Js.json u))]> (fs w)) ∨
     (∃ e, r = Threads.Caught "message" e ∧ fs w' = fs w)).
Proof.
  intros threadJsonPath Hcurrent Hcps Htps.
  pose proof (updateThread_found E threads threadId tps cps w w1
                Hcurrent Hcps Htps) as Hrun.
  pose proof (updatedThread_merged tps cps w Hcps Htps) as Hmerged.
  destruct (retrieved_quiet E threads threadId cps w w1 Hcurrent) as [Hfs _].
  cbv zeta in Hrun, Hmerged. fold threadJsonPath in Hrun.
  set (u := Js.object
              [Js.Spread (JObj cps);
               Js.Spread
                 (JObj (filter (λ p, p.1 ≠ "object")
                          (filter (λ p, p.1 ≠ "id") tps)));
               Js.Field "updated" (JNum (now w))]) in *.
  assert (∃ r w',
            Threads.updateThread E threads threadId (JObj tps) w = (Ok r, w') ∧
            ((r = Threads.Value u ∧
              fs w' = <[threadJsonPath := File (json_length E (Js.json u))
                                               (Json (Js.json u))]> (fs w)) ∨
             (∃ e, r = Threads.Caught "message" e ∧ fs w' = fs w)))
    as (r & w' & Hrun' & Hr).
  { rewrite Hrun. unfold Fs.writeFileSync.
    destruct (fs w !! threadJsonPath) as [[|n d]|].
    - eexists _, _. split; [reflexivity|]. right. by eexists.
    - eexists _, _. split; [reflexivity|]. left. by split.
    - destruct (fs w !! Fs.dirName threadJsonPath) as [[|n d]|];
        (eexists _, _; split; [reflexivity|]);
        [left; by split|right; by eexists..]. }
  exists u, r, w'. split; [done|]. split_and!; [| | | |done].
  - rewrite Hmerged by done. rewrite !has_prop_delete.
    cbn [String.eqb Ascii.eqb Bool.eqb]. f_equal.
    by apply (retrieved_id E threads threadId cps w w1).
  - rewrite Hmerged by done. by rewrite !has_prop_delete.
  - unfold u. cbn [Js.object fold_left Js.add_member Js.get]. f_equal.
    apply lookup_set_prop_eq.
  - intros k Hid Hobject Hupdated. rewrite Hmerged by done.
    rewrite !has_prop_delete, !lookup_prop_delete by done.
    by rewrite !eqb_false_ne by done.
Qed.

Lemma updateThread_keeps_id_and_object_witness :
  ∃ u w',
    Threads.updateThread Sample.E Sample10.threads "jan_1699999999"
      Sample10.patch Sample10.w = (Ok (Threads.Value u), w') ∧
    Js.get u "id" = Ok (JStr "jan_1699999999") ∧
    Js.get u "object" = Ok (JStr "thread") ∧
    Js.get u "title" = Ok (JStr "new").
Proof.
  destruct (updateThread_keeps_id_and_object Sample.E Sample10.threads
              "jan_1699999999"
              [("id", JStr "other"); ("object", JStr "model");
               ("title", JStr "new")]
              [("id", JStr "jan_1699999999"); ("object", JStr "thread");
               ("title", JStr "old"); ("updated", JNum 1699999999000)]
              Sample10.w Sample10.w)
    as (u & r & w' & Hrun & Hid & Hobject & _ & Hother & Hr).
  - reflexivity.
  - apply (bool_decide_unpack _). by vm_compute.
  - apply (bool_decide_unpack _). by vm_compute.
  - exists u, w'. destruct Hr as [[-> _]|(e & -> & _)].
    + split; [exact Hrun|]. split; [exact Hid|]. split; [exact Hobject|].
      by rewrite Hother.
    + exfalso. vm_compute in Hrun. discriminate Hrun.
Defined.

(** ** The registries: what [getBuilder] does not leave out *)

Section builder_complete.
Context (E : env) (configuration : Builder.RouteConfiguration) (w : world).

Let directoryPath : list string :=
  Fs.joinPath (janDataFolderPath E) [Builder.dirName configuration].
Let metadata (d : string) : list string :=
  Fs.joinPath directoryPath [d; Builder.metadataFileName configuration].

Lemma readAll_complete (dirs : list string) :
  (∀ d, d ∈ dirs → fs w !! metadata d ≠ Some Dir) →
  Builder.readAll configuration directoryPath dirs w
  = (Ok ((λ d, match fs w !! metadata d with
               | Some (File _ c) => Some c
               | _ => None
               end) <$> dirs), w).
Proof.
  induction dirs as [|d r IH]; intros Hdirs; cbn [Builder.readAll]; [done|].
  unfold mbind at 1, M_bind at 1. rewrite readModelMetadata_run.
  fold (metadata d). pose proof (Hdirs d (list_elem_of_here _ _)) as Hd.
  rewrite fmap_cons.
  assert (∀ d', d' ∈ r → fs w !! metadata d' ≠ Some Dir) as Hr
    by (intros; apply Hdirs; by right).
  destruct (fs w !! metadata d) as [[|n c]|]; [done|..];
    by rewrite (M_bind_run _ _ _ _ _ (IH Hr)).
Qed.

Lemma parseAll_complete (results : list content) (v : jsval) :
  ∀ w0 vs w', Json v ∈ results →
    Builder.parseAll results w0 = (Ok vs, w') → v ∈ vs.
Proof.
  induction results as [|c r IH]; intros w0 vs w' Hin;
    [by apply elem_of_nil in Hin|].
  cbn [Builder.parseAll].
  destruct (parse_or_undefined c w0) as (w1 & Hc).
  rewrite (M_bind_run _ _ _ _ _ Hc).
  destruct (parseAll_run r w1) as (vs' & w2 & Hr & _).
  rewrite (M_bind_run _ _ _ _ _ Hr). intros [= <- <-].
  apply elem_of_cons in Hin as [<-|Hin]; [by left|].
  right. by apply (IH w1 vs' w2).
Qed.

Lemma getBuilder_complete :
  fs w !! directoryPath = Some Dir →
  (∀ d, is_Some (fs w !! (directoryPath ++ [d])) →
        fs w !! metadata d ≠ Some Dir) →
  ∃ data w',
    Builder.getBuilder E configuration w = (Ok data, w') ∧
    ∀ d n v,
      is_Some (fs w !! (directoryPath ++ [d])) →
      d ≠ ".DS_Store" →
      fs w !! metadata d = Some (File n (Json v)) →
      Js.truthy v = true →
      v ∈ data.
Proof.
  intros Hdir Hfiles.
  set (dirs := filter (λ file, file ≠ ".DS_Store") (Fs.entries (fs w) directoryPath)).
  set (read := (λ d, match fs w !! metadata d with
                     | Some (File _ c) => Some c
                     | _ => None
                     end) <$> dirs).
  set (results := filter (λ d, Builder.nonempty d = true) (omap id read)).
  destruct (parseAll_run results w) as (parsed & w' & Hparsed & _).
  exists (filter (λ e, Js.truthy e = true) parsed), w'. split.
  - unfold Builder.getBuilder. fold directoryPath. unfold Op.try_catch.
    unfold mbind at 1, M_bind at 1, Op.read at 1, Fs.existsSync.
    rewrite bool_decide_true by (by rewrite Hdir). cbn [negb].
    unfold mbind at 1, M_bind at 1, Op.read at 1, Fs.readdirSync.
    rewrite Hdir. fold dirs.
    unfold mbind at 1, M_bind at 1.
    rewrite readAll_complete.
    2:{ intros d [_ Hd%elem_of_entries]%list_elem_of_filter. by apply Hfiles. }
    fold read. fold results.
    unfold mbind at 1, M_bind at 1. by rewrite Hparsed.
  - intros d n v Hd Hds Hv Htruthy.
    apply list_elem_of_filter. split; [done|].
    apply (parseAll_complete results v w _ w'); [|done].
    apply list_elem_of_filter. split; [done|].
    apply list_elem_of_omap. exists (Some (Json v)). split; [|done].
    apply list_elem_of_fmap. exists d. rewrite Hv. split; [done|].
    apply list_elem_of_filter. split; [done|]. by apply elem_of_entries.
Qed.

End builder_complete.

(** X23. [getBuilder] leaves out no entry that it can use: when the
    directory of the registry exists and no metadata path of an entry is
    itself a directory, the answer holds the parsed metadata file of every
    entry other than [.DS_Store] whose file parses to a truthy value. *)
Theorem getBuilder_lists_every_entry (E : env)
    (configuration : Builder.RouteConfiguration) (w : world) :
  let directoryPath :=
    Fs.joinPath (janDataFolderPath E) [Builder.dirName configuration] in
  let metadata d :=
    Fs.joinPath directoryPath [d; Builder.metadataFileName configuration] in
  fs w !! directoryPath = Some Dir →
  (∀ d, is_Some (fs w !! (directoryPath ++ [d])) →
        fs w !! metadata d ≠ Some Dir) →
  ∃ data w',
    Builder.getBuilder E configuration w = (Ok data, w') ∧
    ∀ d n v,
      is_Some (fs w !! (directoryPath ++ [d])) →
      d ≠ ".DS_Store" →
      fs w !! metadata d = Some (File n (Json v)) →
      Js.truthy v = true →
      v ∈ data.
Proof. intros directoryPath metadata. apply getBuilder_complete. Qed.

Lemma getBuilder_lists_every_entry_witness :
  ∃ data w',
    Builder.getBuilder Sample.E Sample5.assistants Sample5.w = (Ok data, w') ∧
    Js.object [Js.Field "id" (JStr "helper");
               Js.Field "object" (JStr "assistant")] ∈ data.
Proof.
  destruct (getBuilder_lists_every_entry Sample.E Sample5.assistants Sample5.w)
    as (data & w' & Hrun & Hall).
  - reflexivity.
  - intros d [x Hx]. apply elem_of_list_to_map_2 in Hx.
    change (Fs.joinPath (janDataFolderPath Sample.E)
              [Builder.dirName Sample5.assistants])
      with ["jan"; "assistants"] in Hx.
    cbn [app] in Hx.
    repeat (apply elem_of_cons in Hx as [Hx|Hx];
            [simplify_eq; try (intros H; vm_compute in H; discriminate H)|]).
    by apply elem_of_nil in Hx.
  - exists data, w'. split; [exact Hrun|].
    apply (Hall "helper" 64); [by eexists|discriminate|reflexivity|reflexivity].
Defined.

(** ** A created thread can be retrieved *)

Lemma seconds_digits (ms : Z) :
  ∃ i : nat, Threads.seconds ms = pretty (Z.of_nat i) ∨
             Threads.seconds ms = "-" +:+ pretty (Z.of_nat i).
Proof.
  unfold Threads.seconds. destruct (Z.ltb_spec ms 0).
  - exists (Z.to_nat ((500 - ms) / 1000)). right.
    rewrite Z2Nat.id; [done|]. apply Z.div_pos; lia.
  - exists (Z.to_nat ((ms + 500) / 1000)). left.
    rewrite Z2Nat.id; [done|]. apply Z.div_pos; lia.
Qed.

(** No thread id is the name that [getBuilder] skips. *)
Lemma threadId_not_DS_Store (a : string) (ms : Z) :
  a +:+ "_" +:+ Threads.seconds ms ≠ ".DS_Store".
Proof.
  assert (Threads.seconds ms ≠ "Store") as Hs.
  { destruct (seconds_digits ms) as [i [-> | ->]]; [|done].
    intros H. pose proof (digits_pretty i) as Hd. by rewrite H in Hd. }
  intros H.
  do 10 (destruct a as [|? a];
         [cbn in H; first [discriminate H | by injection H]|];
         change (String ?c a +:+ ?t) with (String c (a +:+ t)) in H;
         first [discriminate H | injection H as _ H]).
Qed.

Lemma filterById_complete (id : string) (data : list jsval) (v : jsval) :
  Forall (λ d, Js.truthy d = true) data →
  v ∈ data → Js.get v "id" = Ok (JStr id) →
  ∃ matching, Builder.filterById id data = Ok matching ∧ v ∈ matching.
Proof.
  induction data as [|d data IH]; intros Hall Hin Hid;
    [by apply elem_of_nil in Hin|].
  apply Forall_cons in Hall as [Hd Hall].
  destruct (filterById_truthy id data) as (r' & Hr' & _).
  { eapply Forall_impl; [done|]. naive_solver. }
  cbn [Builder.filterById].
  destruct (get_truthy d "id" Hd) as [d_id Hd_id].
  rewrite Hd_id, res_bind_Ok_l, Hr', res_bind_Ok_l.
  apply elem_of_cons in Hin as [->|Hin].
  - rewrite Hid in Hd_id. injection Hd_id as <-. cbn [Js.strict_eq_str].
    rewrite String.eqb_refl. eexists. split; [done|by left].
  - destruct (IH Hall Hin Hid) as (m & Hm & Hvm).
    rewrite Hr' in Hm. injection Hm as <-.
    destruct (Js.strict_eq_str d_id id); eexists; (split; [done|]);
      [by right|done].
Qed.

Section thread_round_trip.
Context (E : env) (threads : Builder.RouteConfiguration).
Context (thread : jsval) (w : world).
Context (assistants len first assistant_id : jsval).
Hypothesis Hdir : Builder.dirName threads = "threads".
Hypothesis Hmeta :
  Builder.metadataFileName threads = Threads.threadMetadataFileName.
Hypothesis Hassistants : Js.get thread "assistants" = Ok assistants.
Hypothesis Htruthy : Js.truthy assistants = true.
Hypothesis Hlen : Js.get assistants "length" = Ok len.
Hypothesis Hnonzero : Threads.is_zero len = false.
Hypothesis Hfirst : Js.get assistants "0" = Ok first.
Hypothesis Hid : Js.get first "assistant_id" = Ok assistant_id.

Let threadId : string :=
  Js.to_string assistant_id +:+ "_" +:+ Threads.seconds (now w).
Let root : list string := Fs.joinPath (janDataFolderPath E) ["threads"].
Let threadJsonPath : list string :=
  root ++ [threadId; Threads.threadMetadataFileName].

Hypothesis Hplain : Spec.plain threadId.
Hypothesis Hroot : fs w !! root = Some Dir.
Hypothesis Hentries :
  ∀ d x, fs w !! (root ++ [d]) = Some x → Spec.plain d ∧ x = Dir.
Hypothesis Hfiles :
  ∀ d, fs w !! (root ++ [d; Threads.threadMetadataFileName]) ≠ Some Dir.
Hypothesis Hunique :
  ∀ q n v, q ≠ threadJsonPath → fs w !! q = Some (File n (Json v)) →
           Js.get v "id" ≠ Ok (JStr threadId).

Lemma createThread_then_retrieveBuilder_run :
  ∃ t w' w'',
    Threads.createThread E thread w = (Ok (Threads.Value t), w') ∧
    Js.get t "id" = Ok (JStr threadId) ∧
    Builder.retrieveBuilder E threads threadId w' = (Ok (Js.json t), w'') ∧
    fs w'' = fs w'.
Proof.
  set (t := Js.object [Js.Spread thread;
                       Js.Field "id" (JStr threadId);
                       Js.Field "created" (JNum (now w));
                       Js.Field "updated" (JNum (now w))]).
  assert (Fs.joinPath (janDataFolderPath E) ["threads"; threadId]
          = root ++ [threadId]) as Hthread.
  { change ["threads"; threadId] with (["threads"] ++ [threadId]).
    rewrite joinPath_app. by apply joinPath_plain. }
  assert (∀ d, Spec.plain d →
               Fs.joinPath root [d; Threads.threadMetadataFileName]
               = root ++ [d; Threads.threadMetadataFileName]) as Hjoin.
  { intros d Hd. change [d; Threads.threadMetadataFileName]
      with ([d] ++ [Threads.threadMetadataFileName]).
    rewrite joinPath_app, (joinPath_plain root d Hd).
    rewrite (joinPath_plain _ _ plain_thread_json). by rewrite <- app_assoc. }
  (* the creation *)
  destruct (createThread_stores E thread w assistants len first assistant_id
              Hassistants Htruthy Hlen Hnonzero Hfirst Hid)
    as [Hcreate Htid]; fold threadId; rewrite ?Hthread.
  { intros _. unfold Fs.dirName. by rewrite removelast_last. }
  { intros n d Hf. by destruct (Hentries _ _ Hf) as [_ ?]. }
  { rewrite <- app_assoc. apply Hfiles. }
  fold threadId in Hcreate, Htid. fold t in Hcreate, Htid.
  rewrite Hthread, <- app_assoc in Hcreate. cbn [app] in Hcreate.
  fold threadJsonPath in Hcreate.
  set (f' := <[threadJsonPath := File (json_length E (Js.json t))
                                      (Json (Js.json t))]>
               (<[root ++ [threadId] := Dir]> (fs w))) in *.
  set (w' := set_fs f' w) in *.
  assert (root ++ [threadId] ≠ threadJsonPath) as Hne1.
  { intros H. apply (f_equal length) in H. unfold threadJsonPath in H.
    rewrite !length_app in H. cbn in H. lia. }
  assert (root ≠ threadJsonPath ∧ root ≠ root ++ [threadId]) as [Hne2 Hne3].
  { split; intros H; apply (f_equal length) in H; unfold threadJsonPath in H;
      rewrite !length_app in H; cbn in H; lia. }
  assert (∀ d x, f' !! (root ++ [d]) = Some x → Spec.plain d ∧ x = Dir)
    as Hentries'.
  { intros d x. unfold f'. rewrite lookup_insert_ne.
    2:{ intros H. apply (f_equal length) in H. unfold threadJsonPath in H.
        rewrite !length_app in H. cbn in H. lia. }
    destruct (decide (d = threadId)) as [->|Hd].
    - rewrite lookup_insert_eq. by intros [= <-].
    - rewrite lookup_insert_ne; [apply Hentries|].
      intros [_ ?]%app_inj_tail. done. }
  assert (∀ q, q ≠ threadJsonPath → q ≠ root ++ [threadId] →
               f' !! q = fs w !! q) as Hother.
  { intros q H1 H2. unfold f'. by rewrite !lookup_insert_ne. }
  (* the registry after the creation *)
  destruct (getBuilder_run E threads w')
    as (data & w'' & Hget & Hquiet & _ & Hsound).
  destruct (getBuilder_complete E threads w')
    as (data' & w3 & Hget' & Hcomplete).
  { rewrite Hdir. fold root. cbn [fs w' set_fs]. by rewrite Hother. }
  { rewrite Hdir, Hmeta. fold root. cbn [fs w' set_fs].
    intros d [x Hx]. destruct (Hentries' _ _ Hx) as [Hd _].
    rewrite Hjoin by done.
    destruct (decide (d = threadId)) as [->|Hdne].
    - fold threadJsonPath. unfold f'. by rewrite lookup_insert_eq.
    - rewrite Hother; [apply Hfiles| |].
      + intros [_ H]%app_inj_2; [|done]. by injection H.
      + intros H. apply (f_equal length) in H.
        rewrite !length_app in H. cbn in H. lia. }
  rewrite Hget in Hget'. injection Hget' as <- <-.
  rewrite Hdir, Hmeta in Hcomplete, Hsound. fold root in Hcomplete, Hsound.
  cbn [fs w' set_fs] in Hcomplete, Hsound.
  assert (Js.get (Js.json t) "id" = Ok (JStr threadId)) as Hjsonid.
  { destruct (NoDup_object [Js.Spread thread;
                             Js.Field "id" (JStr threadId);
                             Js.Field "created" (JNum (now w));
                             Js.Field "updated" (JNum (now w))])
      as (ps & Hps & _).
    fold t in Hps. rewrite Hps in Htid |- *. rewrite json_object.
    cbn [Js.get] in *. injection Htid as Htid. f_equal.
    rewrite lookup_json_props_defined by (by rewrite Htid). by rewrite Htid. }
  assert (Js.json t ∈ data) as Hin.
  { apply (Hcomplete threadId (json_length E (Js.json t))).
    - exists Dir. unfold f'. rewrite lookup_insert_ne by done.
      apply lookup_insert_eq.
    - apply threadId_not_DS_Store.
    - rewrite Hjoin by done. apply lookup_insert_eq.
    - done. }
  destruct (filterById_complete threadId data (Js.json t))
    as (matching & Hmatch & Hinm); [|done..|].
  { eapply Forall_impl; [exact Hsound|]. by intros ? [? _]. }
  destruct (filterById_truthy threadId data) as (m' & Hm' & Hmsound).
  { eapply Forall_impl; [exact Hsound|]. by intros ? [? _]. }
  rewrite Hmatch in Hm'. injection Hm' as <-.
  destruct matching as [|r rest]; [by apply elem_of_nil in Hinm|].
  apply Forall_cons in Hmsound as [[Hrdata Hrid] _].
  rewrite Forall_forall in Hsound.
  destruct (Hsound r Hrdata) as [Hrtruthy (d & n & Hstored)].
  (* the first thread with the id is the created one *)
  assert (r = Js.json t) as ->.
  { destruct (decide (Fs.joinPath root [d; Threads.threadMetadataFileName]
                      = threadJsonPath)) as [Heq|Hneq].
    - rewrite Heq in Hstored. unfold f' in Hstored.
      rewrite lookup_insert_eq in Hstored. by injection Hstored.
    - destruct (decide (Fs.joinPath root [d; Threads.threadMetadataFileName]
                        = root ++ [threadId])) as [Heq|Hneq'].
      + rewrite Heq in Hstored. unfold f' in Hstored.
        rewrite lookup_insert_ne, lookup_insert_eq in Hstored by done.
        discriminate Hstored.
      + rewrite Hother in Hstored by done.
        by destruct (Hunique _ _ _ Hneq Hstored). }
  exists t, w', w''. split; [done|]. split; [done|]. split.
  - unfold Builder.retrieveBuilder. rewrite (M_bind_run _ _ _ _ _ Hget).
    unfold mbind at 1, M_bind at 1, Op.lift at 1. rewrite Hmatch.
    change (default JUndefined (head (Js.json t :: rest))) with (Js.json t).
    by rewrite Hrtruthy.
  - unfold quiet in Hquiet. by injection Hquiet.
Qed.

End thread_round_trip.

(** X24. A created thread can be retrieved by its id. In a [threads]
    folder whose entries are directories with proper names, when no
    [thread.json] path is a directory and no other stored document has
    the new id, [createThread] answers with a thread, and
    [retrieveBuilder] for the [threads] registry and the id of that
    thread then finds the document that was written for it, that is the
    thread as JSON represents it, without changing a file. *)
Theorem createThread_then_retrieveBuilder (E : env)
    (threads : Builder.RouteConfiguration) (thread : jsval) (w : world)
    (assistants len first assistant_id : jsval) :
  let threadId :=
    Js.to_string assistant_id +:+ "_" +:+ Threads.seconds (now w) in
  let root := Fs.joinPath (janDataFolderPath E) ["threads"] in
  let threadJsonPath := root ++ [threadId; Threads.threadMetadataFileName] in
  Builder.dirName threads = "threads" →
  Builder.metadataFileName threads = Threads.threadMetadataFileName →
  Js.get thread "assistants" = Ok assistants →
  Js.truthy assistants = true →
  Js.get assistants "length" = Ok len →
  Threads.is_zero len = false →
  Js.get assistants "0" = Ok first →
  Js.get first "assistant_id" = Ok assistant_id →
  Spec.plain threadId →
  fs w !! root = Some Dir →
  (∀ d x, fs w !! (root ++ [d]) = Some x → Spec.plain d ∧ x = Dir) →
  (∀ d, fs w !! (root ++ [d; Threads.threadMetadataFileName]) ≠ Some Dir) →
  (∀ q n v, q ≠ threadJsonPath → fs w !! q = Some (File n (Json v)) →
            Js.get v "id" ≠ Ok (JStr threadId)) →
  ∃ t w' w'',
    Threads.createThread E thread w = (Ok (Threads.Value t), w') ∧
    Js.get t "id" = Ok (JStr threadId) ∧
    Builder.retrieveBuilder E threads threadId w' = (Ok (Js.json t), w'') ∧
    fs w'' = fs w'.
Proof.
  intros threadId root threadJsonPath.
  apply createThread_then_retrieveBuilder_run.
Qed.

Lemma createThread_then_retrieveBuilder_witness :
  ∃ t w' w'',
    Threads.createThread Sample.E Sample10.request Sample10.w
      = (Ok (Threads.Value t), w') ∧
    Js.get t "id" = Ok (JStr "jan_1700000001") ∧
    Builder.retrieveBuilder Sample.E Sample10.threads "jan_1700000001" w'
      = (Ok (Js.json t), w'') ∧
    fs w'' = fs w'.
Proof.
  apply (createThread_then_retrieveBuilder Sample.E Sample10.threads
           Sample10.request Sample10.w
           (JArr [Js.object [Js.Field "assistant_id" (JStr "jan")]])
           (JNum 1)
           (Js.object [Js.Field "assistant_id" (JStr "jan")])
           (JStr "jan")); try reflexivity.
  - by split_and!.
  - intros d x Hx. apply elem_of_list_to_map_2 in Hx.
    change (Fs.joinPath (janDataFolderPath Sample.E) ["threads"])
      with ["jan"; "threads"] in Hx.
    cbn [app] in Hx.
    repeat (apply elem_of_cons in Hx as [Hx|Hx];
            [simplify_eq; try by split_and!|]).
    by apply elem_of_nil in Hx.
  - intros d Hx. apply elem_of_list_to_map_2 in Hx.
    change (Fs.joinPath (janDataFolderPath Sample.E) ["threads"])
      with ["jan"; "threads"] in Hx.
    cbn [app] in Hx.
    repeat (apply elem_of_cons in Hx as [Hx|Hx]; [simplify_eq|]).
    by apply elem_of_nil in Hx.
  - intros q n v _ Hx. apply elem_of_list_to_map_2 in Hx.
    repeat (apply elem_of_cons in Hx as [Hx|Hx];
            [simplify_eq; try discriminate|]).
    by apply elem_of_nil in Hx.
Defined.

(** ** Finding the descriptor of a folder: [getModelJsonPath] *)

Section getModelJsonPath.
Context (f : gmap (list string) node).
Hypothesis Hnamed : Layout.named f.

Lemma length_le_depth (q : list string) :
  is_Some (f !! q) → (length q ≤ Registry.depth f)%nat.
Proof.
  intros [x Hx]. unfold Registry.depth. apply max_list_elem_of_le.
  apply list_elem_of_fmap. exists q. split; [done|].
  apply list_elem_of_fmap. exists (q, x). split; [done|].
  by apply elem_of_map_to_list.
Qed.

(** The loop over the entries of a folder, for a given way to search a
    directory. *)
Let search (rec : list string → option (res (option (list string))))
    (folderFullPath : list string)
  : list string → option (res (option (list string))) :=
  fix loop (files : list string) :=
    match files with
    | [] => Some (Ok None)
    | file :: rest =>
        let path := Fs.joinPath folderFullPath [file] in
        match Fs.fileStat f path with
        | Throw e => Some (Throw e)
        | Ok fileStats =>
            if Stat.isDirectory fileStats then
              match rec path with
              | None => None
              | Some (Throw e) => Some (Throw e)
              | Some (Ok (Some result)) => Some (Ok (Some result))
              | Some (Ok None) => loop rest
              end
            else loop rest
        end
    end.

Lemma getModelJsonPath_fuel_S (n : nat) (folder : list string) :
  Registry.getModelJsonPath_fuel (S n) f folder
  = if negb (Fs.existsSync f folder) then Some (Ok None)
    else match Fs.readdirSync f folder with
         | Throw e => Some (Throw e)
         | Ok files =>
             if bool_decide (files = []) then Some (Ok None)
             else if bool_decide
                       (JanModelExtension._modelMetadataFileName ∈ files)
             then Some (Ok (Some (Fs.joinPath folder
                                    [JanModelExtension._modelMetadataFileName])))
             else search (Registry.getModelJsonPath_fuel n f) folder files
         end.
Proof. reflexivity. Qed.

(** What a search finds, or that there is nothing to find. *)
Let outcome (folder : list string)
    (r : option (res (option (list string)))) : Prop :=
  (∃ p, r = Some (Ok (Some p)) ∧ Registry.descriptor_below f folder p) ∨
  (r = Some (Ok None) ∧ ∀ p, ¬ Registry.descriptor_below f folder p).

Lemma search_outcome (rec : list string → option (res (option (list string))))
    (folder : list string) (files : list string) :
  f !! folder = Some Dir →
  (∀ d, d ∈ files → is_Some (f !! (folder ++ [d]))) →
  (∀ d, d ∈ files → f !! (folder ++ [d]) = Some Dir →
        outcome (folder ++ [d]) (rec (folder ++ [d]))) →
  (∃ p, search rec folder files = Some (Ok (Some p)) ∧
        Registry.descriptor_below f folder p) ∨
  (search rec folder files = Some (Ok None) ∧
   ∀ d p, d ∈ files → f !! (folder ++ [d]) = Some Dir →
          ¬ Registry.descriptor_below f (folder ++ [d]) p).
Proof.
  intros Hfolder. induction files as [|file rest IH]; intros Hentries Hrec.
  { right. split; [done|]. intros d p Hd. by apply elem_of_nil in Hd. }
  cbn [search]. cbv zeta.
  rewrite joinPath_plain by (eapply Hnamed, Hentries; by left).
  destruct (Hentries file (list_elem_of_here _ _)) as [x Hx].
  unfold Fs.fileStat. rewrite Hx.
  assert ((∃ p, search rec folder rest = Some (Ok (Some p)) ∧
                Registry.descriptor_below f folder p) ∨
          (search rec folder rest = Some (Ok None) ∧
           ∀ d p, d ∈ rest → f !! (folder ++ [d]) = Some Dir →
                  ¬ Registry.descriptor_below f (folder ++ [d]) p)) as Hrest.
  { apply IH; intros; [apply Hentries|apply Hrec]; by try right. }
  destruct x as [|n c]; cbn [Stat.isDirectory].
  - destruct (Hrec file (list_elem_of_here _ _) Hx)
      as [(p & -> & Hp)|[-> Hnone]].
    + left. exists p. split; [done|]. by apply (Registry.descriptor_deeper _ _ file).
    + destruct Hrest as [?|[Hrun Hnone']]; [by left|right].
      split; [done|]. intros d p [->|Hd]%elem_of_cons Hdir; [apply Hnone|].
      by apply Hnone'.
  - destruct Hrest as [?|[Hrun Hnone']]; [by left|right].
    split; [done|]. intros d p [->|Hd]%elem_of_cons Hdir; [congruence|].
    by apply Hnone'.
Qed.

Lemma getModelJsonPath_fuel_outcome (n : nat) :
  ∀ folder,
    f !! folder = Some Dir →
    (Registry.depth f - length folder < n)%nat →
    outcome folder (Registry.getModelJsonPath_fuel n f folder).
Proof.
  induction n as [|n IH]; intros folder Hfolder Hfuel; [lia|].
  rewrite getModelJsonPath_fuel_S. unfold Fs.existsSync, Fs.readdirSync.
  rewrite bool_decide_true by (by rewrite Hfolder). cbn [negb].
  rewrite Hfolder.
  assert (∀ d, d ∈ Fs.entries f folder ↔ is_Some (f !! (folder ++ [d])))
    as Hin by (intros; apply elem_of_entries).
  case_bool_decide as Hempty.
  { right. split; [done|]. intros p Hp.
    inversion Hp as [? _ Hd|? d ? _ Hd]; subst.
    - apply Hin in Hd. rewrite Hempty in Hd. by apply elem_of_nil in Hd.
    - assert (d ∈ Fs.entries f folder) as Hd' by (apply Hin; by eexists).
      rewrite Hempty in Hd'. by apply elem_of_nil in Hd'. }
  case_bool_decide as Hhere.
  { left. eexists. split; [done|].
    rewrite (joinPath_plain _ _ plain_model_json).
    apply Registry.descriptor_here; [done|]. by apply Hin. }
  destruct (search_outcome (Registry.getModelJsonPath_fuel n f) folder
              (Fs.entries f folder) Hfolder) as [Hfound|[Hrun Hnone]].
  - intros d Hd. by apply Hin.
  - intros d Hd Hdir. apply IH; [done|].
    assert (length (folder ++ [d]) ≤ Registry.depth f)%nat as Hlen
      by (apply length_le_depth; by eexists).
    rewrite length_app in Hlen |- *. cbn [length] in Hlen |- *. lia.
  - by left.
  - right. split; [done|]. intros p Hp.
    inversion Hp as [? _ Hd|? d ? _ Hd Hbelow]; subst.
    + apply Hhere. by apply Hin.
    + apply (Hnone d p); [|done..]. apply Hin. by eexists.
Qed.

End getModelJsonPath.

Lemma named_checked (f : gmap (list string) node) :
  map_Forall (λ q _, Layout.properly_named q = true) f → Layout.named f.
Proof.
  intros Hall p n [x Hx]. specialize (Hall _ _ Hx).
  unfold Layout.properly_named in Hall. rewrite last_snoc in Hall.
  apply andb_true_iff in Hall as [[[H1 H2]%andb_true_iff H3]%andb_true_iff H4].
  apply negb_true_iff in H2, H3, H4.
  split_and!; [done|by intros ->..].
Qed.

(** X25. [getModelJsonPath] finds a descriptor exactly when there is one.
    In a file system whose entries have proper names it always returns and
    changes nothing. For a folder that does not exist the answer is
    [undefined], for a file it throws [ENOTDIR]. For a directory the
    answer is the path of a [model.json] that is reached from the folder
    through directories only, and it is [undefined] only when no such
    entry exists at any depth; a [model.json] directly in the folder wins
    over those below. *)
Theorem getModelJsonPath_finds_descriptor_below (folderFullPath : list string)
    (w : world) :
  Layout.named (fs w) →
  ∃ r,
    Registry.getModelJsonPath folderFullPath w = (r, w) ∧
    match fs w !! folderFullPath with
    | None => r = Ok None
    | Some (File _ _) => r = Throw (FsError "ENOTDIR")
    | Some Dir =>
        ((∃ p, r = Ok (Some p) ∧
               Registry.descriptor_below (fs w) folderFullPath p) ∨
         (r = Ok None ∧
          ∀ p, ¬ Registry.descriptor_below (fs w) folderFullPath p)) ∧
        (is_Some (fs w !! (folderFullPath
                             ++ [JanModelExtension._modelMetadataFileName])) →
         r = Ok (Some (folderFullPath
                         ++ [JanModelExtension._modelMetadataFileName])))
    end.
Proof.
  intros Hnamed. unfold Registry.getModelJsonPath.
  destruct (fs w !! folderFullPath) as [[|n c]|] eqn:Hfolder.
  - destruct (getModelJsonPath_fuel_outcome (fs w) Hnamed
                (S (S (Registry.depth (fs w)))) folderFullPath Hfolder)
      as [(p & Hrun & Hp)|[Hrun Hnone]]; [lia|..].
    + rewrite Hrun. eexists. split; [done|]. split; [left; by exists p|].
      intros Hhere. revert Hrun. rewrite getModelJsonPath_fuel_S.
      unfold Fs.existsSync, Fs.readdirSync.
      rewrite bool_decide_true by (by rewrite Hfolder). cbn [negb].
      rewrite Hfolder. apply elem_of_entries in Hhere.
      rewrite bool_decide_false by (intros Heq; rewrite Heq in Hhere;
                                    by apply elem_of_nil in Hhere).
      rewrite bool_decide_true by done.
      rewrite (joinPath_plain _ _ plain_model_json). by intros [= <-].
    + rewrite Hrun. eexists. split; [done|]. split; [by right|].
      intros Hhere. destruct (Hnone _ (Registry.descriptor_here _ _ Hfolder Hhere)).
  - eexists. split; [|done].
    cbn [Registry.getModelJsonPath_fuel]. unfold Fs.existsSync, Fs.readdirSync.
    rewrite bool_decide_true by (by rewrite Hfolder). cbn [negb].
    by rewrite Hfolder.
  - eexists. split; [|done].
    cbn [Registry.getModelJsonPath_fuel]. unfold Fs.existsSync.
    rewrite bool_decide_false by (rewrite Hfolder; by intros [? ?]). done.
Qed.

Lemma getModelJsonPath_finds_descriptor_below_witness :
  Registry.getModelJsonPath ["jan"; "models"; "deep"] Sample11.w
  = (Ok (Some ["jan"; "models"; "deep"; "b"; "c"; "model.json"]), Sample11.w).
Proof.
  destruct (getModelJsonPath_finds_descriptor_below ["jan"; "models"; "deep"]
              Sample11.w) as (r & Hrun & _).
  - apply named_checked. apply (bool_decide_unpack _). by vm_compute.
  - rewrite Hrun. f_equal. vm_compute in Hrun. by injection Hrun as <-.
Defined.
